(** * o65dump: a shallow embedding of [src/dump/o65dump.c]

    The dumper walks a ".o65" object file front to back and prints an
    annotated report.  Every C function of [o65dump.c] is embedded below
    under its own name.  A function that prints returns the text it wrote
    (standard output is append-only, so a caller concatenates); a function
    that reads takes the stream and returns the stream it leaves behind.

    [o65file.h] and [o65file.c] are not part of the sources that were
    verified: their constants and readers are the fields of the class
    [o65file], so every theorem holds for any implementation of them. *)

From Stdlib Require Import ZArith List Strings.String Strings.Ascii Strings.Byte Bool Lia.
From Stdlib Require Import DecimalString Sorted.
Import ListNotations.

Local Open Scope string_scope.
Local Open Scope Z_scope.

(** ** C library: characters, [printf] conversions *)

(** The line feed, written "\n" in the C source. *)
Definition LF : string := String "010"%char EmptyString.

Definition byte_val (b : byte) : Z := Z.of_N (Byte.to_N b).

(** [putc(ch, stdout)] for a character code [ch]. *)
Definition putc (ch : Z) : string :=
  String (ascii_of_N (Z.to_N ch)) EmptyString.

Definition hex_digit (d : Z) : ascii :=
  ascii_of_N (Z.to_N (if d <? 10 then 48 + d else 87 + d)).

(** The [n] low hexadecimal digits of [v], most significant first. *)
Fixpoint hex_fixed (n : nat) (v : Z) : string :=
  match n with
  | O => EmptyString
  | S k => hex_fixed k (v / 16) ++ String (hex_digit (v mod 16)) EmptyString
  end.

(** Number of hexadecimal digits [printf] needs for [v] without padding. *)
Definition hex_len (v : Z) : nat :=
  if v <=? 0 then 1%nat else Z.to_nat (Z.log2 v / 4 + 1).

(** ["%0<w>x"]: the argument is converted to [unsigned int]. *)
Definition fmt_x (w : nat) (v : Z) : string :=
  let u := v mod 2 ^ 32 in hex_fixed (Nat.max w (hex_len u)) u.

(** ["%0<w>lx"]: the argument is an [unsigned long] (64 bits). *)
Definition fmt_lx (w : nat) (v : Z) : string :=
  let u := v mod 2 ^ 64 in hex_fixed (Nat.max w (hex_len u)) u.

(** ["%lu"]. *)
Definition fmt_lu (v : Z) : string :=
  NilZero.string_of_uint (N.to_uint (Z.to_N (v mod 2 ^ 64))).

(** ["%d"]. *)
Definition fmt_d (v : Z) : string :=
  NilZero.string_of_int (Z.to_int v).

(** The texts of a list, one after the other. *)
Definition concat_text (texts : list string) : string :=
  fold_right append EmptyString texts.

(** ** C library: streams *)

(** An open input stream: the bytes not yet read and the end-of-file
    indicator that [feof] tests. *)
Record FILE : Type := mkFILE { content : list byte; eof : bool }.

(** [getc(file)]: the next byte as an [int], or [EOF] (-1). *)
Definition getc (file : FILE) : Z * FILE :=
  match content file with
  | [] => (-1, mkFILE [] true)
  | b :: rest => (byte_val b, mkFILE rest (eof file))
  end.

(** [fread(buf, 1, n, file)]: the number of bytes read, the buffer (bytes
    past the ones read keep their old contents) and the stream. *)
Definition fread (buf : list byte) (n : Z) (file : FILE)
  : Z * list byte * FILE :=
  let got := firstn (Z.to_nat n) (content file) in
  (Z.of_nat (List.length got),
   (got ++ skipn (List.length got) buf)%list,
   mkFILE (skipn (Z.to_nat n) (content file))
          (eof file || (List.length got <? Z.to_nat n)%nat)).

(** ** Types of [o65file.h] *)

(** Modelled from the spec: [o65_size_t], the type of every base, length,
    value and address.  The header file is not among the sources; the spec
    reads these fields with 16 or 32 bits and calls the arithmetic
    unsigned and wrapping, and the source prints them with ["%x"], so the
    type is an unsigned 32-bit integer. *)
Definition o65_size (v : Z) : Z := v mod 2 ^ 32.

Record o65_header_t : Type := mk_header {
  mode : Z;
  tbase : Z; tlen : Z;
  dbase : Z; dlen : Z;
  bbase : Z; blen : Z;
  zbase : Z; zlen : Z;
  stack : Z
}.

(** [o65_option_t]; the C fields are [type], [len] and [data]. *)
Record o65_option_t : Type := mk_option {
  opt_type : Z;
  opt_len : Z;
  opt_data : list byte
}.

(** [o65_reloc_t]; the C fields are [offset], [type], [extra], [undefid]. *)
Record o65_reloc_t : Type := mk_reloc {
  reloc_offset : Z;
  reloc_type : Z;
  reloc_extra : Z;
  reloc_undefid : Z
}.

Fixpoint distinct (l : list Z) : bool :=
  match l with
  | [] => true
  | x :: l' => negb (existsb (Z.eqb x) l') && distinct l'
  end.

(** The part of [o65file.h] / [o65file.c] that [o65dump.c] uses.  The
    law says that the [case] labels of the relocation [switch] are
    pairwise distinct, which C requires of the source for it to
    compile. *)
Class o65file : Type := {
  O65_MODE_PAGED : Z;
  O65_MODE_32BIT : Z;
  O65_MODE_OBJ : Z;
  O65_MODE_SIMPLE : Z;
  O65_MODE_CHAIN : Z;
  O65_MODE_BSSZERO : Z;
  O65_MODE_ALIGN : Z;
  O65_MODE_ALIGN_8 : Z;
  O65_MODE_ALIGN_16 : Z;
  O65_MODE_ALIGN_32 : Z;
  O65_MODE_ALIGN_256 : Z;
  O65_OPT_FILENAME : Z;
  O65_OPT_OS : Z;
  O65_OPT_PROGRAM : Z;
  O65_OPT_AUTHOR : Z;
  O65_OPT_CREATED : Z;
  O65_RELOC_SEGID : Z;
  O65_RELOC_TYPE : Z;
  O65_RELOC_WORD : Z;
  O65_RELOC_LOW : Z;
  O65_RELOC_SEGADR : Z;
  O65_RELOC_HIGH : Z;
  O65_RELOC_SEG : Z;
  O65_SEGID_UNDEF : Z;
  o65_read_uint16 : list byte -> Z;
  o65_read_uint32 : list byte -> Z;
  o65_get_cpu_name : Z -> string;
  o65_get_segment_name : Z -> string;
  o65_read_header : FILE -> Z * o65_header_t * FILE;
  o65_read_option : FILE -> Z * o65_option_t * FILE;
  o65_read_reloc : FILE -> o65_header_t -> Z * o65_reloc_t * FILE;
  (** the text [perror] appends for the current [errno] *)
  strerror_errno : string;
  (** what the automatic array [uint8_t buf[4]] holds before it is written *)
  indeterminate_buf : list byte;
  reloc_labels_distinct :
    distinct [O65_RELOC_WORD; O65_RELOC_LOW; O65_RELOC_SEGADR;
              O65_RELOC_HIGH; O65_RELOC_SEG] = true
}.

(** ** The dumper *)

Section Dump.

Context {lib : o65file}.

(** [perror(filename)]: the string, a colon and a space come before the
    message only when the string is not empty. *)
Definition perror (filename : string) : string :=
  if (filename =? EmptyString)%string then strerror_errno ++ LF
  else filename ++ ": " ++ strerror_errno ++ LF.

(** [file_error]: what goes to the error stream. *)
Definition file_error (file : FILE) (filename : string) : string :=
  if eof file then filename ++ ": unexpected EOF" ++ LF
  else perror filename.

(** One character of a string or name: printable ASCII as it is, NUL
    nothing, anything else as a backslash escape (the [if] chain shared by
    [dump_string] and [dump_nul_string]). *)
Definition dump_char (ch : Z) : string :=
  if (ch >=? 32) && (ch <=? 126) then putc ch
  else if negb (ch =? 0) then "\x" ++ fmt_x 2 ch
  else EmptyString.

(** [data] is the readable extent of the buffer the pointer refers to. *)
Fixpoint dump_string (data : list byte) (len : Z) : string :=
  if len >? 0 then
    match data with
    | [] => EmptyString
    | b :: data' => dump_char (byte_val b) ++ dump_string data' (len - 1)
    end
  else EmptyString.

(** The [for (;;)] of [dump_nul_string]; every turn is one [getc], which
    answers [EOF] (the only negative value) exactly on the empty stream. *)
Fixpoint dump_nul_string_loop (bytes : list byte) (at_eof : bool)
  : Z * FILE * string :=
  match bytes with
  | [] => (-1, mkFILE [] true, EmptyString)
  | b :: rest =>
      let ch := byte_val b in
      if ch =? 0 then (1, mkFILE rest at_eof, EmptyString)
      else
        let '(result, file, out) := dump_nul_string_loop rest at_eof in
        (result, file, dump_char ch ++ out)
  end.

Definition dump_nul_string (file : FILE) : Z * FILE * string :=
  dump_nul_string_loop (content file) (eof file).

Fixpoint dump_hex (data : list byte) (len : Z) : string :=
  if len >? 0 then
    match data with
    | [] => EmptyString
    | b :: data' => " " ++ fmt_x 2 (byte_val b) ++ dump_hex data' (len - 1)
    end
  else EmptyString.

Definition dump_hex_line (header : o65_header_t) (addr : Z)
  (data : list byte) (len : Z) : string :=
  (if negb (Z.land (mode header) O65_MODE_32BIT =? 0)
   then "    " ++ fmt_lx 8 addr ++ ":"
   else "    " ++ fmt_lx 4 addr ++ ":")
  ++ dump_hex data len ++ LF.

Definition dump_option (option : o65_option_t) : string :=
  "    " ++
  (if opt_type option =? O65_OPT_FILENAME then
     "Filename: " ++ dump_string (opt_data option) (opt_len option - 2)
   else if opt_type option =? O65_OPT_OS then
     "Operating System Information:"
       ++ dump_hex (opt_data option) (opt_len option - 2)
   else if opt_type option =? O65_OPT_PROGRAM then
     "Assembler/Linker: " ++ dump_string (opt_data option) (opt_len option - 2)
   else if opt_type option =? O65_OPT_AUTHOR then
     "Author: " ++ dump_string (opt_data option) (opt_len option - 2)
   else if opt_type option =? O65_OPT_CREATED then
     "Created: " ++ dump_string (opt_data option) (opt_len option - 2)
   else
     "Option " ++ fmt_d (opt_type option) ++ ":"
       ++ dump_hex (opt_data option) (opt_len option - 2))
  ++ LF.

(** The chunk loop of [dump_segment] followed by its final partial chunk.
    [n] is the number of whole 16-byte chunks in [len], so the loop test
    fails before [n] runs out. *)
Fixpoint dump_segment_loop (n : nat) (file : FILE) (header : o65_header_t)
  (buf : list byte) (base len : Z) : Z * FILE * string :=
  if len >=? 16 then
    match n with
    | O => (1, file, EmptyString)
    | S n' =>
        let '(got, buf, file) := fread buf 16 file in
        if negb (got =? 16) then (-1, file, EmptyString)
        else
          let '(result, file, out) :=
            dump_segment_loop n' file header buf
              (o65_size (base + 16)) (len - 16) in
          (result, file, dump_hex_line header base buf 16 ++ out)
    end
  else if len >? 0 then
    let '(got, buf, file) := fread buf len file in
    if negb (got =? len) then (-1, file, EmptyString)
    else (1, file, dump_hex_line header base buf len)
  else (1, file, EmptyString).

Definition dump_segment (file : FILE) (name : string)
  (header : o65_header_t) (base len : Z) : Z * FILE * string :=
  let '(result, file, out) :=
    dump_segment_loop (Z.to_nat (len / 16)) file header [] base len in
  (result, file, LF ++ name ++ ": " ++ fmt_lu len ++ " bytes" ++ LF ++ out).

(** The [for] loop of [dump_undefined_symbols], [n] turns from [index]. *)
Fixpoint dump_undefined_symbols_loop (n : nat) (file : FILE) (index : Z)
  : Z * FILE * string :=
  match n with
  | O => (1, file, EmptyString)
  | S n' =>
      let '(result, file, name) := dump_nul_string file in
      let line := "    " ++ fmt_lu index ++ ": " ++ name in
      if result <=? 0 then (result, file, line)
      else
        let '(result, file, out) :=
          dump_undefined_symbols_loop n' file (o65_size (index + 1)) in
        (result, file, line ++ LF ++ out)
  end.

(** [dump_undefined_symbols] from the test of [count] on. *)
Definition dump_undefined_symbols_from (file : FILE) (count : Z)
  : Z * FILE * string :=
  if count =? 0 then
    (1, file, LF ++ "Undefined Symbols: none" ++ LF)
  else
    let '(result, file, out) :=
      dump_undefined_symbols_loop (Z.to_nat count) file 0 in
    (result, file, LF ++ "Undefined Symbols:" ++ LF ++ out).

Definition dump_undefined_symbols (file : FILE) (header : o65_header_t)
  : Z * FILE * string :=
  if Z.land (mode header) O65_MODE_32BIT =? 0 then
    let '(got, buf, file) := fread indeterminate_buf 2 file in
    if negb (got =? 2) then (-1, file, EmptyString)
    else dump_undefined_symbols_from file (o65_size (o65_read_uint16 buf))
  else
    let '(got, buf, file) := fread indeterminate_buf 4 file in
    if negb (got =? 2) then (-1, file, EmptyString)
    else dump_undefined_symbols_from file (o65_size (o65_read_uint32 buf)).

(** [dump_relocs], one real relocation at [addr]: the address column. *)
Definition dump_reloc_address (header : o65_header_t) (addr : Z) : string :=
  if negb (Z.land (mode header) O65_MODE_32BIT =? 0)
  then "    " ++ fmt_lx 8 addr ++ ": "
  else "    " ++ fmt_lx 4 addr ++ ": ".

(** "Print the segment that the relocation destination points to". *)
Definition dump_reloc_segment (reloc : o65_reloc_t) : string :=
  if Z.land (reloc_type reloc) O65_RELOC_SEGID =? O65_SEGID_UNDEF
  then "undef " ++ fmt_lu (reloc_undefid reloc)
  else o65_get_segment_name (Z.land (reloc_type reloc) O65_RELOC_SEGID).

(** "Print the relocation type plus any extra information": the [switch]
    on [reloc.type & O65_RELOC_TYPE]. *)
Definition dump_reloc_type (header : o65_header_t) (reloc : o65_reloc_t)
  : string :=
  let kind := Z.land (reloc_type reloc) O65_RELOC_TYPE in
  if kind =? O65_RELOC_WORD then "WORD"
  else if kind =? O65_RELOC_LOW then "LOW"
  else if kind =? O65_RELOC_SEGADR then "SEGADR"
  else if kind =? O65_RELOC_HIGH then
    if Z.land (mode header) O65_MODE_PAGED =? 0
    then "HIGH " ++ fmt_x 2 (reloc_extra reloc)
    else "HIGH"
  else if kind =? O65_RELOC_SEG then "SEG " ++ fmt_x 4 (reloc_extra reloc)
  else "RELOC-" ++ fmt_x 2 kind.

(** Everything [dump_relocs] prints for one real relocation at [addr]. *)
Definition dump_reloc_entry (header : o65_header_t) (addr : Z)
  (reloc : o65_reloc_t) : string :=
  dump_reloc_address header addr ++ dump_reloc_segment reloc ++ ", "
  ++ dump_reloc_type header reloc ++ LF.

(** The [for (;;)] of [dump_relocs].  The reader is external, so the loop
    carries fuel; [None] is "fuel ran out", never a result of the C code. *)
Fixpoint dump_relocs_loop (fuel : nat) (file : FILE) (header : o65_header_t)
  (addr : Z) : option (Z * FILE * string) :=
  match fuel with
  | O => None
  | S fuel' =>
      let '(result, reloc, file) := o65_read_reloc file header in
      if result <=? 0 then Some (result, file, EmptyString)
      else if reloc_offset reloc =? 0 then Some (1, file, EmptyString)
      else if reloc_offset reloc =? 255 then
        dump_relocs_loop fuel' file header (o65_size (addr + 254))
      else
        let addr := o65_size (addr + reloc_offset reloc) in
        match dump_relocs_loop fuel' file header addr with
        | None => None
        | Some (result, file, out) =>
            Some (result, file, dump_reloc_entry header addr reloc ++ out)
        end
  end.

Definition dump_relocs (fuel : nat) (file : FILE) (name : string)
  (header : o65_header_t) (addr : Z) : option (Z * FILE * string) :=
  let addr := o65_size (addr - 1) in
  match dump_relocs_loop fuel file header addr with
  | None => None
  | Some (result, file, out) =>
      Some (result, file, LF ++ name ++ ".relocs:" ++ LF ++ out)
  end.

(** The value of one exported symbol: read and printed. *)
Definition dump_exported_value (file : FILE) (header : o65_header_t)
  (buf : list byte) : Z * list byte * FILE * string :=
  if Z.land (mode header) O65_MODE_32BIT =? 0 then
    let '(got, buf, file) := fread buf 2 file in
    if negb (got =? 2) then (-1, buf, file, EmptyString)
    else
      let value := o65_size (o65_read_uint16 buf) in
      (1, buf, file, ", 0x" ++ fmt_lx 4 value ++ LF)
  else
    let '(got, buf, file) := fread buf 4 file in
    if negb (got =? 2) then (-1, buf, file, EmptyString)
    else
      let value := o65_size (o65_read_uint32 buf) in
      (1, buf, file, ", 0x" ++ fmt_lx 8 value ++ LF).

(** The [for] loop of [dump_exported_symbols], [n] turns. *)
Fixpoint dump_exported_symbols_loop (n : nat) (file : FILE)
  (header : o65_header_t) (buf : list byte) : Z * FILE * string :=
  match n with
  | O => (1, file, EmptyString)
  | S n' =>
      let '(result, file, name) := dump_nul_string file in
      if result <=? 0 then (result, file, "    " ++ name)
      else
        let '(ch, file) := getc file in
        if ch =? -1 then (-1, file, "    " ++ name)
        else
          let line := "    " ++ name ++ ", " ++ o65_get_segment_name ch in
          let '(result, buf, file, value) :=
            dump_exported_value file header buf in
          if result <=? 0 then (result, file, line)
          else
            let '(result, file, out) :=
              dump_exported_symbols_loop n' file header buf in
            (result, file, line ++ value ++ out)
  end.

(** [dump_exported_symbols] from the test of [count] on. *)
Definition dump_exported_symbols_from (file : FILE) (header : o65_header_t)
  (buf : list byte) (count : Z) : Z * FILE * string :=
  if count =? 0 then
    (1, file, LF ++ "Exported Symbols: none" ++ LF)
  else
    let '(result, file, out) :=
      dump_exported_symbols_loop (Z.to_nat count) file header buf in
    (result, file, LF ++ "Exported Symbols:" ++ LF ++ out).

Definition dump_exported_symbols (file : FILE) (header : o65_header_t)
  : Z * FILE * string :=
  if Z.land (mode header) O65_MODE_32BIT =? 0 then
    let '(got, buf, file) := fread indeterminate_buf 2 file in
    if negb (got =? 2) then (-1, file, EmptyString)
    else
      dump_exported_symbols_from file header buf
        (o65_size (o65_read_uint16 buf))
  else
    let '(got, buf, file) := fread indeterminate_buf 4 file in
    if negb (got =? 2) then (-1, file, EmptyString)
    else
      dump_exported_symbols_from file header buf
        (o65_size (o65_read_uint32 buf)).

(** The text [dump_image] prints for the mode word. *)
Definition dump_mode (header : o65_header_t) : string :=
  let m := mode header in
  "    mode  = 0x" ++ fmt_x 4 m ++ " (" ++ o65_get_cpu_name m
  ++ (if negb (Z.land m O65_MODE_PAGED =? 0)
      then ", pagewise relocation" else EmptyString)
  ++ (if negb (Z.land m O65_MODE_32BIT =? 0)
      then ", 32-bit addresses" else ", 16-bit addresses")
  ++ (if negb (Z.land m O65_MODE_OBJ =? 0) then ", obj" else ", exe")
  ++ (if negb (Z.land m O65_MODE_SIMPLE =? 0)
      then ", simple" else EmptyString)
  ++ (if negb (Z.land m O65_MODE_CHAIN =? 0)
      then ", chain" else EmptyString)
  ++ (if negb (Z.land m O65_MODE_BSSZERO =? 0)
      then ", bsszero" else EmptyString)
  ++ (let a := Z.land m O65_MODE_ALIGN in
      if a =? O65_MODE_ALIGN_8 then ", byte alignment"
      else if a =? O65_MODE_ALIGN_16 then ", word alignment"
      else if a =? O65_MODE_ALIGN_32 then ", long alignment"
      else if a =? O65_MODE_ALIGN_256 then ", page alignment"
      else EmptyString)
  ++ ")" ++ LF.

(** The nine base, length and stack lines of [dump_image]. *)
Definition dump_header_fields (header : o65_header_t) : string :=
  if negb (Z.land (mode header) O65_MODE_32BIT =? 0) then
    "    tbase = 0x" ++ fmt_lx 8 (tbase header) ++ LF ++
    "    tlen  = 0x" ++ fmt_lx 8 (tlen header) ++ LF ++
    "    dbase = 0x" ++ fmt_lx 8 (dbase header) ++ LF ++
    "    dlen  = 0x" ++ fmt_lx 8 (dlen header) ++ LF ++
    "    bbase = 0x" ++ fmt_lx 8 (bbase header) ++ LF ++
    "    blen  = 0x" ++ fmt_lx 8 (blen header) ++ LF ++
    "    zbase = 0x" ++ fmt_lx 8 (zbase header) ++ LF ++
    "    zlen  = 0x" ++ fmt_lx 8 (zlen header) ++ LF ++
    "    stack = 0x" ++ fmt_lx 8 (stack header) ++ LF
  else
    "    tbase = 0x" ++ fmt_x 4 (tbase header) ++ LF ++
    "    tlen  = 0x" ++ fmt_x 4 (tlen header) ++ LF ++
    "    dbase = 0x" ++ fmt_x 4 (dbase header) ++ LF ++
    "    dlen  = 0x" ++ fmt_x 4 (dlen header) ++ LF ++
    "    bbase = 0x" ++ fmt_x 4 (bbase header) ++ LF ++
    "    blen  = 0x" ++ fmt_x 4 (blen header) ++ LF ++
    "    zbase = 0x" ++ fmt_x 4 (zbase header) ++ LF ++
    "    zlen  = 0x" ++ fmt_x 4 (zlen header) ++ LF ++
    "    stack = 0x" ++ fmt_x 4 (stack header) ++ LF.

(** The option loop of [dump_image] ("Read and dump the header options");
    fuel as in [dump_relocs_loop]. *)
Fixpoint dump_options (fuel : nat) (file : FILE) (have_options : bool)
  : option (Z * FILE * string) :=
  match fuel with
  | O => None
  | S fuel' =>
      let '(result, option, file) := o65_read_option file in
      if result <=? 0 then Some (result, file, EmptyString)
      else if opt_len option =? 0 then Some (result, file, EmptyString)
      else
        let title :=
          if negb have_options then LF ++ "Options:" ++ LF else EmptyString in
        match dump_options fuel' file true with
        | None => None
        | Some (result, file, out) =>
            Some (result, file, title ++ dump_option option ++ out)
        end
  end.

(** A step of an image dump, run on the stream: its result code, the
    stream afterwards and the text printed, or [None] out of fuel. *)
Definition step : Type := FILE -> option (Z * FILE * string).

(** [result = s(file); if (result <= 0) return result;] then [k]. *)
Definition and_then (s k : step) : step :=
  fun file =>
    match s file with
    | None => None
    | Some (result, file, out) =>
        if result <=? 0 then Some (result, file, out)
        else
          match k file with
          | None => None
          | Some (result, file, out') => Some (result, file, out ++ out')
          end
    end.

Definition printf (text : string) : step :=
  fun file => Some (1, file, text).

Definition total (f : FILE -> Z * FILE * string) : step :=
  fun file => Some (f file).

Notation "s ;; k" := (and_then s k) (at level 61, right associativity).

Definition dump_image (fuel : nat) (file : FILE) (header : o65_header_t)
  : option (Z * FILE * string) :=
  (printf ("Header:" ++ LF ++ dump_mode header ++ dump_header_fields header) ;;
   (fun file => dump_options fuel file false) ;;
   total (fun file =>
     dump_segment file ".text" header (tbase header) (tlen header)) ;;
   total (fun file =>
     dump_segment file ".data" header (dbase header) (dlen header)) ;;
   total (fun file => dump_undefined_symbols file header) ;;
   (fun file => dump_relocs fuel file ".text" header (tbase header)) ;;
   (fun file => dump_relocs fuel file ".data" header (dbase header)) ;;
   total (fun file => dump_exported_symbols file header)) file.

(** The [do ... while] of [dump_file] on the opened stream: the value
    [dump_file] returns, standard output and the error stream. *)
Fixpoint dump_file_loop (fuel : nat) (file : FILE) (filename : string)
  : option (Z * string * string) :=
  match fuel with
  | O => None
  | S fuel' =>
      let '(result, header, file) := o65_read_header file in
      if result <? 0 then Some (0, EmptyString, file_error file filename)
      else if result =? 0 then
        Some (0, EmptyString, filename ++ ": not in .o65 format" ++ LF)
      else
        match dump_image fuel' file header with
        | None => None
        | Some (result, file, out) =>
            if result <? 0 then Some (0, out, file_error file filename)
            else if result =? 0 then
              Some (0, out, filename ++ ": invalid format" ++ LF)
            else if negb (Z.land (mode header) O65_MODE_CHAIN =? 0) then
              match dump_file_loop fuel' file filename with
              | None => None
              | Some (ok, out', err) => Some (ok, out ++ LF ++ out', err)
              end
            else Some (1, out, EmptyString)
        end
  end.

(** The files [fopen] can open, by name, with their bytes. *)
Definition filesystem : Type := string -> option (list byte).

Definition dump_file (fuel : nat) (fs : filesystem) (filename : string)
  : option (Z * string * string) :=
  match fs filename with
  | None => Some (0, EmptyString, perror filename)
  | Some bytes => dump_file_loop fuel (mkFILE bytes false) filename
  end.

(** The [for] loop of [main], [n] turns from [arg]: exit value, standard
    output, error stream. *)
Fixpoint main_loop (fuel : nat) (fs : filesystem) (n : nat) (arg argc : Z)
  (argv : list string) (exit_val : Z) : option (Z * string * string) :=
  match n with
  | O => Some (exit_val, EmptyString, EmptyString)
  | S n' =>
      let out1 := if arg >? 1 then LF else EmptyString in
      let out2 :=
        if argc >? 2 then nth 1 argv EmptyString ++ ":" ++ LF ++ LF
        else EmptyString in
      match dump_file fuel fs (nth 1 argv EmptyString) with
      | None => None
      | Some (ok, out, err) =>
          let exit_val := if ok =? 0 then 1 else exit_val in
          match main_loop fuel fs n' (arg + 1) argc argv exit_val with
          | None => None
          | Some (code, out', err') =>
              Some (code, out1 ++ out2 ++ out ++ out', err ++ err')
          end
      end
  end.

(** [argv] holds the program name and the arguments; [argc] is its
    length. *)
Definition main (fuel : nat) (fs : filesystem) (argv : list string)
  : option (Z * string * string) :=
  let argc := Z.of_nat (List.length argv) in
  if argc <=? 1 then
    Some (1, EmptyString,
          "Usage: " ++ nth 0 argv EmptyString ++ " file1 ..." ++ LF)
  else main_loop fuel fs (Z.to_nat (argc - 1)) 1 argc argv 0.

(** ** Vocabulary of the specification *)

(** The records the external option reader yields from [file] on, one
    successful call after the other, and the stream after the last. *)
Inductive option_reads : FILE -> list o65_option_t -> FILE -> Prop :=
| option_reads_nil : forall file, option_reads file [] file
| option_reads_cons : forall file result option file1 options file2,
    o65_read_option file = (result, option, file1) ->
    0 < result ->
    option_reads file1 options file2 ->
    option_reads file (option :: options) file2.

(** The title the option loop prints ahead of [options], given whether
    it has printed an option before. *)
Definition options_title (have_options : bool)
  (options : list o65_option_t) : string :=
  if have_options then EmptyString
  else match options with
       | [] => EmptyString
       | _ :: _ => LF ++ "Options:" ++ LF
       end.

(** The same for the relocation-entry reader. *)
Inductive reloc_reads (header : o65_header_t)
  : FILE -> list o65_reloc_t -> FILE -> Prop :=
| reloc_reads_nil : forall file, reloc_reads header file [] file
| reloc_reads_cons : forall file result reloc file1 relocs file2,
    o65_read_reloc file header = (result, reloc, file1) ->
    0 < result ->
    reloc_reads header file1 relocs file2 ->
    reloc_reads header file (reloc :: relocs) file2.

(** What one entry adds to the cursor: 254 for the skip marker, its
    offset otherwise. *)
Definition reloc_step (reloc : o65_reloc_t) : Z :=
  if reloc_offset reloc =? 255 then 254 else reloc_offset reloc.

Definition reloc_steps (relocs : list o65_reloc_t) : Z :=
  fold_right (fun reloc total => reloc_step reloc + total) 0 relocs.

(** The relocations a list of entries (none a sentinel) reports from the
    cursor [addr] on, each with its address. *)
Fixpoint reloc_walk (addr : Z) (relocs : list o65_reloc_t)
  : list (Z * o65_reloc_t) :=
  match relocs with
  | [] => []
  | reloc :: relocs' =>
      let addr' := o65_size (addr + reloc_step reloc) in
      if reloc_offset reloc =? 255 then reloc_walk addr' relocs'
      else (addr', reloc) :: reloc_walk addr' relocs'
  end.

Definition reloc_lines (header : o65_header_t)
  (entries : list (Z * o65_reloc_t)) : string :=
  concat_text
    (map (fun e => dump_reloc_entry header (fst e) (snd e)) entries).

(** The width of an address field: 8 digits with the 32-bit flag, 4
    without. *)
Definition addr_digits (header : o65_header_t) : nat :=
  if Z.land (mode header) O65_MODE_32BIT =? 0 then 4%nat else 8%nat.

End Dump.

(** A value of type [o65_size_t]. *)
Definition size_ok (v : Z) : Prop := 0 <= v < 2 ^ 32.

(** [v] in hexadecimal with at least [w] digits, padded with zeros. *)
Definition hex_min (w : nat) (v : Z) : string :=
  hex_fixed (Nat.max w (hex_len v)) v.

(** A header all of whose bases, lengths and stack size are values of
    type [o65_size_t]. *)
Definition header_ok (header : o65_header_t) : Prop :=
  Forall size_ok
    [tbase header; tlen header; dbase header; dlen header; bbase header;
     blen header; zbase header; zlen header; stack header].

(** One line of the header report with a field [w] digits wide. *)
Definition header_line (label : string) (w : nat) (v : Z) : string :=
  "    " ++ label ++ " = 0x" ++ hex_min w v ++ LF.

(** How a byte of a string shows, in the words of the specification:
    printable ASCII verbatim, NUL not at all, any other byte as a
    backslash, an x and two hexadecimal digits. *)
Definition escape_byte (b : byte) : string :=
  let v := byte_val b in
  if (32 <=? v) && (v <=? 126) then String (ascii_of_byte b) EmptyString
  else if v =? 0 then EmptyString
  else String "\"%char (String "x"%char
         (String (hex_digit (v / 16))
            (String (hex_digit (v mod 16)) EmptyString))).

Definition escape_bytes (data : list byte) : string :=
  concat_text (map escape_byte data).

(** Number of line feeds in a text. *)
Fixpoint count_lf (s : string) : nat :=
  match s with
  | EmptyString => O
  | String c s' =>
      ((if Ascii.eqb c "010"%char then 1 else 0) + count_lf s')%nat
  end.

(** A text that is one line: no line feed but the one that ends it. *)
Definition one_line (s : string) : Prop :=
  exists body, s = body ++ LF /\ count_lf body = O.

(** ** Vocabulary of the tables and payloads *)

(** Printable ASCII, 0x20 to 0x7E. *)
Definition printable (b : byte) : bool :=
  (32 <=? byte_val b) && (byte_val b <=? 126).

(** A byte as [dump_hex] shows it: a space and two hexadecimal digits. *)
Definition hex_byte (b : byte) : string :=
  String " "%char
    (String (hex_digit (byte_val b / 16))
       (String (hex_digit (byte_val b mod 16)) EmptyString)).

(** Names on the stream, each closed by its NUL. *)
Definition names_bytes (names : list (list byte)) : list byte :=
  List.concat (map (fun name => name ++ [x00])%list names).

(** The lines of an undefined-symbol table whose first index is
    [index]. *)
Fixpoint undefined_symbol_lines (index : Z) (names : list (list byte))
  : string :=
  match names with
  | [] => EmptyString
  | name :: names' =>
      "    " ++ fmt_lu index ++ ": " ++ escape_bytes name ++ LF
      ++ undefined_symbol_lines (index + 1) names'
  end.

(** An exported symbol of a 16-bit image as it lies on the stream: the
    name, the segment identifier and the two bytes of the value. *)
Record exported_symbol : Type := mk_exported {
  exp_name : list byte;
  exp_segid : byte;
  exp_value0 : byte;
  exp_value1 : byte
}.

Definition exported_bytes (symbols : list exported_symbol) : list byte :=
  List.concat
    (map (fun s =>
            exp_name s ++ [x00; exp_segid s; exp_value0 s; exp_value1 s])%list
       symbols).

Section Tables.

Context {lib : o65file}.

(** The four-byte buffer after two bytes were read into it. *)
Definition buf16 (b0 b1 : byte) : list byte :=
  b0 :: b1 :: skipn 2 indeterminate_buf.

(** The line of one exported symbol of a 16-bit image. *)
Definition exported_line (s : exported_symbol) : string :=
  "    " ++ escape_bytes (exp_name s) ++ ", "
  ++ o65_get_segment_name (byte_val (exp_segid s)) ++ ", 0x"
  ++ hex_min 4
       (o65_size (o65_read_uint16 (buf16 (exp_value0 s) (exp_value1 s))))
  ++ LF.

End Tables.

(** ** Reports at one width *)

Section Reports.

Context {lib : o65file}.

(** The line of one relocation, its address [w] digits wide. *)
Definition reloc_line (w : nat) (header : o65_header_t)
  (entry : Z * o65_reloc_t) : string :=
  "    " ++ hex_min w (fst entry) ++ ": "
  ++ dump_reloc_segment (snd entry) ++ ", "
  ++ dump_reloc_type header (snd entry) ++ LF.

(** The report of an image in which one width [w] is fixed for the image
    and handed to every renderer of an address: the header lines, the
    segment lines, the relocation lines and the values of the exported
    symbols all print their address with [hex_min w].  What is read, and
    when a read fails, is as in the dumper. *)
Definition hex_line_at (w : nat) (addr : Z) (data : list byte) (len : Z)
  : string :=
  "    " ++ hex_min w addr ++ ":" ++ dump_hex data len ++ LF.

Fixpoint segment_loop_at (w : nat) (n : nat) (file : FILE)
  (buf : list byte) (base len : Z) : Z * FILE * string :=
  if len >=? 16 then
    match n with
    | O => (1, file, EmptyString)
    | S n' =>
        let '(got, buf, file) := fread buf 16 file in
        if negb (got =? 16) then (-1, file, EmptyString)
        else
          let '(result, file, out) :=
            segment_loop_at w n' file buf (o65_size (base + 16)) (len - 16) in
          (result, file, hex_line_at w base buf 16 ++ out)
    end
  else if len >? 0 then
    let '(got, buf, file) := fread buf len file in
    if negb (got =? len) then (-1, file, EmptyString)
    else (1, file, hex_line_at w base buf len)
  else (1, file, EmptyString).

Definition segment_at (w : nat) (file : FILE) (name : string)
  (base len : Z) : Z * FILE * string :=
  let '(result, file, out) :=
    segment_loop_at w (Z.to_nat (len / 16)) file [] base len in
  (result, file, LF ++ name ++ ": " ++ fmt_lu len ++ " bytes" ++ LF ++ out).

Fixpoint relocs_loop_at (w : nat) (fuel : nat) (file : FILE)
  (header : o65_header_t) (addr : Z) : option (Z * FILE * string) :=
  match fuel with
  | O => None
  | S fuel' =>
      let '(result, reloc, file) := o65_read_reloc file header in
      if result <=? 0 then Some (result, file, EmptyString)
      else if reloc_offset reloc =? 0 then Some (1, file, EmptyString)
      else if reloc_offset reloc =? 255 then
        relocs_loop_at w fuel' file header (o65_size (addr + 254))
      else
        let addr := o65_size (addr + reloc_offset reloc) in
        match relocs_loop_at w fuel' file header addr with
        | None => None
        | Some (result, file, out) =>
            Some (result, file, reloc_line w header (addr, reloc) ++ out)
        end
  end.

Definition relocs_at (w : nat) (fuel : nat) (file : FILE) (name : string)
  (header : o65_header_t) (addr : Z) : option (Z * FILE * string) :=
  match relocs_loop_at w fuel file header (o65_size (addr - 1)) with
  | None => None
  | Some (result, file, out) =>
      Some (result, file, LF ++ name ++ ".relocs:" ++ LF ++ out)
  end.

Definition exported_value_at (w : nat) (file : FILE)
  (header : o65_header_t) (buf : list byte)
  : Z * list byte * FILE * string :=
  if Z.land (mode header) O65_MODE_32BIT =? 0 then
    let '(got, buf, file) := fread buf 2 file in
    if negb (got =? 2) then (-1, buf, file, EmptyString)
    else
      (1, buf, file,
       ", 0x" ++ hex_min w (o65_size (o65_read_uint16 buf)) ++ LF)
  else
    let '(got, buf, file) := fread buf 4 file in
    if negb (got =? 2) then (-1, buf, file, EmptyString)
    else
      (1, buf, file,
       ", 0x" ++ hex_min w (o65_size (o65_read_uint32 buf)) ++ LF).

Fixpoint exported_symbols_loop_at (w : nat) (n : nat) (file : FILE)
  (header : o65_header_t) (buf : list byte) : Z * FILE * string :=
  match n with
  | O => (1, file, EmptyString)
  | S n' =>
      let '(result, file, name) := dump_nul_string file in
      if result <=? 0 then (result, file, "    " ++ name)
      else
        let '(ch, file) := getc file in
        if ch =? -1 then (-1, file, "    " ++ name)
        else
          let line := "    " ++ name ++ ", " ++ o65_get_segment_name ch in
          let '(result, buf, file, value) :=
            exported_value_at w file header buf in
          if result <=? 0 then (result, file, line)
          else
            let '(result, file, out) :=
              exported_symbols_loop_at w n' file header buf in
            (result, file, line ++ value ++ out)
  end.

Definition exported_symbols_from_at (w : nat) (file : FILE)
  (header : o65_header_t) (buf : list byte) (count : Z)
  : Z * FILE * string :=
  if count =? 0 then
    (1, file, LF ++ "Exported Symbols: none" ++ LF)
  else
    let '(result, file, out) :=
      exported_symbols_loop_at w (Z.to_nat count) file header buf in
    (result, file, LF ++ "Exported Symbols:" ++ LF ++ out).

Definition exported_symbols_at (w : nat) (file : FILE)
  (header : o65_header_t) : Z * FILE * string :=
  if Z.land (mode header) O65_MODE_32BIT =? 0 then
    let '(got, buf, file) := fread indeterminate_buf 2 file in
    if negb (got =? 2) then (-1, file, EmptyString)
    else
      exported_symbols_from_at w file header buf
        (o65_size (o65_read_uint16 buf))
  else
    let '(got, buf, file) := fread indeterminate_buf 4 file in
    if negb (got =? 2) then (-1, file, EmptyString)
    else
      exported_symbols_from_at w file header buf
        (o65_size (o65_read_uint32 buf)).

Definition header_fields_at (w : nat) (header : o65_header_t) : string :=
  header_line "tbase" w (tbase header)
  ++ header_line "tlen " w (tlen header)
  ++ header_line "dbase" w (dbase header)
  ++ header_line "dlen " w (dlen header)
  ++ header_line "bbase" w (bbase header)
  ++ header_line "blen " w (blen header)
  ++ header_line "zbase" w (zbase header)
  ++ header_line "zlen " w (zlen header)
  ++ header_line "stack" w (stack header).

Definition image_at (w : nat) (fuel : nat) (file : FILE)
  (header : o65_header_t) : option (Z * FILE * string) :=
  and_then
    (printf ("Header:" ++ LF ++ dump_mode header ++ header_fields_at w header))
  (and_then (fun file => dump_options fuel file false)
  (and_then (fun file =>
     Some (segment_at w file ".text" (tbase header) (tlen header)))
  (and_then (fun file =>
     Some (segment_at w file ".data" (dbase header) (dlen header)))
  (and_then (fun file => Some (dump_undefined_symbols file header))
  (and_then (fun file =>
     relocs_at w fuel file ".text" header (tbase header))
  (and_then (fun file =>
     relocs_at w fuel file ".data" header (dbase header))
     (fun file => Some (exported_symbols_at w file header))))))))
  file.

(** ** Chains and diagnostics *)

(** [chained fuel file out fuel' file']: from [file] on, [dump_file]
    with [fuel] dumps some images (none, one or more), each with the
    chain bit set; [out] is what they print, a separator after each, and
    the loop goes on at [file'] with [fuel']. *)
Inductive chained : nat -> FILE -> string -> nat -> FILE -> Prop :=
| chained_none : forall fuel file, chained fuel file EmptyString fuel file
| chained_image :
    forall fuel file result header file1 code file2 text out fuel' file',
    o65_read_header file = (result, header, file1) ->
    0 < result ->
    dump_image fuel file1 header = Some (code, file2, text) ->
    0 < code ->
    Z.land (mode header) O65_MODE_CHAIN <> 0 ->
    chained fuel file2 out fuel' file' ->
    chained (S fuel) file (text ++ LF ++ out) fuel' file'.

(** The messages [dump_file] has for a file. *)
Definition diagnostics (filename : string) : list string :=
  [perror filename;
   filename ++ ": unexpected EOF" ++ LF;
   filename ++ ": not in .o65 format" ++ LF;
   filename ++ ": invalid format" ++ LF].

(** A step that, on a stream of at most [n] bytes, ends with a result
    and, when the result is a success, has not made the stream longer. *)
Definition settles (n : nat) (s : step) : Prop :=
  forall file,
    (List.length (content file) <= n)%nat ->
    exists result file' out,
      s file = Some (result, file', out)
      /\ (0 < result ->
          (List.length (content file') <= List.length (content file))%nat).

(** Readers that consume at least one byte whenever they succeed. *)
Definition readers_consume : Prop :=
  (forall file result header file',
     o65_read_header file = (result, header, file') ->
     0 < result ->
     (List.length (content file') < List.length (content file))%nat)
  /\ (forall file result option file',
        o65_read_option file = (result, option, file') ->
        0 < result ->
        (List.length (content file') < List.length (content file))%nat)
  /\ (forall file header result reloc file',
        o65_read_reloc file header = (result, reloc, file') ->
        0 < result ->
        (List.length (content file') < List.length (content file))%nat).

End Reports.

(** ** A reference reader

    Modelled from the spec: the constants and the byte-level readers of
    [o65file.h] / [o65file.c], which are not among the sources.  The spec
    fixes their interface (section 6): fixed-width unsigned reads, a
    header decoder that checks a signature, and one-shot option and
    relocation-entry decoders that answer a populated record, the
    length or offset sentinel, or a failure.  The constants are those of
    the o65 file format.  This instance only serves to run the dumper on
    concrete files; the theorems do not depend on it. *)
Module Ref.

Definition read_uint16 (buf : list byte) : Z :=
  byte_val (nth 0 buf x00) + 256 * byte_val (nth 1 buf x00).

Definition read_uint32 (buf : list byte) : Z :=
  read_uint16 buf + 65536 * read_uint16 (skipn 2 buf).

Definition get_cpu_name (m : Z) : string :=
  if Z.land m 32768 =? 0 then "6502" else "65816".

Definition get_segment_name (id : Z) : string :=
  if id =? 0 then "undefined" else if id =? 1 then "absolute"
  else if id =? 2 then "text" else if id =? 3 then "data"
  else if id =? 4 then "bss" else if id =? 5 then "zeropage"
  else "segment " ++ fmt_d id.

Definition null_header : o65_header_t := mk_header 0 0 0 0 0 0 0 0 0 0.

Definition magic : list Z := [1; 0; 111; 54; 53; 0].

Definition read_header (file : FILE) : Z * o65_header_t * FILE :=
  let '(got, buf, file) := fread [] 8 file in
  if negb (got =? 8) then (-1, null_header, file)
  else if list_eq_dec Z.eq_dec (map byte_val (firstn 6 buf)) magic then
    let m := read_uint16 (skipn 6 buf) in
    let w := if Z.land m 8192 =? 0 then 2 else 4 in
    let '(got, buf, file) := fread [] (9 * w) file in
    if negb (got =? 9 * w) then (-1, null_header, file)
    else
      let field i :=
        if w =? 2 then read_uint16 (skipn (2 * i) buf)
        else read_uint32 (skipn (4 * i) buf) in
      (1, mk_header m (field 0%nat) (field 1%nat) (field 2%nat)
            (field 3%nat) (field 4%nat) (field 5%nat) (field 6%nat)
            (field 7%nat) (field 8%nat), file)
  else (0, null_header, file).

Definition null_option : o65_option_t := mk_option 0 0 [].

Definition read_option (file : FILE) : Z * o65_option_t * FILE :=
  let '(n, file) := getc file in
  if n <? 0 then (-1, null_option, file)
  else if n =? 0 then (1, null_option, file)
  else
    let '(ty, file) := getc file in
    if ty <? 0 then (-1, null_option, file)
    else
      let '(got, buf, file) := fread [] (n - 2) file in
      if negb (got =? Z.max 0 (n - 2)) then (-1, null_option, file)
      else (1, mk_option ty n buf, file).

Definition null_reloc : o65_reloc_t := mk_reloc 0 0 0 0.

Definition read_reloc (file : FILE) (header : o65_header_t)
  : Z * o65_reloc_t * FILE :=
  let '(off, file) := getc file in
  if off <? 0 then (-1, null_reloc, file)
  else if (off =? 0) || (off =? 255) then (1, mk_reloc off 0 0 0, file)
  else
    let '(ty, file) := getc file in
    if ty <? 0 then (-1, null_reloc, file)
    else
      let w :=
        if negb (Z.land ty 15 =? 0) then 0
        else if Z.land (mode header) 8192 =? 0 then 2 else 4 in
      let '(got, ubuf, file) := fread [] w file in
      if negb (got =? w) then (-1, null_reloc, file)
      else
        let undefid :=
          if w =? 2 then read_uint16 ubuf
          else if w =? 4 then read_uint32 ubuf else 0 in
        let kind := Z.land ty 224 in
        let e :=
          if kind =? 160 then 2
          else if (kind =? 64) && (Z.land (mode header) 16384 =? 0) then 1
          else 0 in
        let '(got, ebuf, file) := fread [] e file in
        if negb (got =? e) then (-1, null_reloc, file)
        else
          let extra :=
            if e =? 2 then read_uint16 ebuf
            else if e =? 1 then byte_val (nth 0 ebuf x00) else 0 in
          (1, mk_reloc off ty extra undefid, file).

#[export] Instance lib : o65file := {|
  O65_MODE_PAGED := 16384;
  O65_MODE_32BIT := 8192;
  O65_MODE_OBJ := 4096;
  O65_MODE_SIMPLE := 2048;
  O65_MODE_CHAIN := 1024;
  O65_MODE_BSSZERO := 512;
  O65_MODE_ALIGN := 3;
  O65_MODE_ALIGN_8 := 0;
  O65_MODE_ALIGN_16 := 1;
  O65_MODE_ALIGN_32 := 2;
  O65_MODE_ALIGN_256 := 3;
  O65_OPT_FILENAME := 0;
  O65_OPT_OS := 1;
  O65_OPT_PROGRAM := 2;
  O65_OPT_AUTHOR := 3;
  O65_OPT_CREATED := 4;
  O65_RELOC_SEGID := 15;
  O65_RELOC_TYPE := 224;
  O65_RELOC_WORD := 128;
  O65_RELOC_LOW := 32;
  O65_RELOC_SEGADR := 192;
  O65_RELOC_HIGH := 64;
  O65_RELOC_SEG := 160;
  O65_SEGID_UNDEF := 0;
  o65_read_uint16 := read_uint16;
  o65_read_uint32 := read_uint32;
  o65_get_cpu_name := get_cpu_name;
  o65_get_segment_name := get_segment_name;
  o65_read_header := read_header;
  o65_read_option := read_option;
  o65_read_reloc := read_reloc;
  strerror_errno := "No such file or directory";
  indeterminate_buf := [x00; x00; x00; x00];
  reloc_labels_distinct := eq_refl
|}.

(** Bytes of a file, written as numbers. *)
Definition bytes (l : list Z) : list byte :=
  map (fun z => match Byte.of_N (Z.to_N z) with Some b => b | None => x00 end) l.

(** A 16-bit image with empty segments and tables; [m0], [m1] are the
    two bytes of the mode word. *)
Definition empty_image (m0 m1 : Z) : list byte :=
  bytes ([1; 0; 111; 54; 53; 0; m0; m1]
         ++ [0; 16; 0; 0; 0; 32; 0; 0; 0; 48; 0; 0; 0; 0; 0; 0; 0; 0]
         ++ [0] ++ [0; 0] ++ [0] ++ [0] ++ [0; 0]).

(** Two options (a file name, an author), the terminator, and one byte of
    what follows. *)
Definition two_options : FILE :=
  mkFILE (bytes [4; 0; 97; 98; 3; 3; 65; 0; 7]) false.

(** A 32-bit header whose text segment starts at the last address. *)
Definition header32 : o65_header_t :=
  mk_header 8192 4294967295 0 0 0 0 0 0 0 0.

(** Two skip markers, one WORD relocation into the text segment at
    offset 5, the sentinel, and one byte of what follows. *)
Definition skip_relocs : FILE :=
  mkFILE (bytes [255; 255; 5; 130; 0; 9]) false.

(** Two WORD relocations one byte apart, then the sentinel. *)
Definition step_relocs : FILE :=
  mkFILE (bytes [1; 130; 1; 130; 0]) false.

(** One relocation of a kind outside the enumeration (kind bits 0xE0,
    segment text), then the sentinel. *)
Definition odd_relocs : FILE :=
  mkFILE (bytes [5; 226; 0]) false.

(** A 16-bit image whose 17-byte text segment starts at 0xFFF0, with no
    options, symbols or relocations. *)
Definition high_image : list byte :=
  bytes ([1; 0; 111; 54; 53; 0; 0; 0]
         ++ [240; 255; 17; 0; 0; 0; 0; 0; 0; 0; 0; 0; 0; 0; 0; 0; 0; 0]
         ++ [0] ++ repeat 7 17 ++ [0; 0] ++ [0] ++ [0] ++ [0; 0]).

(** An image whose mode has the chain bit, followed by eight bytes that
    are no header. *)
Definition broken_chain : list byte :=
  (empty_image 0 4 ++ bytes [9; 9; 9; 9; 9; 9; 9; 9])%list.

(** One file on the disk, under the name [name]. *)
Definition disk (name : string) (image : list byte) : filesystem :=
  fun filename => if (filename =? name)%string then Some image else None.

(** The undefined-symbol table of a 16-bit image with the names "ab" and
    "c", and one byte of what follows. *)
Definition two_names : FILE :=
  mkFILE (bytes [2; 0; 97; 98; 0; 99; 0; 7]) false.

(** The exported-symbol table of a 16-bit image with "ab" in the text
    segment at 0x1234, and one byte of what follows. *)
Definition one_export : FILE :=
  mkFILE (bytes [1; 0; 97; 98; 0; 2; 52; 18; 7]) false.

(** A relocation, then a stream that ends inside the next entry. *)
Definition cut_relocs : FILE :=
  mkFILE (bytes [5; 130; 7]) false.

(** An option, then a stream that ends inside the next one. *)
Definition cut_options : FILE :=
  mkFILE (bytes [4; 0; 97; 98; 5; 3; 65]) false.

(** Two chained images: the first has the chain bit, the second not. *)
Definition two_images : list byte :=
  (empty_image 0 4 ++ empty_image 0 0)%list.

(** An image whose text segment claims 32 bytes of which 3 are there. *)
Definition cut_image : list byte :=
  bytes ([1; 0; 111; 54; 53; 0; 0; 0]
         ++ [0; 16; 32; 0; 0; 0; 0; 0; 0; 0; 0; 0; 0; 0; 0; 0; 0; 0]
         ++ [0] ++ [7; 7; 7]).

(** Two relocations with a skip marker between them, the sentinel, and
    one byte of what follows. *)
Definition two_relocs : FILE :=
  mkFILE (bytes [5; 130; 255; 3; 130; 0; 9]) false.

(** A 16-bit image with empty segments whose text relocation table is a
    relocation at offset 1, [n] skip markers, a relocation at offset 5
    and the sentinel. *)
Definition long_relocs_image (n : nat) : list byte :=
  (bytes [1; 0; 111; 54; 53; 0; 0; 0;
          0; 16; 0; 0; 0; 32; 0; 0; 0; 48; 0; 0; 0; 0; 0; 0; 0; 0;
          0; 0; 0; 1; 130]
   ++ repeat xff n
   ++ bytes [5; 130; 0; 0; 0; 0])%list.

(** The number of skip markers that carries a cursor to 16 below 2^32. *)
Definition wrap_skips : nat := Z.to_nat 16909320.

(** The skip marker as a relocation entry. *)
Definition skip_entry : o65_reloc_t := mk_reloc 255 0 0 0.

(** The header of [long_relocs_image]. *)
Definition long_header : o65_header_t :=
  mk_header 0 4096 0 8192 0 12288 0 0 0 0.

End Ref.

(** * Properties *)

(** ** Texts *)

Lemma append_assoc (a b c : string) : (a ++ b) ++ c = a ++ (b ++ c).
Proof. induction a as [|ch a IH]; simpl; [reflexivity | now rewrite IH]. Qed.

Lemma append_empty_r (a : string) : a ++ EmptyString = a.
Proof. induction a as [|ch a IH]; simpl; [reflexivity | now rewrite IH]. Qed.

Lemma length_append (a b : string) :
  String.length (a ++ b) = (String.length a + String.length b)%nat.
Proof. induction a as [|ch a IH]; simpl; [reflexivity | now rewrite IH]. Qed.

Lemma count_lf_append (a b : string) :
  count_lf (a ++ b) = (count_lf a + count_lf b)%nat.
Proof.
  induction a as [|ch a IH]; simpl; [reflexivity|].
  rewrite IH. apply Nat.add_assoc.
Qed.

Lemma length_hex_fixed (n : nat) (v : Z) : String.length (hex_fixed n v) = n.
Proof.
  revert v. induction n as [|n IH]; intro v; simpl; [reflexivity|].
  rewrite length_append, IH. simpl. lia.
Qed.

Lemma hex_digit_not_lf (d : Z) :
  0 <= d < 16 -> Ascii.eqb (hex_digit d) "010"%char = false.
Proof.
  intro H.
  assert (C : d = 0 \/ d = 1 \/ d = 2 \/ d = 3 \/ d = 4 \/ d = 5 \/ d = 6
    \/ d = 7 \/ d = 8 \/ d = 9 \/ d = 10 \/ d = 11 \/ d = 12 \/ d = 13
    \/ d = 14 \/ d = 15) by lia.
  repeat (destruct C as [C | C]; [subst d; reflexivity|]).
  subst d; reflexivity.
Qed.

Lemma count_lf_hex_fixed (n : nat) (v : Z) : count_lf (hex_fixed n v) = O.
Proof.
  revert v. induction n as [|n IH]; intro v; simpl; [reflexivity|].
  rewrite count_lf_append, IH. simpl.
  rewrite hex_digit_not_lf; [reflexivity|].
  apply Z.mod_pos_bound. lia.
Qed.

Lemma count_lf_fmt_x (w : nat) (v : Z) : count_lf (fmt_x w v) = O.
Proof. apply count_lf_hex_fixed. Qed.

(** A decimal numeral has no line feed in it. *)
Lemma count_lf_uint (d : Decimal.uint) :
  count_lf (NilEmpty.string_of_uint d) = O.
Proof. induction d; simpl; auto. Qed.

Lemma count_lf_fmt_d (v : Z) : count_lf (fmt_d v) = O.
Proof.
  unfold fmt_d, NilZero.string_of_int, NilZero.string_of_uint.
  destruct (Z.to_int v) as [d | d]; destruct d; simpl;
    try reflexivity; apply count_lf_uint.
Qed.

(** ** Strings and names: [dump_string], [dump_hex], [dump_nul_string] *)

Lemma byte_val_range (b : byte) : 0 <= byte_val b <= 255.
Proof.
  unfold byte_val. pose proof (Byte.to_N_bounded b). lia.
Qed.

Lemma byte_val_x00 (b : byte) : byte_val b = 0 -> b = x00.
Proof. destruct b; vm_compute; congruence. Qed.

Section Strings.

Context {lib : o65file}.

(** The source's test chain is the specification's rendering of a byte. *)
Lemma dump_char_escape (b : byte) : dump_char (byte_val b) = escape_byte b.
Proof. destruct b; reflexivity. Qed.

Lemma dump_string_all (data : list byte) :
  dump_string data (Z.of_nat (List.length data)) = escape_bytes data.
Proof.
  unfold escape_bytes.
  induction data as [|b data IH]; [reflexivity|].
  cbn [dump_string List.length map concat_text fold_right].
  destruct (Z.gtb_spec (Z.of_nat (S (List.length data))) 0) as [_|H]; [|lia].
  replace (Z.of_nat (S (List.length data)) - 1)
    with (Z.of_nat (List.length data)) by lia.
  now rewrite IH, dump_char_escape.
Qed.

Lemma concat_text_app (a b : list string) :
  concat_text (a ++ b) = concat_text a ++ concat_text b.
Proof.
  induction a as [|x a IH]; [reflexivity|].
  change (x ++ concat_text (a ++ b) = (x ++ concat_text a) ++ concat_text b).
  now rewrite IH, append_assoc.
Qed.

Lemma escape_bytes_app (a b : list byte) :
  escape_bytes (a ++ b) = escape_bytes a ++ escape_bytes b.
Proof. unfold escape_bytes. now rewrite map_app, concat_text_app. Qed.

Lemma dump_string_nonpositive (data : list byte) (len : Z) :
  len <= 0 -> dump_string data len = EmptyString.
Proof.
  intro H. destruct data; simpl;
    destruct (Z.gtb_spec len 0); try lia; reflexivity.
Qed.

Lemma dump_hex_nonpositive (data : list byte) (len : Z) :
  len <= 0 -> dump_hex data len = EmptyString.
Proof.
  intro H. destruct data; simpl;
    destruct (Z.gtb_spec len 0); try lia; reflexivity.
Qed.

(** A name runs up to its first NUL, which is consumed and not shown. *)
Lemma dump_nul_string_loop_name (name rest : list byte) (at_eof : bool) :
  ~ In x00 name ->
  dump_nul_string_loop (name ++ x00 :: rest) at_eof
  = (1, mkFILE rest at_eof, escape_bytes name).
Proof.
  induction name as [|b name IH]; intro H; [reflexivity|].
  cbn [app dump_nul_string_loop].
  destruct (Z.eqb_spec (byte_val b) 0) as [E|_].
  - exfalso. apply H. left. now apply byte_val_x00.
  - rewrite IH by (intro; apply H; now right).
    now rewrite dump_char_escape.
Qed.

(** Without a NUL the name runs into the end of the stream: failure. *)
Lemma dump_nul_string_loop_eof (name : list byte) (at_eof : bool) :
  ~ In x00 name ->
  dump_nul_string_loop name at_eof
  = (-1, mkFILE [] true, escape_bytes name).
Proof.
  induction name as [|b name IH]; intro H; [reflexivity|].
  cbn [dump_nul_string_loop].
  destruct (Z.eqb_spec (byte_val b) 0) as [E|_].
  - exfalso. apply H. left. now apply byte_val_x00.
  - rewrite IH by (intro; apply H; now right).
    now rewrite dump_char_escape.
Qed.

Lemma count_lf_dump_char (b : byte) : count_lf (dump_char (byte_val b)) = O.
Proof. destruct b; reflexivity. Qed.

Lemma count_lf_dump_string (data : list byte) (len : Z) :
  count_lf (dump_string data len) = O.
Proof.
  revert len. induction data as [|b data IH]; intro len;
    cbn [dump_string]; destruct (len >? 0); try reflexivity.
  now rewrite count_lf_append, count_lf_dump_char, IH.
Qed.

Lemma count_lf_dump_hex (data : list byte) (len : Z) :
  count_lf (dump_hex data len) = O.
Proof.
  revert len. induction data as [|b data IH]; intro len;
    cbn [dump_hex]; destruct (len >? 0); try reflexivity.
  rewrite !count_lf_append, count_lf_fmt_x, IH. reflexivity.
Qed.

(** Whatever the option, [dump_option] prints one line. *)
Lemma dump_option_one_line (option : o65_option_t) :
  one_line (dump_option option).
Proof.
  unfold one_line, dump_option.
  match goal with
  | |- exists body, "    " ++ ?x ++ LF = _ /\ _ => exists ("    " ++ x)
  end.
  split; [now rewrite append_assoc|].
  rewrite count_lf_append.
  repeat match goal with
  | |- context [if ?c then _ else _] => destruct c
  end;
  repeat rewrite count_lf_append;
  rewrite ?count_lf_dump_string, ?count_lf_dump_hex, ?count_lf_fmt_d;
  reflexivity.
Qed.

Lemma count_lf_one_line (s : string) : one_line s -> count_lf s = 1%nat.
Proof.
  intros [body [-> H]]. rewrite count_lf_append, H. reflexivity.
Qed.

(** C9.  [dump_string] drops a NUL inside the payload: the byte shows as
    nothing, is not escaped, and the bytes after it are still rendered,
    whereas in [dump_nul_string] the first NUL ends the name (the bytes
    after it stay in the stream).  Every other byte shows as
    [escape_byte] says: printable ASCII (0x20 to 0x7E) verbatim, the rest
    as a backslash, an x and two hexadecimal digits. *)
Theorem dump_string_drops_nul (before after name rest : list byte)
  (at_eof : bool) :
  ~ In x00 name ->
  dump_string (before ++ x00 :: after)
    (Z.of_nat (List.length (before ++ x00 :: after)))
  = escape_bytes before ++ escape_bytes after
  /\ escape_byte x00 = EmptyString
  /\ (forall data, dump_string data (Z.of_nat (List.length data))
                   = escape_bytes data)
  /\ dump_nul_string (mkFILE (name ++ x00 :: rest) at_eof)
     = (1, mkFILE rest at_eof, escape_bytes name).
Proof.
  intro H. repeat split.
  - rewrite dump_string_all, escape_bytes_app. reflexivity.
  - apply dump_string_all.
  - unfold dump_nul_string. simpl. now apply dump_nul_string_loop_name.
Qed.

(** C10.  An option whose length byte is 1 (nonzero, below 2) makes the
    payload length [len - 2] negative; the loops of [dump_string] and
    [dump_hex] test [len > 0], so they print nothing, and [dump_option]
    prints the line it would print for an empty payload. *)
Theorem short_option_no_payload (option : o65_option_t) :
  0 < opt_len option < 2 ->
  dump_string (opt_data option) (opt_len option - 2) = EmptyString
  /\ dump_hex (opt_data option) (opt_len option - 2) = EmptyString
  /\ dump_option option
     = dump_option (mk_option (opt_type option) (opt_len option) []).
Proof.
  intro H.
  assert (Hs : forall data, dump_string data (opt_len option - 2) = EmptyString)
    by (intro; apply dump_string_nonpositive; lia).
  assert (Hh : forall data, dump_hex data (opt_len option - 2) = EmptyString)
    by (intro; apply dump_hex_nonpositive; lia).
  repeat split; [apply Hs | apply Hh|].
  unfold dump_option. cbn [opt_type opt_len opt_data].
  now rewrite !Hs, !Hh.
Qed.

End Strings.

(** ** The option loop of [dump_image] *)

Section Options.

Context {lib : o65file}.

Lemma dump_options_reads (options : list o65_option_t) :
  forall (file file' : FILE) (last : o65_option_t) (have_options : bool)
         (fuel : nat),
  option_reads file (options ++ [last]) file' ->
  Forall (fun option => opt_len option <> 0) options ->
  opt_len last = 0 ->
  (List.length options < fuel)%nat ->
  exists result, 0 < result /\
    dump_options fuel file have_options
    = Some (result, file',
            options_title have_options options
            ++ concat_text (map dump_option options)).
Proof.
  induction options as [|option options IH];
    intros file file' last have_options fuel Hreads Hlen Hlast Hfuel;
    (destruct fuel as [|fuel]; [simpl in Hfuel; lia|]);
    inversion Hreads as [|? result ? file1 ? ? Hread Hres Hrest]; subst;
    cbn [dump_options]; rewrite Hread;
    (destruct (Z.leb_spec result 0) as [|_]; [lia|]).
  - inversion Hrest; subst.
    rewrite Hlast. cbn [Z.eqb]. exists result. split; [assumption|].
    now destruct have_options.
  - inversion Hlen as [|? ? Hopt Hlen']; subst.
    destruct (Z.eqb_spec (opt_len option) 0) as [|_]; [contradiction|].
    destruct (IH file1 file' last true fuel Hrest Hlen' Hlast)
      as [result' [Hres' Heq]]; [simpl in Hfuel; lia|].
    rewrite Heq. exists result'. split; [assumption|].
    destruct have_options; reflexivity.
Qed.

Lemma count_lf_option_lines (options : list o65_option_t) :
  count_lf (concat_text (map dump_option options)) = List.length options.
Proof.
  induction options as [|option options IH]; [reflexivity|].
  cbn [map concat_text fold_right List.length].
  change (fold_right append EmptyString (map dump_option options))
    with (concat_text (map dump_option options)).
  rewrite count_lf_append, IH.
  now rewrite (count_lf_one_line _ (dump_option_one_line option)).
Qed.

(** C7.  When the reader yields N records of nonzero length and then a
    record of length zero, the option loop prints the N option lines, one
    line each, returns a success code and leaves the stream right after
    the terminator; the title "Options:" comes once, before the first
    option, and not at all when N = 0. *)
Theorem dump_options_terminated (file file' : FILE)
  (options : list o65_option_t) (last : o65_option_t) (fuel : nat) :
  option_reads file (options ++ [last]) file' ->
  Forall (fun option => opt_len option <> 0) options ->
  opt_len last = 0 ->
  (List.length options < fuel)%nat ->
  (exists result, 0 < result /\
     dump_options fuel file false
     = Some (result, file',
             match options with
             | [] => EmptyString
             | _ :: _ => LF ++ "Options:" ++ LF
             end ++ concat_text (map dump_option options)))
  /\ Forall one_line (map dump_option options)
  /\ count_lf (concat_text (map dump_option options)) = List.length options.
Proof.
  intros Hreads Hlen Hlast Hfuel. repeat split.
  - exact (dump_options_reads options file file' last false fuel
             Hreads Hlen Hlast Hfuel).
  - apply Forall_map, Forall_forall. intros option _.
    apply dump_option_one_line.
  - apply count_lf_option_lines.
Qed.

End Options.

(** ** Hexadecimal fields *)

Lemma pow16 (w : nat) : 16 ^ Z.of_nat w = 2 ^ (4 * Z.of_nat w).
Proof. rewrite Z.pow_mul_r by lia. reflexivity. Qed.

Lemma hex_len_le (w : nat) (v : Z) :
  (1 <= w)%nat -> 0 <= v < 16 ^ Z.of_nat w -> (hex_len v <= w)%nat.
Proof.
  intros Hw [H0 Hv]. unfold hex_len.
  destruct (Z.leb_spec v 0) as [|Hpos]; [assumption|].
  rewrite pow16 in Hv.
  apply Z.log2_lt_pow2 in Hv; [|assumption].
  pose proof (Z.log2_nonneg v).
  assert (Z.log2 v / 4 < Z.of_nat w)
    by (apply Z.div_lt_upper_bound; lia).
  assert (0 <= Z.log2 v / 4) by (apply Z.div_pos; lia).
  lia.
Qed.

Lemma hex_len_gt (w : nat) (v : Z) :
  16 ^ Z.of_nat w <= v -> (w < hex_len v)%nat.
Proof.
  intro Hv. unfold hex_len.
  assert (0 < 16 ^ Z.of_nat w) by (apply Z.pow_pos_nonneg; lia).
  destruct (Z.leb_spec v 0) as [|Hpos]; [lia|].
  rewrite pow16 in Hv.
  apply Z.log2_le_pow2 in Hv; [|assumption].
  assert (Z.of_nat w <= Z.log2 v / 4)
    by (apply Z.div_le_lower_bound; lia).
  lia.
Qed.

Lemma length_hex_min (w : nat) (v : Z) :
  String.length (hex_min w v) = Nat.max w (hex_len v).
Proof. apply length_hex_fixed. Qed.

Lemma fmt_x_hex_min (w : nat) (v : Z) : size_ok v -> fmt_x w v = hex_min w v.
Proof.
  intro H. unfold fmt_x, hex_min. now rewrite Z.mod_small by exact H.
Qed.

Lemma fmt_lx_hex_min (w : nat) (v : Z) :
  size_ok v -> fmt_lx w v = hex_min w v.
Proof.
  intros [H0 H1]. unfold fmt_lx, hex_min.
  rewrite Z.mod_small; [reflexivity|].
  split; [assumption|]. eapply Z.lt_trans; [exact H1 | reflexivity].
Qed.

Lemma o65_size_ok (v : Z) : size_ok (o65_size v).
Proof. apply Z.mod_pos_bound. reflexivity. Qed.

Lemma o65_size_add_l (a b : Z) : o65_size (o65_size a + b) = o65_size (a + b).
Proof. unfold o65_size. apply Zplus_mod_idemp_l. Qed.

Lemma o65_size_small (v : Z) : size_ok v -> o65_size v = v.
Proof. intro H. apply Z.mod_small. exact H. Qed.

(** ** Segments: [dump_segment] *)

Section Segments.

Context {lib : o65file}.

(** The chunk loop never runs out of its counter: any count of at least
    the whole chunks of [len] gives the same run. *)
Lemma dump_segment_loop_chunks (n : nat) :
  forall (m : nat) (file : FILE) (header : o65_header_t) (buf : list byte)
         (base len : Z),
  (Z.to_nat (len / 16) <= n)%nat ->
  (Z.to_nat (len / 16) <= m)%nat ->
  dump_segment_loop n file header buf base len
  = dump_segment_loop m file header buf base len.
Proof.
  induction n as [|n IH]; intros m file header buf base len Hn Hm.
  - destruct m as [|m]; [reflexivity|].
    cbn [dump_segment_loop].
    destruct (Z.geb_spec len 16) as [Hge|_]; [|reflexivity].
    assert (1 <= len / 16) by (apply Z.div_le_lower_bound; lia). lia.
  - cbn [dump_segment_loop].
    destruct (Z.geb_spec len 16) as [Hge|Hlt].
    + assert (Hdiv : (len - 16) / 16 = len / 16 - 1).
      { replace (len - 16) with (len + (-1) * 16) by lia.
        rewrite Z.div_add by lia. lia. }
      assert (1 <= len / 16) by (apply Z.div_le_lower_bound; lia).
      destruct m as [|m]; [lia|].
      cbn [dump_segment_loop].
      destruct (Z.geb_spec len 16) as [_|]; [|lia].
      destruct (fread buf 16 file) as [[got buf'] file'].
      destruct (negb (got =? 16)); [reflexivity|].
      rewrite (IH m) by (rewrite Hdiv; lia). reflexivity.
    + destruct m as [|m]; cbn [dump_segment_loop];
        destruct (Z.geb_spec len 16) as [|_]; try lia; reflexivity.
Qed.

End Segments.

(** ** Relocations: [dump_relocs] *)

Section Relocations.

Context {lib : o65file}.

Variable header : o65_header_t.

(** The loop against the entries the reader yields: it stops at the
    sentinel, on the stream right after it, having printed the walk. *)
Lemma dump_relocs_loop_reads (relocs : list o65_reloc_t) :
  forall (file file' : FILE) (last : o65_reloc_t) (addr : Z) (fuel : nat),
  reloc_reads header file (relocs ++ [last]) file' ->
  Forall (fun reloc => reloc_offset reloc <> 0) relocs ->
  reloc_offset last = 0 ->
  (List.length relocs < fuel)%nat ->
  dump_relocs_loop fuel file header addr
  = Some (1, file', reloc_lines header (reloc_walk addr relocs)).
Proof.
  induction relocs as [|reloc relocs IH];
    intros file file' last addr fuel Hreads Hoff Hlast Hfuel;
    (destruct fuel as [|fuel]; [simpl in Hfuel; lia|]);
    inversion Hreads as [|? result ? file1 ? ? Hread Hres Hrest]; subst;
    cbn [dump_relocs_loop]; rewrite Hread;
    (destruct (Z.leb_spec result 0) as [|_]; [lia|]).
  - inversion Hrest; subst. rewrite Hlast. reflexivity.
  - inversion Hoff as [|? ? Hnz Hoff']; subst.
    destruct (Z.eqb_spec (reloc_offset reloc) 0) as [|_]; [contradiction|].
    assert (Hfuel' : (List.length relocs < fuel)%nat)
      by (simpl in Hfuel; lia).
    cbn [reloc_walk]. unfold reloc_step.
    destruct (Z.eqb_spec (reloc_offset reloc) 255) as [E|_].
    + exact (IH _ _ _ _ _ Hrest Hoff' Hlast Hfuel').
    + rewrite (IH _ _ _ _ _ Hrest Hoff' Hlast Hfuel'). reflexivity.
Qed.

Lemma reloc_step_range (reloc : o65_reloc_t) :
  1 <= reloc_offset reloc <= 255 -> 1 <= reloc_step reloc <= 254.
Proof.
  intro H. unfold reloc_step.
  destruct (Z.eqb_spec (reloc_offset reloc) 255); lia.
Qed.

(** As long as the cursor stays below 2^32 it is the plain sum, and the
    reported addresses grow. *)
Lemma reloc_walk_increasing (relocs : list o65_reloc_t) :
  forall cursor : Z,
  -1 <= cursor ->
  Forall (fun reloc => 1 <= reloc_offset reloc <= 255) relocs ->
  cursor + reloc_steps relocs < 2 ^ 32 ->
  Forall (fun entry => cursor < fst entry)
    (reloc_walk (o65_size cursor) relocs)
  /\ StronglySorted Z.lt (map fst (reloc_walk (o65_size cursor) relocs)).
Proof.
  induction relocs as [|reloc relocs IH]; intros cursor Hc Hoff Hsum.
  - split; constructor.
  - inversion Hoff as [|? ? Hr Hoff']; subst.
    pose proof (reloc_step_range reloc Hr) as Hstep.
    cbn [reloc_steps fold_right] in Hsum.
    change (fold_right (fun reloc total => reloc_step reloc + total) 0 relocs)
      with (reloc_steps relocs) in Hsum.
    assert (Hsteps : 0 <= reloc_steps relocs).
    { clear -Hoff'. induction Hoff' as [|r l Hr _ IHl]; [reflexivity|].
      cbn [reloc_steps fold_right].
      pose proof (reloc_step_range r Hr).
      change (fold_right (fun reloc total => reloc_step reloc + total) 0 l)
        with (reloc_steps l). lia. }
    cbn [reloc_walk]. rewrite o65_size_add_l.
    destruct (IH (cursor + reloc_step reloc)) as [Hgt Hsorted];
      [lia | assumption | lia |].
    assert (Hgt' : Forall (fun entry => cursor < fst entry)
              (reloc_walk (o65_size (cursor + reloc_step reloc)) relocs)).
    { eapply Forall_impl; [|exact Hgt]. simpl. intros. lia. }
    destruct (reloc_offset reloc =? 255); [split; assumption|].
    assert (Hsmall : o65_size (cursor + reloc_step reloc)
                     = cursor + reloc_step reloc)
      by (apply o65_size_small; unfold size_ok; lia).
    split.
    + constructor; [simpl; lia | assumption].
    + cbn [map fst]. constructor; [assumption|].
      apply Forall_map. eapply Forall_impl; [|exact Hgt].
      intros entry Hentry. simpl. rewrite Hsmall. exact Hentry.
Qed.

(** What the source prints for a relocation is the line whose address
    field has the width of the image. *)
Lemma dump_reloc_entry_line (addr : Z) (reloc : o65_reloc_t) :
  size_ok addr ->
  dump_reloc_entry header addr reloc
  = reloc_line (addr_digits header) header (addr, reloc).
Proof.
  intro H. unfold dump_reloc_entry, dump_reloc_address, reloc_line,
    addr_digits. cbn [fst snd].
  destruct (Z.land (mode header) O65_MODE_32BIT =? 0); cbn [negb];
    rewrite fmt_lx_hex_min by exact H; now rewrite !append_assoc.
Qed.

Lemma reloc_lines_walk (relocs : list o65_reloc_t) :
  forall addr : Z,
  reloc_lines header (reloc_walk addr relocs)
  = concat_text
      (map (reloc_line (addr_digits header) header) (reloc_walk addr relocs)).
Proof.
  induction relocs as [|reloc relocs IH]; intro addr; [reflexivity|].
  cbn [reloc_walk].
  destruct (reloc_offset reloc =? 255); [apply IH|].
  unfold reloc_lines in *. cbn [map concat_text fold_right fst snd].
  change (fold_right append EmptyString ?l) with (concat_text l).
  rewrite dump_reloc_entry_line by apply o65_size_ok.
  f_equal. apply IH.
Qed.

(** The whole of [dump_relocs] against a terminated list of entries. *)
Lemma dump_relocs_reads (file file' : FILE) (name : string) (base : Z)
  (relocs : list o65_reloc_t) (last : o65_reloc_t) (fuel : nat) :
  reloc_reads header file (relocs ++ [last]) file' ->
  Forall (fun reloc => reloc_offset reloc <> 0) relocs ->
  reloc_offset last = 0 ->
  (List.length relocs < fuel)%nat ->
  dump_relocs fuel file name header base
  = Some (1, file',
          LF ++ name ++ ".relocs:" ++ LF
          ++ concat_text
               (map (reloc_line (addr_digits header) header)
                  (reloc_walk (o65_size (base - 1)) relocs))).
Proof.
  intros Hreads Hoff Hlast Hfuel. unfold dump_relocs.
  rewrite (dump_relocs_loop_reads relocs file file' last
             (o65_size (base - 1)) fuel Hreads Hoff Hlast Hfuel).
  now rewrite reloc_lines_walk.
Qed.

(** C3.  The cursor starts at [base - 1] as an [o65_size_t] (so 0 wraps
    to the largest value, which is no error); a skip marker adds 254 and
    prints nothing; a real entry adds its offset and prints its line at
    the new cursor.  This holds of every terminated list of entries.  So
    against the entries with offsets 255, 255, 5, 0 and base [B],
    [dump_relocs] prints, after its title, the one line of a relocation
    at B + 254 + 254 + 5 - 1 and returns 1 on the stream right after the
    sentinel. *)
Theorem dump_relocs_skip_aggregation (file file' : FILE) (name : string)
  (B : Z) (r1 r2 r3 r4 : o65_reloc_t) (fuel : nat) :
  reloc_reads header file [r1; r2; r3; r4] file' ->
  reloc_offset r1 = 255 -> reloc_offset r2 = 255 ->
  reloc_offset r3 = 5 -> reloc_offset r4 = 0 ->
  (4 <= fuel)%nat ->
  dump_relocs fuel file name header B
  = Some (1, file',
          LF ++ name ++ ".relocs:" ++ LF
          ++ "    "
          ++ hex_min (addr_digits header) (o65_size (B + 254 + 254 + 5 - 1))
          ++ ": " ++ dump_reloc_segment r3 ++ ", "
          ++ dump_reloc_type header r3 ++ LF)
  /\ o65_size (0 - 1) = 2 ^ 32 - 1
  /\ (forall (file0 file1 : FILE) (base : Z) (relocs : list o65_reloc_t)
             (last : o65_reloc_t) (fuel0 : nat),
        reloc_reads header file0 (relocs ++ [last]) file1 ->
        Forall (fun reloc => reloc_offset reloc <> 0) relocs ->
        reloc_offset last = 0 ->
        (List.length relocs < fuel0)%nat ->
        dump_relocs fuel0 file0 name header base
        = Some (1, file1,
                LF ++ name ++ ".relocs:" ++ LF
                ++ concat_text
                     (map (reloc_line (addr_digits header) header)
                        (reloc_walk (o65_size (base - 1)) relocs))))
  /\ (forall (cursor : Z) (reloc : o65_reloc_t) (relocs : list o65_reloc_t),
        reloc_walk cursor (reloc :: relocs)
        = if reloc_offset reloc =? 255
          then reloc_walk (o65_size (cursor + 254)) relocs
          else (o65_size (cursor + reloc_offset reloc), reloc)
               :: reloc_walk (o65_size (cursor + reloc_offset reloc)) relocs).
Proof.
  intros Hreads H1 H2 H3 H4 Hfuel.
  split; [|split; [reflexivity|split]].
  - rewrite (dump_relocs_reads file file' name B [r1; r2; r3] r4 fuel Hreads);
      [| repeat constructor; lia | exact H4 | simpl; lia].
    cbn [reloc_walk]. unfold reloc_step. rewrite H1, H2, H3.
    cbn [Z.eqb Pos.eqb].
    rewrite (o65_size_add_l (B - 1) 254).
    rewrite (o65_size_add_l (B - 1 + 254) 254).
    rewrite (o65_size_add_l (B - 1 + 254 + 254) 5).
    replace (B - 1 + 254 + 254 + 5) with (B + 254 + 254 + 5 - 1) by lia.
    cbn [map concat_text fold_right]. unfold reloc_line. cbn [fst snd].
    now rewrite append_empty_r, ?append_assoc.
  - intros file0 file1 base relocs last fuel0. apply dump_relocs_reads.
  - intros cursor reloc relocs. cbn [reloc_walk]. unfold reloc_step.
    now destruct (reloc_offset reloc =? 255).
Qed.

(** C4, amended.  Against entries with offsets in 1..255 followed by one
    with offset 0, [dump_relocs] stops at that first offset-0 entry: it
    returns 1 (the sentinel is tested before anything else and is no
    error), leaves the stream right after the sentinel, and has printed
    the lines of the relocations of the walk.  Their addresses grow
    strictly provided the cursor does not pass 2^32, where the 32-bit
    arithmetic wraps. *)
Theorem dump_relocs_terminated (file file' : FILE) (name : string)
  (base : Z) (relocs : list o65_reloc_t) (last : o65_reloc_t) (fuel : nat) :
  reloc_reads header file (relocs ++ [last]) file' ->
  Forall (fun reloc => 1 <= reloc_offset reloc <= 255) relocs ->
  reloc_offset last = 0 ->
  (List.length relocs < fuel)%nat ->
  dump_relocs fuel file name header base
  = Some (1, file',
          LF ++ name ++ ".relocs:" ++ LF
          ++ concat_text
               (map (reloc_line (addr_digits header) header)
                  (reloc_walk (o65_size (base - 1)) relocs)))
  /\ (0 <= base -> base - 1 + reloc_steps relocs < 2 ^ 32 ->
      StronglySorted Z.lt
        (map fst (reloc_walk (o65_size (base - 1)) relocs))).
Proof.
  intros Hreads Hoff Hlast Hfuel. split.
  - apply (dump_relocs_reads file file' name base relocs last fuel Hreads);
      try assumption.
    eapply Forall_impl; [|exact Hoff]. simpl. intros. lia.
  - intros Hbase Hsum.
    apply (reloc_walk_increasing relocs (base - 1)); [lia | assumption..].
Qed.

(** C8.  The relocation type of a real entry: HIGH shows its extra byte
    exactly when the page-wise flag of the mode is clear; SEG always
    shows its extra value, four digits wide; a kind outside the
    enumeration shows as RELOC- and its two hexadecimal digits, and
    [dump_relocs] goes on to the sentinel and returns 1 as for any other
    entry. *)
Theorem dump_reloc_type_cases (reloc : o65_reloc_t) :
  let kind := Z.land (reloc_type reloc) O65_RELOC_TYPE in
  (kind = O65_RELOC_HIGH ->
   dump_reloc_type header reloc
   = if Z.land (mode header) O65_MODE_PAGED =? 0
     then "HIGH " ++ fmt_x 2 (reloc_extra reloc) else "HIGH")
  /\ (kind = O65_RELOC_SEG ->
      dump_reloc_type header reloc = "SEG " ++ fmt_x 4 (reloc_extra reloc))
  /\ (0 <= reloc_extra reloc < 65536 ->
      String.length (fmt_x 4 (reloc_extra reloc)) = 4%nat)
  /\ (~ In kind [O65_RELOC_WORD; O65_RELOC_LOW; O65_RELOC_SEGADR;
                 O65_RELOC_HIGH; O65_RELOC_SEG] ->
      dump_reloc_type header reloc = "RELOC-" ++ fmt_x 2 kind
      /\ forall file file' name base last,
           reloc_reads header file [reloc; last] file' ->
           1 <= reloc_offset reloc <= 254 ->
           reloc_offset last = 0 ->
           dump_relocs 2 file name header base
           = Some (1, file',
                   LF ++ name ++ ".relocs:" ++ LF
                   ++ dump_reloc_address header
                        (o65_size (base - 1 + reloc_offset reloc))
                   ++ dump_reloc_segment reloc ++ ", "
                   ++ ("RELOC-" ++ fmt_x 2 kind) ++ LF)).
Proof.
  intro kind.
  pose proof reloc_labels_distinct as D. cbn in D.
  repeat (apply andb_prop in D; destruct D as [?N D]).
  repeat match goal with
  | H : negb (_ || _) = true |- _ =>
      apply negb_true_iff, orb_false_iff in H; destruct H
  | H : _ || _ = false |- _ => apply orb_false_iff in H; destruct H
  | H : negb _ = true |- _ => apply negb_true_iff in H
  end.
  assert (Hunknown :
    ~ In kind [O65_RELOC_WORD; O65_RELOC_LOW; O65_RELOC_SEGADR;
               O65_RELOC_HIGH; O65_RELOC_SEG] ->
    dump_reloc_type header reloc = "RELOC-" ++ fmt_x 2 kind).
  { intro Hk. unfold dump_reloc_type. fold kind.
    repeat match goal with
    | |- context [kind =? ?c] =>
        destruct (Z.eqb_spec kind c) as [E|_];
          [exfalso; apply Hk; rewrite E; simpl; tauto|]
    end.
    reflexivity. }
  split; [|split; [|split; [|intro Hodd; split]]].
  - intro Hk. unfold dump_reloc_type. fold kind. rewrite Hk.
    repeat match goal with
    | H : (O65_RELOC_HIGH =? _) = false |- _ => rewrite H; clear H
    | H : (?c =? O65_RELOC_HIGH) = false |- _ =>
        rewrite Z.eqb_sym in H; rewrite H; clear H
    end.
    now rewrite Z.eqb_refl.
  - intro Hk. unfold dump_reloc_type. fold kind. rewrite Hk.
    repeat match goal with
    | H : (O65_RELOC_SEG =? _) = false |- _ => rewrite H; clear H
    | H : (?c =? O65_RELOC_SEG) = false |- _ =>
        rewrite Z.eqb_sym in H; rewrite H; clear H
    end.
    now rewrite Z.eqb_refl.
  - intro He. unfold fmt_x.
    rewrite length_hex_fixed, Z.mod_small by lia.
    apply Nat.max_l, (hex_len_le 4); [lia | simpl; lia].
  - exact (Hunknown Hodd).
  - intros file file' name base last Hreads Hoff Hlast.
    unfold dump_relocs.
    rewrite (dump_relocs_loop_reads [reloc] file file' last
               (o65_size (base - 1)) 2 Hreads);
      [| repeat constructor; lia | assumption | simpl; lia].
    cbn [reloc_walk]. unfold reloc_step.
    destruct (Z.eqb_spec (reloc_offset reloc) 255) as [|_]; [lia|].
    rewrite o65_size_add_l.
    unfold reloc_lines. cbn [map concat_text fold_right fst snd].
    rewrite append_empty_r. unfold dump_reloc_entry.
    now rewrite (Hunknown Hodd).
Qed.

End Relocations.

(** ** Strings and options on the reference reader *)

Lemma dump_string_drops_nul_witness :
  ~ In x00 [x41; x0a]
  /\ dump_string ([x41] ++ x00 :: [x0a; x42]) 4 = "A\x0aB"
  /\ dump_nul_string (mkFILE ([x41; x0a] ++ x00 :: [x42]) false)
     = (1, mkFILE [x42] false, "A\x0a").
Proof.
  assert (H : ~ In x00 [x41; x0a])
    by (intros [E | [E | []]]; discriminate E).
  split; [exact H|].
  destruct (dump_string_drops_nul [x41] [x0a; x42] [x41; x0a] [x42] false H)
    as [H1 [_ [_ H2]]].
  split; [exact H1 | exact H2].
Defined.

Lemma short_option_no_payload_witness :
  0 < 1 < 2
  /\ dump_option (lib := Ref.lib) (mk_option 3 1 [x41; x42])
     = dump_option (lib := Ref.lib) (mk_option 3 1 []).
Proof.
  split; [lia|].
  apply (short_option_no_payload (lib := Ref.lib) (mk_option 3 1 [x41; x42])).
  simpl. lia.
Defined.

Lemma dump_options_terminated_witness :
  let options := [mk_option 0 4 [x61; x62]; mk_option 3 3 [x41]] in
  option_reads (lib := Ref.lib) Ref.two_options
    (options ++ [Ref.null_option]) (mkFILE [x07] false)
  /\ Forall (fun option => opt_len option <> 0) options
  /\ opt_len Ref.null_option = 0
  /\ (List.length options < 3)%nat
  /\ exists result, 0 < result /\
       dump_options (lib := Ref.lib) 3 Ref.two_options false
       = Some (result, mkFILE [x07] false,
               (LF ++ "Options:" ++ LF)
               ++ concat_text (map (dump_option (lib := Ref.lib)) options)).
Proof.
  intro options.
  assert (H1 : option_reads (lib := Ref.lib) Ref.two_options
                 (options ++ [Ref.null_option]) (mkFILE [x07] false)).
  { eapply option_reads_cons; [reflexivity | reflexivity |].
    eapply option_reads_cons; [reflexivity | reflexivity |].
    eapply option_reads_cons; [reflexivity | reflexivity |].
    apply option_reads_nil. }
  assert (H2 : Forall (fun option => opt_len option <> 0) options)
    by (repeat constructor; discriminate).
  assert (H4 : (List.length options < 3)%nat) by (simpl; lia).
  repeat split; try assumption.
  exact (proj1 (dump_options_terminated (lib := Ref.lib) Ref.two_options
                  (mkFILE [x07] false) options Ref.null_option 3
                  H1 H2 eq_refl H4)).
Defined.

(** ** Relocations on the reference reader *)

Lemma dump_relocs_skip_aggregation_witness :
  let r1 := mk_reloc 255 0 0 0 in
  let r3 := mk_reloc 5 130 0 0 in
  let r4 := mk_reloc 0 0 0 0 in
  reloc_reads (lib := Ref.lib) Ref.null_header Ref.skip_relocs
    [r1; r1; r3; r4] (mkFILE [x09] false)
  /\ dump_relocs (lib := Ref.lib) 4 Ref.skip_relocs ".text"
       Ref.null_header 4096
     = Some (1, mkFILE [x09] false,
             LF ++ ".text.relocs:" ++ LF ++ "    1200: text, WORD" ++ LF).
Proof.
  intros r1 r3 r4.
  assert (H : reloc_reads (lib := Ref.lib) Ref.null_header Ref.skip_relocs
                [r1; r1; r3; r4] (mkFILE [x09] false)).
  { eapply reloc_reads_cons; [reflexivity | reflexivity |].
    eapply reloc_reads_cons; [reflexivity | reflexivity |].
    eapply reloc_reads_cons; [reflexivity | reflexivity |].
    eapply reloc_reads_cons; [reflexivity | reflexivity |].
    apply reloc_reads_nil. }
  split; [exact H|].
  exact (proj1 (dump_relocs_skip_aggregation (lib := Ref.lib)
                  Ref.null_header Ref.skip_relocs (mkFILE [x09] false)
                  ".text" 4096 r1 r1 r3 r4 4 H eq_refl eq_refl eq_refl
                  eq_refl (le_n 4))).
Defined.

Lemma dump_relocs_terminated_witness :
  let r1 := mk_reloc 5 130 0 0 in
  let r2 := mk_reloc 255 0 0 0 in
  let r3 := mk_reloc 3 130 0 0 in
  let r4 := mk_reloc 0 0 0 0 in
  reloc_reads (lib := Ref.lib) Ref.null_header Ref.two_relocs
    ([r1; r2; r3] ++ [r4]) (mkFILE [x09] false)
  /\ dump_relocs (lib := Ref.lib) 4 Ref.two_relocs ".text"
       Ref.null_header 4096
     = Some (1, mkFILE [x09] false,
             LF ++ ".text.relocs:" ++ LF
             ++ "    1004: text, WORD" ++ LF
             ++ "    1105: text, WORD" ++ LF)
  /\ map fst (reloc_walk (o65_size (4096 - 1)) [r1; r2; r3]) = [4100; 4357]
  /\ StronglySorted Z.lt
       (map fst (reloc_walk (o65_size (4096 - 1)) [r1; r2; r3])).
Proof.
  intros r1 r2 r3 r4.
  assert (H : reloc_reads (lib := Ref.lib) Ref.null_header Ref.two_relocs
                ([r1; r2; r3] ++ [r4]) (mkFILE [x09] false)).
  { eapply reloc_reads_cons; [reflexivity | reflexivity |].
    eapply reloc_reads_cons; [reflexivity | reflexivity |].
    eapply reloc_reads_cons; [reflexivity | reflexivity |].
    eapply reloc_reads_cons; [reflexivity | reflexivity |].
    apply reloc_reads_nil. }
  assert (Hoff : Forall (fun reloc => 1 <= reloc_offset reloc <= 255)
                   [r1; r2; r3])
    by (repeat constructor; simpl; lia).
  split; [exact H|].
  destruct (dump_relocs_terminated (lib := Ref.lib) Ref.null_header
              Ref.two_relocs (mkFILE [x09] false) ".text" 4096
              [r1; r2; r3] r4 4 H Hoff eq_refl (le_n 4)) as [Hdump Hsorted].
  split; [exact Hdump|]. split; [reflexivity|].
  apply Hsorted; [lia | vm_compute; reflexivity].
Defined.

(** ** A relocation table that passes 2^32 *)

Lemma reloc_reads_app {lib : o65file} (header : o65_header_t)
  (a b : list o65_reloc_t) :
  forall file file1 file2,
  reloc_reads header file a file1 ->
  reloc_reads header file1 b file2 ->
  reloc_reads header file (a ++ b) file2.
Proof.
  induction a as [|r a IH]; intros file file1 file2 Ha Hb.
  - inversion Ha; subst. exact Hb.
  - inversion Ha as [|? result ? f ? ? Hread Hres Hrest]; subst.
    cbn [app]. eapply reloc_reads_cons; [exact Hread | exact Hres |].
    exact (IH _ _ _ Hrest Hb).
Qed.

Lemma reloc_walk_skips (n : nat) :
  forall (cursor : Z) (relocs : list o65_reloc_t),
  size_ok cursor ->
  reloc_walk cursor (repeat Ref.skip_entry n ++ relocs)
  = reloc_walk (o65_size (cursor + 254 * Z.of_nat n)) relocs.
Proof.
  induction n as [|n IH]; intros cursor relocs H.
  - cbn [repeat app]. replace (cursor + 254 * Z.of_nat 0) with cursor by lia.
    now rewrite o65_size_small.
  - cbn [repeat app reloc_walk]. cbn [Ref.skip_entry reloc_offset Z.eqb Pos.eqb].
    unfold reloc_step. cbn [Ref.skip_entry reloc_offset Z.eqb Pos.eqb].
    rewrite IH by apply o65_size_ok.
    rewrite o65_size_add_l. f_equal. f_equal. lia.
Qed.

Lemma ref_skip_reads (header : o65_header_t) (n : nat) (rest : list byte)
  (at_eof : bool) :
  reloc_reads (lib := Ref.lib) header (mkFILE (repeat xff n ++ rest) at_eof)
    (repeat Ref.skip_entry n) (mkFILE rest at_eof).
Proof.
  induction n as [|n IH]; [apply reloc_reads_nil|].
  cbn [repeat app].
  eapply reloc_reads_cons; [reflexivity | reflexivity | exact IH].
Qed.

Lemma long_relocs_dump (n : nat) :
  dump_file (lib := Ref.lib) (S (S (n + 3)))
    (Ref.disk "long.o65" (Ref.long_relocs_image n)) "long.o65"
  = Some (1,
      ("Header:" ++ LF ++ dump_mode (lib := Ref.lib) Ref.long_header
       ++ dump_header_fields (lib := Ref.lib) Ref.long_header)
      ++ (LF ++ ".text: 0 bytes" ++ LF)
      ++ (LF ++ ".data: 0 bytes" ++ LF)
      ++ (LF ++ "Undefined Symbols: none" ++ LF)
      ++ (LF ++ ".text.relocs:" ++ LF
          ++ "    1000: text, WORD" ++ LF
          ++ "    " ++ hex_min 4 (o65_size (4096 + 254 * Z.of_nat n + 5))
          ++ ": text, WORD" ++ LF)
      ++ (LF ++ ".data.relocs:" ++ LF)
      ++ (LF ++ "Exported Symbols: none" ++ LF),
      EmptyString).
Proof.
  set (r1 := mk_reloc 1 130 0 0).
  set (r5 := mk_reloc 5 130 0 0).
  set (r0 := mk_reloc 0 0 0 0).
  set (tail := [x05; x82; x00; x00; x00; x00]).
  set (file3 := mkFILE (x01 :: x82 :: repeat xff n ++ tail) false).
  set (file4 := mkFILE [x00; x00; x00] false).
  assert (Hhead : o65_read_header (o65file := Ref.lib)
                    (mkFILE (Ref.long_relocs_image n) false)
                  = (1, Ref.long_header,
                     mkFILE (x00 :: x00 :: x00 :: content file3) false))
    by (vm_compute; reflexivity).
  assert (Hreads : reloc_reads (lib := Ref.lib) Ref.long_header file3
                     ((r1 :: repeat Ref.skip_entry n ++ [r5]) ++ [r0]) file4).
  { cbn [app]. rewrite <- app_assoc.
    eapply reloc_reads_cons; [reflexivity | reflexivity |].
    eapply reloc_reads_app; [apply ref_skip_reads|].
    eapply reloc_reads_cons; [reflexivity | reflexivity |].
    eapply reloc_reads_cons; [reflexivity | reflexivity |].
    apply reloc_reads_nil. }
  assert (Hoff : Forall (fun reloc => reloc_offset reloc <> 0)
                   (r1 :: repeat Ref.skip_entry n ++ [r5])).
  { constructor; [discriminate|]. apply Forall_app. split.
    - apply Forall_forall. intros r Hr. apply repeat_spec in Hr. subst r.
      discriminate.
    - repeat constructor. discriminate. }
  assert (Hrelocs :
    dump_relocs (lib := Ref.lib) (S (n + 3)) file3 ".text" Ref.long_header
      (tbase Ref.long_header)
    = Some (1, file4,
            LF ++ ".text.relocs:" ++ LF
            ++ "    1000: text, WORD" ++ LF
            ++ "    " ++ hex_min 4 (o65_size (4096 + 254 * Z.of_nat n + 5))
            ++ ": text, WORD" ++ LF)).
  { rewrite (dump_relocs_reads (lib := Ref.lib) Ref.long_header file3 file4
               ".text" (tbase Ref.long_header) _ r0 (S (n + 3)) Hreads Hoff
               eq_refl)
      by (cbn [List.length]; rewrite length_app, repeat_length; simpl; lia).
    assert (Hfirst : o65_size (o65_size (tbase Ref.long_header - 1)
                                + reloc_step r1) = 4096) by reflexivity.
    cbn [reloc_walk]. rewrite Hfirst.
    change (reloc_offset r1 =? 255) with false. cbn iota.
    rewrite reloc_walk_skips by (unfold size_ok; lia).
    cbn [reloc_walk].
    change (reloc_offset r5 =? 255) with false. cbn iota.
    change (reloc_step r5) with 5.
    rewrite o65_size_add_l.
    cbn [map concat_text fold_right]. rewrite append_empty_r.
    unfold reloc_line. cbn [fst snd]. reflexivity. }
  unfold dump_file, Ref.disk. rewrite String.eqb_refl.
  cbn [dump_file_loop]. rewrite Hhead.
  cbn [Z.ltb Z.eqb Z.compare].
  unfold dump_image, and_then, printf, total.
  cbn [Z.leb Z.compare].
  change (dump_options (lib := Ref.lib) (S (n + 3))
            (mkFILE (x00 :: x00 :: x00 :: content file3) false) false)
    with (Some (1, mkFILE (x00 :: x00 :: content file3) false, EmptyString)).
  cbn [Z.leb Z.compare].
  change (dump_segment (lib := Ref.lib)
            (mkFILE (x00 :: x00 :: content file3) false) ".text" Ref.long_header
            (tbase Ref.long_header) (tlen Ref.long_header))
    with (1, mkFILE (x00 :: x00 :: content file3) false,
          LF ++ ".text: 0 bytes" ++ LF).
  cbn [Z.leb Z.compare].
  change (dump_segment (lib := Ref.lib)
            (mkFILE (x00 :: x00 :: content file3) false) ".data" Ref.long_header
            (dbase Ref.long_header) (dlen Ref.long_header))
    with (1, mkFILE (x00 :: x00 :: content file3) false,
          LF ++ ".data: 0 bytes" ++ LF).
  cbn [Z.leb Z.compare].
  change (dump_undefined_symbols (lib := Ref.lib)
            (mkFILE (x00 :: x00 :: content file3) false) Ref.long_header)
    with (1, file3, LF ++ "Undefined Symbols: none" ++ LF).
  cbn [Z.leb Z.compare].
  rewrite Hrelocs. cbn [Z.leb Z.compare].
  change (dump_relocs (lib := Ref.lib) (S (n + 3)) file4 ".data" Ref.long_header
            (dbase Ref.long_header))
    with (Some (1, mkFILE [x00; x00] false, LF ++ ".data.relocs:" ++ LF)).
  cbn [Z.leb Z.compare].
  change (dump_exported_symbols (lib := Ref.lib) (mkFILE [x00; x00] false)
            Ref.long_header)
    with (1, mkFILE [] false, LF ++ "Exported Symbols: none" ++ LF).
  cbn [Z.ltb Z.eqb Z.compare Z.leb].
  change (Z.land (mode Ref.long_header) (O65_MODE_CHAIN (o65file := Ref.lib)) =? 0)
    with true.
  cbn [negb]. reflexivity.
Qed.

Lemma long_relocs_walk (n : nat) :
  map fst
    (reloc_walk (o65_size (4096 - 1))
       (mk_reloc 1 130 0 0 :: repeat Ref.skip_entry n ++ [mk_reloc 5 130 0 0]))
  = [4096; o65_size (4096 + 254 * Z.of_nat n + 5)].
Proof.
  cbn [reloc_walk].
  change (reloc_step (mk_reloc 1 130 0 0)) with 1.
  change (o65_size (o65_size (4096 - 1) + 1)) with 4096.
  change (reloc_offset (mk_reloc 1 130 0 0) =? 255) with false. cbn iota.
  rewrite reloc_walk_skips by (unfold size_ok; lia).
  cbn [reloc_walk map fst].
  change (reloc_offset (mk_reloc 5 130 0 0) =? 255) with false. cbn iota.
  change (reloc_step (mk_reloc 5 130 0 0)) with 5.
  now rewrite o65_size_add_l.
Qed.


(** C4 as stated fails: in this 16-bit image the text relocation table
    holds a relocation at offset 1, then 16909320 skip markers, then a
    relocation at offset 5.  The skips carry the 32-bit cursor past 2^32,
    so the dump reports the address 1000 and after it the address
    0ff5. *)
Lemma dump_relocs_address_wraps :
  dump_file (lib := Ref.lib) (S (S (Ref.wrap_skips + 3)))
    (Ref.disk "long.o65" (Ref.long_relocs_image Ref.wrap_skips)) "long.o65"
  = Some (1,
      "Header:" ++ LF ++
      "    mode  = 0x0000 (6502, 16-bit addresses, exe, byte alignment)"
      ++ LF ++
      "    tbase = 0x1000" ++ LF ++ "    tlen  = 0x0000" ++ LF ++
      "    dbase = 0x2000" ++ LF ++ "    dlen  = 0x0000" ++ LF ++
      "    bbase = 0x3000" ++ LF ++ "    blen  = 0x0000" ++ LF ++
      "    zbase = 0x0000" ++ LF ++ "    zlen  = 0x0000" ++ LF ++
      "    stack = 0x0000" ++ LF ++ LF ++
      ".text: 0 bytes" ++ LF ++ LF ++
      ".data: 0 bytes" ++ LF ++ LF ++
      "Undefined Symbols: none" ++ LF ++ LF ++
      ".text.relocs:" ++ LF ++
      "    1000: text, WORD" ++ LF ++
      "    0ff5: text, WORD" ++ LF ++ LF ++
      ".data.relocs:" ++ LF ++ LF ++
      "Exported Symbols: none" ++ LF,
      EmptyString)
  /\ map fst
       (reloc_walk (o65_size (4096 - 1))
          (mk_reloc 1 130 0 0
           :: repeat Ref.skip_entry Ref.wrap_skips ++ [mk_reloc 5 130 0 0]))
     = [4096; 4085]
  /\ ~ StronglySorted Z.le [4096; 4085].
Proof.
  assert (Hsum : o65_size (4096 + 254 * Z.of_nat Ref.wrap_skips + 5) = 4085).
  { unfold Ref.wrap_skips. rewrite Z2Nat.id by lia. reflexivity. }
  split; [|split].
  - rewrite long_relocs_dump, Hsum. reflexivity.
  - rewrite long_relocs_walk, Hsum. reflexivity.
  - intro Hs. inversion Hs as [|? ? _ Hall]; subst.
    inversion Hall as [|? ? Hle _]; subst. lia.
Qed.

Lemma dump_reloc_type_cases_witness :
  let odd := mk_reloc 5 226 0 0 in
  let high := mk_reloc 5 66 171 0 in
  dump_reloc_type (lib := Ref.lib) Ref.null_header high = "HIGH ab"
  /\ dump_reloc_type (lib := Ref.lib) Ref.null_header odd = "RELOC-e0"
  /\ dump_relocs (lib := Ref.lib) 2 Ref.odd_relocs ".text"
       Ref.null_header 4096
     = Some (1, mkFILE [] false,
             LF ++ ".text.relocs:" ++ LF ++ "    1004: text, RELOC-e0" ++ LF).
Proof.
  intros odd high.
  destruct (dump_reloc_type_cases (lib := Ref.lib) Ref.null_header high)
    as [Hhigh _].
  destruct (dump_reloc_type_cases (lib := Ref.lib) Ref.null_header odd)
    as [_ [_ [_ Hodd]]].
  assert (Hk : ~ In 224 [128; 32; 192; 64; 160])
    by (intros [E | [E | [E | [E | [E | []]]]]]; discriminate E).
  destruct (Hodd Hk) as [Htext Hrun].
  split; [exact (Hhigh eq_refl)|]. split; [exact Htext|].
  apply (Hrun Ref.odd_relocs (mkFILE [] false) ".text" 4096
           (mk_reloc 0 0 0 0)).
  - eapply reloc_reads_cons; [reflexivity | reflexivity |].
    eapply reloc_reads_cons; [reflexivity | reflexivity |].
    apply reloc_reads_nil.
  - simpl. lia.
  - reflexivity.
Defined.

(** ** Address fields: one width per image *)

Section AddressWidth.

Context {lib : o65file}.

Variable header : o65_header_t.

Lemma addr_digits_positive : (1 <= addr_digits header)%nat.
Proof. unfold addr_digits. destruct (_ =? _); lia. Qed.

Lemma length_hex_min_exact (w : nat) (v : Z) :
  (1 <= w)%nat -> 0 <= v ->
  String.length (hex_min w v) = w <-> v < 16 ^ Z.of_nat w.
Proof.
  intros Hw Hv. rewrite length_hex_min. split.
  - intro H. destruct (Z.lt_ge_cases v (16 ^ Z.of_nat w)) as [|Hge];
      [assumption|].
    apply hex_len_gt in Hge. lia.
  - intro H. apply Nat.max_l, hex_len_le; [assumption | lia].
Qed.

Lemma dump_hex_line_width (addr : Z) (data : list byte) (len : Z) :
  size_ok addr ->
  dump_hex_line header addr data len
  = "    " ++ hex_min (addr_digits header) addr ++ ":"
    ++ dump_hex data len ++ LF.
Proof.
  intro H. unfold dump_hex_line, addr_digits.
  destruct (Z.land (mode header) O65_MODE_32BIT =? 0); cbn [negb];
    rewrite fmt_lx_hex_min by exact H; now rewrite !append_assoc.
Qed.

Lemma dump_reloc_address_width (addr : Z) :
  size_ok addr ->
  dump_reloc_address header addr
  = "    " ++ hex_min (addr_digits header) addr ++ ": ".
Proof.
  intro H. unfold dump_reloc_address, addr_digits.
  destruct (Z.land (mode header) O65_MODE_32BIT =? 0); cbn [negb];
    now rewrite fmt_lx_hex_min by exact H.
Qed.

Lemma dump_header_fields_width :
  header_ok header ->
  let w := addr_digits header in
  dump_header_fields header
  = header_line "tbase" w (tbase header)
    ++ header_line "tlen " w (tlen header)
    ++ header_line "dbase" w (dbase header)
    ++ header_line "dlen " w (dlen header)
    ++ header_line "bbase" w (bbase header)
    ++ header_line "blen " w (blen header)
    ++ header_line "zbase" w (zbase header)
    ++ header_line "zlen " w (zlen header)
    ++ header_line "stack" w (stack header).
Proof.
  intros H w. subst w. unfold header_ok in H.
  repeat match goal with
  | H : Forall _ (_ :: _) |- _ =>
      let H1 := fresh "Hok" in let H2 := fresh "Hrest" in
      inversion H as [|? ? H1 H2]; subst; clear H
  end.
  unfold dump_header_fields, addr_digits, header_line.
  destruct (Z.land (mode header) O65_MODE_32BIT =? 0); cbn [negb];
    rewrite ?fmt_lx_hex_min, ?fmt_x_hex_min by assumption;
    repeat (rewrite !append_assoc; cbn [append]); reflexivity.
Qed.

Lemma dump_exported_value_width (file file' : FILE) (buf buf' : list byte)
  (result : Z) (out : string) :
  dump_exported_value file header buf = (result, buf', file', out) ->
  0 < result ->
  exists value, size_ok value
    /\ out = ", 0x" ++ hex_min (addr_digits header) value ++ LF.
Proof.
  unfold dump_exported_value, addr_digits.
  destruct (Z.land (mode header) O65_MODE_32BIT =? 0);
    [destruct (fread buf 2 file) as [[got buf1] file1]
    |destruct (fread buf 4 file) as [[got buf1] file1]];
    destruct (negb (got =? 2)); intros E Hres;
    inversion E; subst; try lia;
    eexists; (split; [apply o65_size_ok|]);
    now rewrite fmt_lx_hex_min by apply o65_size_ok.
Qed.

Lemma dump_hex_line_at (addr : Z) (data : list byte) (len : Z) :
  size_ok addr ->
  dump_hex_line header addr data len
  = hex_line_at (addr_digits header) addr data len.
Proof. exact (dump_hex_line_width addr data len). Qed.

Lemma dump_segment_loop_at (n : nat) :
  forall (file : FILE) (buf : list byte) (base len : Z),
  size_ok base ->
  dump_segment_loop n file header buf base len
  = segment_loop_at (addr_digits header) n file buf base len.
Proof.
  induction n as [|n IH]; intros file buf base len Hbase;
    cbn [dump_segment_loop segment_loop_at].
  - destruct (len >=? 16); [reflexivity|].
    destruct (len >? 0); [|reflexivity].
    destruct (fread buf len file) as [[got buf'] file'].
    destruct (negb (got =? len)); [reflexivity|].
    now rewrite dump_hex_line_at.
  - destruct (len >=? 16).
    + destruct (fread buf 16 file) as [[got buf'] file'].
      destruct (negb (got =? 16)); [reflexivity|].
      rewrite IH by apply o65_size_ok.
      now rewrite dump_hex_line_at.
    + destruct (len >? 0); [|reflexivity].
      destruct (fread buf len file) as [[got buf'] file'].
      destruct (negb (got =? len)); [reflexivity|].
      now rewrite dump_hex_line_at.
Qed.

Lemma dump_segment_at (file : FILE) (name : string) (base len : Z) :
  size_ok base ->
  dump_segment file name header base len
  = segment_at (addr_digits header) file name base len.
Proof.
  intro H. unfold dump_segment, segment_at.
  now rewrite dump_segment_loop_at.
Qed.

Lemma dump_relocs_loop_at (fuel : nat) :
  forall (file : FILE) (addr : Z),
  dump_relocs_loop fuel file header addr
  = relocs_loop_at (addr_digits header) fuel file header addr.
Proof.
  induction fuel as [|fuel IH]; intros file addr; [reflexivity|].
  cbn [dump_relocs_loop relocs_loop_at].
  destruct (o65_read_reloc file header) as [[result reloc] file'].
  destruct (result <=? 0); [reflexivity|].
  destruct (reloc_offset reloc =? 0); [reflexivity|].
  destruct (reloc_offset reloc =? 255); [apply IH|].
  rewrite IH, dump_reloc_entry_line by apply o65_size_ok. reflexivity.
Qed.

Lemma dump_relocs_at (fuel : nat) (file : FILE) (name : string) (addr : Z) :
  dump_relocs fuel file name header addr
  = relocs_at (addr_digits header) fuel file name header addr.
Proof. unfold dump_relocs, relocs_at. now rewrite dump_relocs_loop_at. Qed.

Lemma dump_exported_value_at (file : FILE) (buf : list byte) :
  dump_exported_value file header buf
  = exported_value_at (addr_digits header) file header buf.
Proof.
  unfold dump_exported_value, exported_value_at, addr_digits.
  destruct (Z.land (mode header) O65_MODE_32BIT =? 0);
    [destruct (fread buf 2 file) as [[got buf'] file']
    |destruct (fread buf 4 file) as [[got buf'] file']];
    destruct (negb (got =? 2)); try reflexivity;
    now rewrite fmt_lx_hex_min by apply o65_size_ok.
Qed.

Lemma dump_exported_symbols_loop_at (n : nat) :
  forall (file : FILE) (buf : list byte),
  dump_exported_symbols_loop n file header buf
  = exported_symbols_loop_at (addr_digits header) n file header buf.
Proof.
  induction n as [|n IH]; intros file buf; [reflexivity|].
  cbn [dump_exported_symbols_loop exported_symbols_loop_at].
  destruct (dump_nul_string file) as [[result file1] name].
  destruct (result <=? 0); [reflexivity|].
  destruct (getc file1) as [ch file2].
  destruct (ch =? -1); [reflexivity|].
  rewrite dump_exported_value_at.
  destruct (exported_value_at (addr_digits header) file2 header buf)
    as [[[result' buf'] file3] value].
  destruct (result' <=? 0); [reflexivity|].
  now rewrite IH.
Qed.

Lemma dump_exported_symbols_at (file : FILE) :
  dump_exported_symbols file header
  = exported_symbols_at (addr_digits header) file header.
Proof.
  unfold dump_exported_symbols, exported_symbols_at,
    dump_exported_symbols_from, exported_symbols_from_at.
  destruct (Z.land (mode header) O65_MODE_32BIT =? 0);
    [destruct (fread indeterminate_buf 2 file) as [[got buf] file']
    |destruct (fread indeterminate_buf 4 file) as [[got buf] file']];
    destruct (negb (got =? 2)); try reflexivity.
  - destruct (o65_size (o65_read_uint16 buf) =? 0); [reflexivity|].
    now rewrite dump_exported_symbols_loop_at.
  - destruct (o65_size (o65_read_uint32 buf) =? 0); [reflexivity|].
    now rewrite dump_exported_symbols_loop_at.
Qed.

(** The whole report of an image is the report at the width of its
    header. *)
Lemma dump_image_at (fuel : nat) (file : FILE) :
  header_ok header ->
  dump_image fuel file header
  = image_at (addr_digits header) fuel file header.
Proof.
  intro Hok. pose proof (dump_header_fields_width Hok) as Hfields.
  cbv zeta in Hfields.
  unfold header_ok in Hok.
  inversion Hok as [|? ? Htbase Hok1]; subst.
  inversion Hok1 as [|? ? _ Hok2]; subst.
  inversion Hok2 as [|? ? Hdbase _]; subst.
  unfold dump_image, image_at, header_fields_at, and_then, printf, total.
  rewrite Hfields.
  destruct (dump_options fuel file false) as [[[r1 f1] o1]|]; [|reflexivity].
  cbn [Z.leb Z.compare].
  destruct (r1 <=? 0); [reflexivity|].
  rewrite (dump_segment_at f1 ".text" _ _ Htbase).
  destruct (segment_at (addr_digits header) f1 ".text" (tbase header)
              (tlen header)) as [[r2 f2] o2].
  destruct (r2 <=? 0); [reflexivity|].
  rewrite (dump_segment_at f2 ".data" _ _ Hdbase).
  destruct (segment_at (addr_digits header) f2 ".data" (dbase header)
              (dlen header)) as [[r3 f3] o3].
  destruct (r3 <=? 0); [reflexivity|].
  destruct (dump_undefined_symbols f3 header) as [[r4 f4] o4].
  destruct (r4 <=? 0); [reflexivity|].
  rewrite dump_relocs_at.
  destruct (relocs_at (addr_digits header) fuel f4 ".text" header
              (tbase header)) as [[[r5 f5] o5]|]; [|reflexivity].
  destruct (r5 <=? 0); [reflexivity|].
  rewrite dump_relocs_at.
  destruct (relocs_at (addr_digits header) fuel f5 ".data" header
              (dbase header)) as [[[r6 f6] o6]|]; [|reflexivity].
  destruct (r6 <=? 0); [reflexivity|].
  now rewrite dump_exported_symbols_at.
Qed.

(** C6, amended.  Within one image every address field -- the lines of
    the header, the addresses of the segment lines, the addresses of the
    relocations, the values of the exported symbols -- is printed with
    the same minimum width: 8 hexadecimal digits when the 32-bit flag of
    the mode is set, 4 when it is clear, padded with zeros.  A field has
    exactly that many digits when, and only when, its value is below
    16^width: always with the 32-bit flag, and without it as long as the
    value is below 0x10000.  The whole of [dump_image] is the report
    [image_at] at that one width. *)
Theorem address_fields_width :
  let w := addr_digits header in
  (forall addr data len, size_ok addr ->
     dump_hex_line header addr data len
     = "    " ++ hex_min w addr ++ ":" ++ dump_hex data len ++ LF)
  /\ (forall addr, size_ok addr ->
        dump_reloc_address header addr = "    " ++ hex_min w addr ++ ": ")
  /\ (header_ok header ->
        dump_header_fields header
        = header_line "tbase" w (tbase header)
          ++ header_line "tlen " w (tlen header)
          ++ header_line "dbase" w (dbase header)
          ++ header_line "dlen " w (dlen header)
          ++ header_line "bbase" w (bbase header)
          ++ header_line "blen " w (blen header)
          ++ header_line "zbase" w (zbase header)
          ++ header_line "zlen " w (zlen header)
          ++ header_line "stack" w (stack header))
  /\ (forall file file' buf buf' result out,
        dump_exported_value file header buf = (result, buf', file', out) ->
        0 < result ->
        exists value, size_ok value
          /\ out = ", 0x" ++ hex_min w value ++ LF)
  /\ (forall v, 0 <= v ->
        String.length (hex_min w v) = w <-> v < 16 ^ Z.of_nat w)
  /\ (Z.land (mode header) O65_MODE_32BIT <> 0 ->
        w = 8%nat
        /\ forall v, size_ok v -> String.length (hex_min w v) = 8%nat)
  /\ (Z.land (mode header) O65_MODE_32BIT = 0 -> w = 4%nat)
  /\ (header_ok header ->
      forall fuel file,
        dump_image fuel file header = image_at w fuel file header).
Proof.
  intro w. subst w.
  split; [exact dump_hex_line_width|].
  split; [exact dump_reloc_address_width|].
  split; [exact dump_header_fields_width|].
  split; [exact dump_exported_value_width|].
  split; [intros v Hv; apply length_hex_min_exact;
          [apply addr_digits_positive | exact Hv]|].
  split.
  - intro H32. unfold addr_digits.
    destruct (Z.eqb_spec (Z.land (mode header) O65_MODE_32BIT) 0) as [E|_];
      [contradiction|].
    split; [reflexivity|]. intros v [H0 H1].
    apply (length_hex_min_exact 8); [lia | assumption | exact H1].
  - split.
    + intro H16. unfold addr_digits. now rewrite H16.
    + intros Hok fuel file. now apply dump_image_at.
Qed.

End AddressWidth.

(** C6 as stated fails: in this 16-bit image the header fields and the
    first text line have four digits and the second text line, at
    0x10000, has five. *)
Lemma dump_segment_address_five_digits :
  dump_file (lib := Ref.lib) 5 (Ref.disk "high.o65" Ref.high_image)
    "high.o65"
  = Some (1,
      "Header:" ++ LF ++
      "    mode  = 0x0000 (6502, 16-bit addresses, exe, byte alignment)"
      ++ LF ++
      "    tbase = 0xfff0" ++ LF ++ "    tlen  = 0x0011" ++ LF ++
      "    dbase = 0x0000" ++ LF ++ "    dlen  = 0x0000" ++ LF ++
      "    bbase = 0x0000" ++ LF ++ "    blen  = 0x0000" ++ LF ++
      "    zbase = 0x0000" ++ LF ++ "    zlen  = 0x0000" ++ LF ++
      "    stack = 0x0000" ++ LF ++ LF ++
      ".text: 17 bytes" ++ LF ++
      "    fff0: 07 07 07 07 07 07 07 07 07 07 07 07 07 07 07 07" ++ LF ++
      "    10000: 07" ++ LF ++ LF ++
      ".data: 0 bytes" ++ LF ++ LF ++
      "Undefined Symbols: none" ++ LF ++ LF ++
      ".text.relocs:" ++ LF ++ LF ++
      ".data.relocs:" ++ LF ++ LF ++
      "Exported Symbols: none" ++ LF,
      EmptyString)
  /\ Z.land 0 (O65_MODE_32BIT (o65file := Ref.lib)) = 0
  /\ dump_hex_line (lib := Ref.lib) Ref.null_header 65536 [x07] 1
     = "    10000: 07" ++ LF
  /\ String.length (fmt_lx 4 65536) = 5%nat.
Proof. repeat split. Qed.

Lemma address_fields_width_witness :
  let file := mkFILE (skipn 26 Ref.high_image) false in
  let header := mk_header 0 65520 17 0 0 0 0 0 0 0 in
  size_ok 4096 /\ header_ok Ref.header32 /\ header_ok header
  /\ dump_hex_line (lib := Ref.lib) Ref.header32 4096 [x07] 1
     = "    " ++ hex_min 8 4096 ++ ":" ++ dump_hex [x07] 1 ++ LF
  /\ String.length (hex_min 8 4096) = 8%nat
  /\ dump_image (lib := Ref.lib) 5 file header
     = image_at (lib := Ref.lib) 4 5 file header.
Proof.
  intros file header.
  assert (H : size_ok 4096) by (unfold size_ok; lia).
  assert (Hh : header_ok Ref.header32)
    by (repeat constructor; simpl; lia).
  assert (Hh' : header_ok header)
    by (repeat constructor; simpl; lia).
  destruct (address_fields_width (lib := Ref.lib) Ref.header32)
    as [Hline [_ [_ [_ [_ [H32 _]]]]]].
  destruct (address_fields_width (lib := Ref.lib) header)
    as [_ [_ [_ [_ [_ [_ [_ Himage]]]]]]].
  split; [exact H|]. split; [exact Hh|]. split; [exact Hh'|].
  split; [exact (Hline 4096 [x07] 1 H)|].
  assert (Hflag : Z.land 8192 8192 <> 0) by discriminate.
  split; [exact (proj2 (H32 Hflag) 4096 H)|].
  exact (Himage Hh' 5%nat file).
Defined.

(** ** The chain of images: [dump_file] *)

Section Chain.

Context {lib : o65file}.

Lemma dump_file_loop_chained (filename : string) (fuel fuel' : nat)
  (file file' : FILE) (out : string) :
  chained fuel file out fuel' file' ->
  dump_file_loop fuel file filename
  = match dump_file_loop fuel' file' filename with
    | None => None
    | Some (ok, out', err) => Some (ok, out ++ out', err)
    end.
Proof.
  intro H.
  induction H as [fuel file
                 |fuel file result header file1 code file2 text out fuel'
                    file' Hread Hres Himage Hcode Hchain _ IH].
  - now destruct (dump_file_loop fuel file filename) as [[[ok out'] err]|].
  - cbn [dump_file_loop]. rewrite Hread.
    destruct (Z.ltb_spec result 0) as [|_]; [lia|].
    destruct (Z.eqb_spec result 0) as [|_]; [lia|].
    rewrite Himage.
    destruct (Z.ltb_spec code 0) as [|_]; [lia|].
    destruct (Z.eqb_spec code 0) as [|_]; [lia|].
    destruct (Z.eqb_spec (Z.land (mode header) O65_MODE_CHAIN) 0) as [|_];
      [contradiction|].
    cbn [negb]. rewrite IH.
    destruct (dump_file_loop fuel' file' filename) as [[[ok out'] err]|];
      [|reflexivity].
    now rewrite !append_assoc.
Qed.

(** C5, amended.  On every iteration of the loop of [dump_file] -- the
    first image or any image reached through the chain bits of the
    images before it -- each outcome has its own report, and [dump_file]
    keeps what the earlier images printed.  A header without signature
    (result 0) is reported as "not in .o65 format" and a failed header
    read by [file_error]; both return 0.  With a header, [dump_image]
    returning 0 is reported as "invalid format", a negative result by
    [file_error], both returning 0; a positive result with the chain bit
    clear returns 1 with no report.  So a missing header after a chain
    bit gets the message of a first image, never "invalid format". *)
Theorem dump_file_header_mismatch (fuel fuel' : nat) (file file' : FILE)
  (filename out : string) :
  chained fuel file out (S fuel') file' ->
  (forall header file1,
     o65_read_header file' = (0, header, file1) ->
     dump_file_loop fuel file filename
     = Some (0, out, filename ++ ": not in .o65 format" ++ LF))
  /\ (forall result header file1,
        o65_read_header file' = (result, header, file1) ->
        result < 0 ->
        dump_file_loop fuel file filename
        = Some (0, out, file_error file1 filename))
  /\ (forall result header file1 code file2 text,
        o65_read_header file' = (result, header, file1) ->
        0 < result ->
        dump_image fuel' file1 header = Some (code, file2, text) ->
        (code = 0 ->
         dump_file_loop fuel file filename
         = Some (0, out ++ text, filename ++ ": invalid format" ++ LF))
        /\ (code < 0 ->
            dump_file_loop fuel file filename
            = Some (0, out ++ text, file_error file2 filename))
        /\ (0 < code ->
            Z.land (mode header) O65_MODE_CHAIN = 0 ->
            dump_file_loop fuel file filename
            = Some (1, out ++ text, EmptyString))).
Proof.
  intro H. rewrite (dump_file_loop_chained filename _ _ _ _ _ H).
  split; [|split].
  - intros header file1 Hread. cbn [dump_file_loop]. rewrite Hread.
    cbn [Z.ltb Z.eqb Z.compare]. now rewrite append_empty_r.
  - intros result header file1 Hread Hres. cbn [dump_file_loop].
    rewrite Hread.
    destruct (Z.ltb_spec result 0) as [_|]; [|lia].
    now rewrite append_empty_r.
  - intros result header file1 code file2 text Hread Hres Himage.
    cbn [dump_file_loop]. rewrite Hread.
    destruct (Z.ltb_spec result 0) as [|_]; [lia|].
    destruct (Z.eqb_spec result 0) as [|_]; [lia|].
    rewrite Himage.
    split; [|split].
    + intros ->. reflexivity.
    + intro Hneg. destruct (Z.ltb_spec code 0) as [_|]; [reflexivity | lia].
    + intros Hpos Hlast.
      destruct (Z.ltb_spec code 0) as [|_]; [lia|].
      destruct (Z.eqb_spec code 0) as [|_]; [lia|].
      rewrite Hlast. reflexivity.
Qed.

End Chain.

(** C5 as stated fails: the first image of this file has the chain bit
    and no header follows it; the report is the format-mismatch message
    of a first image, not "invalid format". *)
Lemma dump_file_chain_mismatch_message :
  exists out,
    dump_file (lib := Ref.lib) 5
      (Ref.disk "chain.o65" Ref.broken_chain) "chain.o65"
    = Some (0, out, "chain.o65: not in .o65 format" ++ LF)
    /\ "chain.o65: not in .o65 format" ++ LF
       <> "chain.o65: invalid format" ++ LF.
Proof.
  eexists. split; [vm_compute; reflexivity | discriminate].
Qed.

Lemma dump_file_header_mismatch_witness :
  let file := mkFILE Ref.broken_chain false in
  let file2 := mkFILE (Ref.bytes [9; 9; 9; 9; 9; 9; 9; 9]) false in
  o65_read_header (o65file := Ref.lib) file2
  = (0, Ref.null_header, mkFILE [] false)
  /\ exists out,
       chained (lib := Ref.lib) 4 file out 3 file2
       /\ dump_file_loop (lib := Ref.lib) 4 file "chain.o65"
          = Some (0, out, "chain.o65: not in .o65 format" ++ LF).
Proof.
  intros file file2.
  split; [reflexivity|].
  assert (Hchain : Z.land 1024 1024 <> 0) by discriminate.
  assert (Hpos : 0 < 1) by lia.
  assert (Himage : dump_image (lib := Ref.lib) 3
                     (mkFILE (skipn 26 Ref.broken_chain) false)
                     (mk_header 1024 4096 0 8192 0 12288 0 0 0 0)
                   = Some (1, file2, _)) by (vm_compute; reflexivity).
  assert (H : chained (lib := Ref.lib) 4 file _ 3 file2)
    by exact (chained_image (lib := Ref.lib) 3 file 1 _ _ 1 file2 _ _ 3 file2
                eq_refl Hpos Himage Hpos Hchain
                (chained_none (lib := Ref.lib) 3 file2)).
  eexists. split; [exact H|].
  exact (proj1 (dump_file_header_mismatch (lib := Ref.lib) 4 2 file file2
                  "chain.o65" _ H)
           Ref.null_header (mkFILE [] false) eq_refl).
Defined.

(** ** The symbol counts *)

Section SymbolCount.

Context {lib : o65file}.

Lemma fread_enough (buf : list byte) (n : nat) (file : FILE) :
  (n <= List.length (content file))%nat ->
  fread buf (Z.of_nat n) file
  = (Z.of_nat n,
     (firstn n (content file) ++ skipn n buf)%list,
     mkFILE (skipn n (content file)) (eof file)).
Proof.
  intro H. unfold fread. rewrite Nat2Z.id, length_firstn, Nat.min_l by exact H.
  replace (n <? n)%nat with false by (symmetry; apply Nat.ltb_irrefl).
  now rewrite orb_false_r.
Qed.

(** C2 on the code.  With the 32-bit flag the count is read with
    [fread(buf, 1, 4, file)] and the number of bytes read is compared
    with 2: when four bytes are there, both symbol tables print nothing
    and return -1, whatever the count.  Without the flag two bytes are
    read, and a count of 0 prints the "none" line and returns 1. *)
Theorem symbol_count_read (file : FILE) (header : o65_header_t) :
  (Z.land (mode header) O65_MODE_32BIT <> 0 ->
   (4 <= List.length (content file))%nat ->
   let file' := mkFILE (skipn 4 (content file)) (eof file) in
   dump_undefined_symbols file header = (-1, file', EmptyString)
   /\ dump_exported_symbols file header = (-1, file', EmptyString))
  /\ (Z.land (mode header) O65_MODE_32BIT = 0 ->
      (2 <= List.length (content file))%nat ->
      o65_read_uint16
        (firstn 2 (content file) ++ skipn 2 indeterminate_buf)%list = 0 ->
      let file' := mkFILE (skipn 2 (content file)) (eof file) in
      dump_undefined_symbols file header
      = (1, file', LF ++ "Undefined Symbols: none" ++ LF)
      /\ dump_exported_symbols file header
         = (1, file', LF ++ "Exported Symbols: none" ++ LF)).
Proof.
  split.
  - intros H32 Hlen file'.
    unfold dump_undefined_symbols, dump_exported_symbols.
    destruct (Z.eqb_spec (Z.land (mode header) O65_MODE_32BIT) 0) as [|_];
      [contradiction|].
    change 4 with (Z.of_nat 4).
    rewrite (fread_enough indeterminate_buf 4 file Hlen).
    split; reflexivity.
  - intros H16 Hlen Hcount file'.
    unfold dump_undefined_symbols, dump_exported_symbols.
    rewrite H16. cbn [Z.eqb].
    change 2 with (Z.of_nat 2) at 1 3.
    rewrite (fread_enough indeterminate_buf 2 file Hlen).
    cbn [Z.of_nat Pos.of_succ_nat Pos.succ Z.eqb Pos.eqb negb].
    rewrite Hcount.
    split; reflexivity.
Qed.

End SymbolCount.

Lemma symbol_count_read_witness :
  let file := mkFILE (Ref.bytes [0; 0; 0; 0]) false in
  dump_undefined_symbols (lib := Ref.lib) file Ref.header32
  = (-1, mkFILE [] false, EmptyString)
  /\ dump_exported_symbols (lib := Ref.lib) file Ref.header32
     = (-1, mkFILE [] false, EmptyString)
  /\ dump_undefined_symbols (lib := Ref.lib) file Ref.null_header
     = (1, mkFILE [x00; x00] false, LF ++ "Undefined Symbols: none" ++ LF)
  /\ dump_exported_symbols (lib := Ref.lib) file Ref.null_header
     = (1, mkFILE [x00; x00] false, LF ++ "Exported Symbols: none" ++ LF).
Proof.
  intro file.
  destruct (symbol_count_read (lib := Ref.lib) file Ref.header32)
    as [H32 _].
  destruct (symbol_count_read (lib := Ref.lib) file Ref.null_header)
    as [_ H16].
  assert (Hflag : Z.land 8192 8192 <> 0) by discriminate.
  assert (H4 : (4 <= 4)%nat) by lia.
  assert (H2 : (2 <= 4)%nat) by lia.
  destruct (H32 Hflag H4) as [Hu He].
  destruct (H16 eq_refl H2 eq_refl) as [Hu' He'].
  repeat split; assumption.
Defined.

(** ** The command line: [main] *)

(** C1 on the code.  The loop of [main] passes [argv[1]] to [dump_file]
    on every turn, so what two arguments produce does not depend on the
    second; with [valid.o65] on the disk and [missing.bin] absent, the
    dump of [valid.o65] is printed twice under its own name, nothing goes
    to the error stream and the exit value is 0. *)
Theorem main_dumps_first_argument_twice :
  (forall (lib : o65file) (fuel : nat) (fs : filesystem)
          (prog a b b' : string),
     main fuel fs [prog; a; b] = main fuel fs [prog; a; b'])
  /\ (forall (lib : o65file) (fuel : nat) (fs : filesystem)
             (prog a b : string) (ok : Z) (out err : string),
        dump_file fuel fs a = Some (ok, out, err) ->
        main fuel fs [prog; a; b]
        = Some (if ok =? 0 then 1 else 0,
                (a ++ ":" ++ LF ++ LF) ++ out
                ++ LF ++ (a ++ ":" ++ LF ++ LF) ++ out,
                err ++ err))
  /\ exists dump,
       let fs := Ref.disk "valid.o65" (Ref.empty_image 0 0) in
       fs "missing.bin" = None
       /\ dump_file (lib := Ref.lib) 5 fs "valid.o65"
          = Some (1, dump, EmptyString)
       /\ main (lib := Ref.lib) 5 fs ["o65dump"; "valid.o65"; "missing.bin"]
          = Some (0,
                  ("valid.o65:" ++ LF ++ LF) ++ dump
                  ++ LF ++ ("valid.o65:" ++ LF ++ LF) ++ dump,
                  EmptyString).
Proof.
  split; [|split].
  - intros. reflexivity.
  - intros lib fuel fs prog a b ok out err H.
    unfold main. cbn [List.length].
    change (Z.to_nat (Z.of_nat 3 - 1)) with 2%nat.
    change (Z.of_nat 3 <=? 1) with false. cbn iota.
    cbn [main_loop nth]. rewrite H.
    change (Z.of_nat 3 >? 2) with true.
    change (1 >? 1) with false. change (1 + 1 >? 1) with true.
    cbn iota. rewrite !append_empty_r.
    destruct (ok =? 0); cbn [append]; now rewrite ?append_assoc.
  - eexists. cbv zeta.
    split; [reflexivity|]. split; vm_compute; reflexivity.
Qed.

Lemma main_dumps_first_argument_twice_witness :
  let fs := Ref.disk "valid.o65" (Ref.empty_image 0 0) in
  exists dump,
    dump_file (lib := Ref.lib) 5 fs "valid.o65" = Some (1, dump, EmptyString)
    /\ main (lib := Ref.lib) 5 fs ["o65dump"; "valid.o65"; "missing.bin"]
       = Some (0,
               ("valid.o65:" ++ LF ++ LF) ++ dump
               ++ LF ++ ("valid.o65:" ++ LF ++ LF) ++ dump,
               EmptyString).
Proof.
  intro fs. eexists.
  assert (H : dump_file (lib := Ref.lib) 5 fs "valid.o65" = _)
    by (vm_compute; reflexivity).
  split; [exact H|].
  exact (proj1 (proj2 main_dumps_first_argument_twice)
           Ref.lib 5%nat fs "o65dump" "valid.o65" "missing.bin" 1 _ _ H).
Defined.

(** * Further properties of the dumper *)

(** ** Payloads *)

Lemma escape_byte_printable (b : byte) :
  printable b = true ->
  escape_byte b = String (ascii_of_byte b) EmptyString.
Proof. unfold printable, escape_byte. now intros ->. Qed.

Lemma length_dump_char (b : byte) :
  (String.length (dump_char (byte_val b)) <= 4)%nat.
Proof. destruct b; vm_compute; lia. Qed.

Lemma fmt_x_byte (b : byte) : " " ++ fmt_x 2 (byte_val b) = hex_byte b.
Proof. destruct b; reflexivity. Qed.

Lemma dump_string_firstn (data : list byte) :
  forall len : Z,
  0 <= len ->
  dump_string data len = escape_bytes (firstn (Z.to_nat len) data).
Proof.
  induction data as [|b data IH]; intros len Hlen.
  - cbn [dump_string]. rewrite firstn_nil. now destruct (len >? 0).
  - cbn [dump_string].
    destruct (Z.gtb_spec len 0) as [Hpos|Hzero].
    + replace (Z.to_nat len) with (S (Z.to_nat (len - 1))) by lia.
      cbn [firstn]. rewrite IH by lia.
      now rewrite dump_char_escape.
    + now replace len with 0 by lia.
Qed.

(** X1.  The first [len] bytes of a buffer, when all of them are printable,
    are printed as they are, and nothing after them. *)
Theorem dump_string_printable (data : list byte) (len : Z) :
  0 <= len ->
  forallb printable (firstn (Z.to_nat len) data) = true ->
  dump_string data len
  = string_of_list_byte (firstn (Z.to_nat len) data).
Proof.
  intros Hlen Hp. rewrite dump_string_firstn by exact Hlen.
  induction (firstn (Z.to_nat len) data) as [|b l IH]; [reflexivity|].
  cbn [forallb] in Hp. apply andb_prop in Hp. destruct Hp as [Hb Hl].
  unfold escape_bytes in *. cbn [map concat_text fold_right].
  change (fold_right append EmptyString (map escape_byte l))
    with (concat_text (map escape_byte l)).
  rewrite (IH Hl), (escape_byte_printable b Hb). reflexivity.
Qed.

(** X2.  A payload never prints more than four characters for a byte. *)
Theorem dump_string_length_bound (data : list byte) (len : Z) :
  0 <= len ->
  (String.length (dump_string data len) <= 4 * Z.to_nat len)%nat.
Proof.
  revert len. induction data as [|b data IH]; intros len Hlen;
    cbn [dump_string]; destruct (Z.gtb_spec len 0) as [Hpos|_];
    try (simpl; lia).
  rewrite length_append.
  pose proof (length_dump_char b). pose proof (IH (len - 1)). lia.
Qed.

(** X3.  [dump_hex] prints the first [len] bytes of the buffer, each as a
    space and two digits: three characters a byte. *)
Theorem dump_hex_firstn (data : list byte) (len : Z) :
  0 <= len <= Z.of_nat (List.length data) ->
  dump_hex data len
  = concat_text (map hex_byte (firstn (Z.to_nat len) data))
  /\ String.length (dump_hex data len) = (3 * Z.to_nat len)%nat.
Proof.
  revert len. induction data as [|b data IH]; intros len Hlen.
  - simpl in Hlen. replace len with 0 by lia. split; reflexivity.
  - cbn [dump_hex]. cbn [List.length] in Hlen.
    destruct (Z.gtb_spec len 0) as [Hpos|Hzero].
    + replace (Z.to_nat len) with (S (Z.to_nat (len - 1))) by lia.
      destruct (IH (len - 1)) as [IH1 IH2]; [lia|].
      cbn [firstn map concat_text fold_right].
      change (fold_right append EmptyString
                (map hex_byte (firstn (Z.to_nat (len - 1)) data)))
        with (concat_text (map hex_byte (firstn (Z.to_nat (len - 1)) data))).
      rewrite <- IH1, <- fmt_x_byte. split.
      * now rewrite !append_assoc.
      * change (" " ++ fmt_x 2 (byte_val b) ++ dump_hex data (len - 1))
          with (String " "%char
                  (fmt_x 2 (byte_val b) ++ dump_hex data (len - 1))).
        cbn [String.length]. rewrite length_append, IH2.
        assert (H2 : String.length (fmt_x 2 (byte_val b)) = 2%nat)
          by (destruct b; reflexivity).
        rewrite H2. lia.
    + replace len with 0 by lia. split; reflexivity.
Qed.

(** X4.  A name that runs into the end of the stream: [dump_nul_string] has
    printed what there was, answers -1, and the stream is at its end with
    the end-of-file indicator set. *)
Theorem dump_nul_string_eof (name : list byte) (at_eof : bool) :
  ~ In x00 name ->
  dump_nul_string (mkFILE name at_eof)
  = (-1, mkFILE [] true, escape_bytes name).
Proof.
  intro H. unfold dump_nul_string. cbn [content eof].
  now apply dump_nul_string_loop_eof.
Qed.

Lemma dump_string_printable_witness :
  0 <= 2
  /\ forallb printable (firstn (Z.to_nat 2) [x41; x42; x00]) = true
  /\ dump_string [x41; x42; x00] 2 = "AB".
Proof.
  assert (H0 : 0 <= 2) by lia.
  split; [exact H0|]. split; [reflexivity|].
  exact (dump_string_printable [x41; x42; x00] 2 H0 eq_refl).
Defined.

Lemma dump_string_length_bound_witness :
  0 <= 3
  /\ (String.length (dump_string [x41; x0a; x00] 3) <= 4 * Z.to_nat 3)%nat.
Proof.
  assert (H0 : 0 <= 3) by lia.
  split; [exact H0|].
  exact (dump_string_length_bound [x41; x0a; x00] 3 H0).
Defined.

Lemma dump_hex_firstn_witness :
  0 <= 2 <= Z.of_nat (List.length [x41; x0a; x00])
  /\ dump_hex [x41; x0a; x00] 2 = " 41 0a"
  /\ String.length (dump_hex [x41; x0a; x00] 2) = 6%nat.
Proof.
  assert (H : 0 <= 2 <= Z.of_nat (List.length [x41; x0a; x00]))
    by (simpl; lia).
  split; [exact H|].
  exact (dump_hex_firstn [x41; x0a; x00] 2 H).
Defined.

Lemma dump_nul_string_eof_witness :
  ~ In x00 [x41; x42]
  /\ dump_nul_string (mkFILE [x41; x42] false)
     = (-1, mkFILE [] true, "AB").
Proof.
  assert (H : ~ In x00 [x41; x42])
    by (intros [E | [E | []]]; discriminate E).
  split; [exact H|].
  exact (dump_nul_string_eof [x41; x42] false H).
Defined.

(** ** Segment bytes *)

Section SegmentBytes.

Context {lib : o65file}.

Lemma count_lf_dump_hex_line (header : o65_header_t) (addr : Z)
  (data : list byte) (len : Z) :
  count_lf (dump_hex_line header addr data len) = 1%nat.
Proof.
  unfold dump_hex_line.
  destruct (negb (Z.land (mode header) O65_MODE_32BIT =? 0));
    rewrite !count_lf_append, count_lf_dump_hex;
    unfold fmt_lx; rewrite count_lf_hex_fixed; reflexivity.
Qed.

Lemma chunks_step (len : Z) :
  16 <= len -> (len + 15) / 16 = (len - 16 + 15) / 16 + 1.
Proof.
  intro H. replace (len + 15) with (len - 16 + 15 + 1 * 16) by lia.
  now rewrite Z.div_add by lia.
Qed.

Lemma fread_all (buf : list byte) (n : Z) (file : FILE) :
  0 <= n <= Z.of_nat (List.length (content file)) ->
  fread buf n file
  = (n, (firstn (Z.to_nat n) (content file) ++ skipn (Z.to_nat n) buf)%list,
     mkFILE (skipn (Z.to_nat n) (content file)) (eof file)).
Proof.
  intro H. rewrite <- (Z2Nat.id n) at 1 2 by lia.
  now rewrite fread_enough by lia.
Qed.

(** With [len] bytes on the stream the loop reads exactly those and
    prints one line for every chunk, the last one included. *)
Lemma dump_segment_loop_complete (n : nat) :
  forall (file : FILE) (header : o65_header_t) (buf : list byte)
         (base len : Z),
  0 <= len ->
  (Z.to_nat (len / 16) <= n)%nat ->
  len <= Z.of_nat (List.length (content file)) ->
  exists out,
    dump_segment_loop n file header buf base len
    = (1, mkFILE (skipn (Z.to_nat len) (content file)) (eof file), out)
    /\ count_lf out = Z.to_nat ((len + 15) / 16).
Proof.
  induction n as [|n IH]; intros file header buf base len H0 Hn Hlen;
    cbn [dump_segment_loop];
    destruct (Z.geb_spec len 16) as [Hge|Hlt].
  - assert (1 <= len / 16) by (apply Z.div_le_lower_bound; lia). lia.
  - destruct (Z.gtb_spec len 0) as [Hpos|Hzero].
    + rewrite fread_all by lia. rewrite Z.eqb_refl. cbn [negb].
      eexists. split; [reflexivity|].
      rewrite count_lf_dump_hex_line.
      replace ((len + 15) / 16) with 1; [reflexivity|].
      apply (Z.div_unique (len + 15) 16 1 (len - 1)); lia.
    + replace len with 0 by lia. exists EmptyString.
      split; [destruct file; reflexivity | reflexivity].
  - rewrite fread_all by lia. change (Z.to_nat 16) with 16%nat.
    rewrite Z.eqb_refl. cbn [negb].
    assert (Hdiv : (len - 16) / 16 = len / 16 - 1).
    { replace (len - 16) with (len + (-1) * 16) by lia.
      rewrite Z.div_add by lia. lia. }
    destruct (IH (mkFILE (skipn 16 (content file)) (eof file)) header
                (firstn 16 (content file) ++ skipn 16 buf)%list
                (o65_size (base + 16)) (len - 16)) as [out [Hrun Hcount]].
    + lia.
    + rewrite Hdiv. lia.
    + cbn [content]. rewrite length_skipn. lia.
    + rewrite Hrun. cbn [content eof].
      rewrite skipn_skipn.
      replace (Z.to_nat (len - 16) + 16)%nat with (Z.to_nat len) by lia.
      eexists. split; [reflexivity|].
      rewrite count_lf_append, count_lf_dump_hex_line, Hcount.
      rewrite (chunks_step len Hge).
      assert (0 <= (len - 16 + 15) / 16) by (apply Z.div_pos; lia). lia.
  - destruct (Z.gtb_spec len 0) as [Hpos|Hzero].
    + rewrite fread_all by lia. rewrite Z.eqb_refl. cbn [negb].
      eexists. split; [reflexivity|].
      rewrite count_lf_dump_hex_line.
      replace ((len + 15) / 16) with 1; [reflexivity|].
      apply (Z.div_unique (len + 15) 16 1 (len - 1)); lia.
    + replace len with 0 by lia. exists EmptyString.
      split; [destruct file; reflexivity | reflexivity].
Qed.

(** X5.  A segment whose [len] bytes are on the stream: [dump_segment]
    answers 1, has read exactly those bytes (the end-of-file indicator is
    untouched), and after the size line has printed one line for every 16
    bytes or part of them; for [len = 0] that is the size line alone and
    nothing is read. *)
Theorem dump_segment_complete (file : FILE) (name : string)
  (header : o65_header_t) (base len : Z) :
  0 <= len ->
  len <= Z.of_nat (List.length (content file)) ->
  exists out,
    dump_segment file name header base len
    = (1, mkFILE (skipn (Z.to_nat len) (content file)) (eof file),
       LF ++ name ++ ": " ++ fmt_lu len ++ " bytes" ++ LF ++ out)
    /\ count_lf out = Z.to_nat ((len + 15) / 16).
Proof.
  intros H0 Hlen. unfold dump_segment.
  destruct (dump_segment_loop_complete (Z.to_nat (len / 16)) file header []
              base len H0 (le_n _) Hlen) as [out [Hrun Hcount]].
  rewrite Hrun. exists out. split; [reflexivity | exact Hcount].
Qed.

Lemma fread_short (buf : list byte) (n : Z) (file : FILE) :
  Z.of_nat (List.length (content file)) < n ->
  exists buf',
    fread buf n file
    = (Z.of_nat (List.length (content file)), buf', mkFILE [] true).
Proof.
  intro H. unfold fread.
  rewrite firstn_all2 by lia.
  rewrite (skipn_all2 (n := Z.to_nat n) (content file)) by lia.
  replace (List.length (content file) <? Z.to_nat n)%nat with true
    by (symmetry; apply Nat.ltb_lt; lia).
  rewrite orb_true_r. eexists. reflexivity.
Qed.

Lemma dump_segment_loop_short (n : nat) :
  forall (file : FILE) (header : o65_header_t) (buf : list byte)
         (base len : Z),
  (Z.to_nat (len / 16) <= n)%nat ->
  Z.of_nat (List.length (content file)) < len ->
  exists out,
    dump_segment_loop n file header buf base len
    = (-1, mkFILE [] true, out)
    /\ count_lf out = (List.length (content file) / 16)%nat.
Proof.
  induction n as [|n IH]; intros file header buf base len Hn Hlen;
    cbn [dump_segment_loop];
    destruct (Z.geb_spec len 16) as [Hge|Hlt].
  - assert (1 <= len / 16) by (apply Z.div_le_lower_bound; lia). lia.
  - destruct (Z.gtb_spec len 0) as [Hpos|Hzero]; [|lia].
    destruct (fread_short buf len file Hlen) as [buf' ->].
    destruct (Z.eqb_spec (Z.of_nat (List.length (content file))) len);
      [lia|]. cbn [negb]. eexists. split; [reflexivity|].
    symmetry. apply Nat.div_small. lia.
  - destruct (Z_lt_le_dec (Z.of_nat (List.length (content file))) 16)
      as [Hfew|Hmany].
    + destruct (fread_short buf 16 file Hfew) as [buf' ->].
      destruct (Z.eqb_spec (Z.of_nat (List.length (content file))) 16);
        [lia|]. cbn [negb]. eexists. split; [reflexivity|].
      symmetry. apply Nat.div_small. lia.
    + rewrite fread_all by lia. change (Z.to_nat 16) with 16%nat.
      rewrite Z.eqb_refl. cbn [negb].
      assert (Hdiv : (len - 16) / 16 = len / 16 - 1).
      { replace (len - 16) with (len + (-1) * 16) by lia.
        rewrite Z.div_add by lia. lia. }
      destruct (IH (mkFILE (skipn 16 (content file)) (eof file)) header
                  (firstn 16 (content file) ++ skipn 16 buf)%list
                  (o65_size (base + 16)) (len - 16)) as [out [Hrun Hcount]].
      * rewrite Hdiv.
        assert (1 <= len / 16) by (apply Z.div_le_lower_bound; lia). lia.
      * cbn [content]. rewrite length_skipn. lia.
      * rewrite Hrun. eexists. split; [reflexivity|].
        rewrite count_lf_append, count_lf_dump_hex_line, Hcount.
        cbn [content]. rewrite length_skipn.
        replace (List.length (content file))
          with (List.length (content file) - 16 + 1 * 16)%nat at 2 by lia.
        rewrite Nat.div_add by lia. lia.
  - destruct (Z.gtb_spec len 0) as [Hpos|Hzero]; [|lia].
    destruct (fread_short buf len file Hlen) as [buf' ->].
    destruct (Z.eqb_spec (Z.of_nat (List.length (content file))) len);
      [lia|]. cbn [negb]. eexists. split; [reflexivity|].
    symmetry. apply Nat.div_small. lia.
Qed.

(** X6.  A segment longer than what is left of the stream: [dump_segment]
    answers -1 with the stream at its end and the end-of-file indicator
    set; the size line and the lines of the whole 16-byte chunks that
    were there stay printed. *)
Theorem dump_segment_truncated (file : FILE) (name : string)
  (header : o65_header_t) (base len : Z) :
  Z.of_nat (List.length (content file)) < len ->
  exists out,
    dump_segment file name header base len
    = (-1, mkFILE [] true,
       LF ++ name ++ ": " ++ fmt_lu len ++ " bytes" ++ LF ++ out)
    /\ count_lf out = (List.length (content file) / 16)%nat.
Proof.
  intro Hlen. unfold dump_segment.
  destruct (dump_segment_loop_short (Z.to_nat (len / 16)) file header []
              base len (le_n _) Hlen) as [out [Hrun Hcount]].
  rewrite Hrun. exists out. split; [reflexivity | exact Hcount].
Qed.

End SegmentBytes.

Lemma dump_segment_complete_witness :
  let file := mkFILE (Ref.bytes (repeat 7 20)) false in
  0 <= 17
  /\ 17 <= Z.of_nat (List.length (content file))
  /\ exists out,
       dump_segment (lib := Ref.lib) file ".text" Ref.null_header 4096 17
       = (1, mkFILE (Ref.bytes [7; 7; 7]) false,
          LF ++ ".text: 17 bytes" ++ LF ++ out)
       /\ count_lf out = 2%nat.
Proof.
  intro file.
  assert (H0 : 0 <= 17) by lia.
  assert (H1 : 17 <= Z.of_nat (List.length (content file)))
    by (vm_compute; discriminate).
  split; [exact H0|]. split; [exact H1|].
  exact (dump_segment_complete (lib := Ref.lib) file ".text"
           Ref.null_header 4096 17 H0 H1).
Defined.

Lemma dump_segment_truncated_witness :
  let file := mkFILE (Ref.bytes (repeat 7 20)) false in
  Z.of_nat (List.length (content file)) < 40
  /\ exists out,
       dump_segment (lib := Ref.lib) file ".text" Ref.null_header 4096 40
       = (-1, mkFILE [] true, LF ++ ".text: 40 bytes" ++ LF ++ out)
       /\ count_lf out = 1%nat.
Proof.
  intro file.
  assert (H : Z.of_nat (List.length (content file)) < 40)
    by (vm_compute; reflexivity).
  split; [exact H|].
  exact (dump_segment_truncated (lib := Ref.lib) file ".text"
           Ref.null_header 4096 40 H).
Defined.

(** ** Symbol tables *)

Section SymbolTables.

Context {lib : o65file}.

Variable header : o65_header_t.

Lemma fread_two (buf : list byte) (b0 b1 : byte) (rest : list byte)
  (at_eof : bool) :
  fread buf 2 (mkFILE (b0 :: b1 :: rest) at_eof)
  = (2, b0 :: b1 :: skipn 2 buf, mkFILE rest at_eof).
Proof. unfold fread. simpl. now rewrite orb_false_r. Qed.

Lemma dump_undefined_symbols_loop_names (names : list (list byte)) :
  forall (index : Z) (rest : list byte) (at_eof : bool),
  Forall (fun name => ~ In x00 name) names ->
  0 <= index ->
  index + Z.of_nat (List.length names) < 2 ^ 32 ->
  dump_undefined_symbols_loop (List.length names)
    (mkFILE (names_bytes names ++ rest) at_eof) index
  = (1, mkFILE rest at_eof, undefined_symbol_lines index names).
Proof.
  induction names as [|name names IH];
    intros index rest at_eof Hnames Hindex Hmax; [reflexivity|].
  inversion Hnames as [|? ? Hname Hnames']; subst.
  cbn [List.length] in Hmax.
  cbn [List.length dump_undefined_symbols_loop names_bytes map List.concat].
  change (List.concat (map (fun name => (name ++ [x00])%list) names))
    with (names_bytes names).
  unfold dump_nul_string. cbn [content eof].
  rewrite <- !app_assoc. cbn [app].
  rewrite (dump_nul_string_loop_name name _ at_eof Hname).
  cbn [Z.leb Z.compare].
  rewrite o65_size_small by (unfold size_ok; lia).
  rewrite IH by (assumption || lia).
  cbn [undefined_symbol_lines]. now rewrite !append_assoc.
Qed.

(** X7.  The undefined-symbol table of a 16-bit image: a count of N > 0 and N
    names, each closed by a NUL.  [dump_undefined_symbols] prints the
    title and one line for every name, numbered from 0, answers 1, and
    leaves the stream right after the last NUL. *)
Theorem dump_undefined_symbols_names (b0 b1 : byte)
  (names : list (list byte)) (rest : list byte) (at_eof : bool) :
  Z.land (mode header) O65_MODE_32BIT = 0 ->
  o65_read_uint16 (buf16 b0 b1) = Z.of_nat (List.length names) ->
  names <> [] ->
  Z.of_nat (List.length names) < 2 ^ 32 ->
  Forall (fun name => ~ In x00 name) names ->
  dump_undefined_symbols
    (mkFILE (b0 :: b1 :: names_bytes names ++ rest) at_eof) header
  = (1, mkFILE rest at_eof,
     LF ++ "Undefined Symbols:" ++ LF ++ undefined_symbol_lines 0 names).
Proof.
  intros H16 Hcount Hne Hmax Hnames.
  unfold dump_undefined_symbols. rewrite H16. cbn [Z.eqb].
  rewrite fread_two. cbn [Z.eqb Pos.eqb negb].
  change (b0 :: b1 :: skipn 2 indeterminate_buf) with (buf16 b0 b1).
  rewrite Hcount. unfold dump_undefined_symbols_from.
  rewrite o65_size_small by (unfold size_ok; lia).
  destruct (Z.eqb_spec (Z.of_nat (List.length names)) 0) as [E|_];
    [destruct names; [contradiction | discriminate E]|].
  rewrite Nat2Z.id.
  now rewrite dump_undefined_symbols_loop_names by (assumption || lia).
Qed.

Hypothesis mode16 : Z.land (mode header) O65_MODE_32BIT = 0.

Lemma dump_exported_symbols_loop_entries (symbols : list exported_symbol) :
  forall (rest : list byte) (at_eof : bool) (b0 b1 : byte),
  Forall (fun s => ~ In x00 (exp_name s)) symbols ->
  dump_exported_symbols_loop (List.length symbols)
    (mkFILE (exported_bytes symbols ++ rest) at_eof) header (buf16 b0 b1)
  = (1, mkFILE rest at_eof, concat_text (map exported_line symbols)).
Proof.
  induction symbols as [|s symbols IH];
    intros rest at_eof b0 b1 Hnames; [reflexivity|].
  inversion Hnames as [|? ? Hname Hnames']; subst.
  cbn [List.length dump_exported_symbols_loop exported_bytes map List.concat].
  change (List.concat
            (map (fun s => (exp_name s
                            ++ [x00; exp_segid s; exp_value0 s; exp_value1 s])
                           %list) symbols))
    with (exported_bytes symbols).
  unfold dump_nul_string. cbn [content eof].
  rewrite <- !app_assoc. cbn [app].
  rewrite (dump_nul_string_loop_name (exp_name s) _ at_eof Hname).
  cbn [Z.leb Z.compare]. unfold getc. cbn [content eof].
  destruct (Z.eqb_spec (byte_val (exp_segid s)) (-1)) as [E|_];
    [pose proof (byte_val_range (exp_segid s)); lia|].
  unfold dump_exported_value. rewrite mode16. cbn [Z.eqb].
  rewrite fread_two. cbn [Z.eqb Pos.eqb negb Z.leb Z.compare].
  change (exp_value0 s :: exp_value1 s :: skipn 2 (buf16 b0 b1))
    with (buf16 (exp_value0 s) (exp_value1 s)).
  rewrite (IH rest at_eof _ _ Hnames').
  cbn [concat_text fold_right].
  change (fold_right append EmptyString (map exported_line symbols))
    with (concat_text (map exported_line symbols)).
  unfold exported_line at 2.
  rewrite fmt_lx_hex_min by apply o65_size_ok.
  now rewrite !append_assoc.
Qed.

(** X8.  The exported-symbol table of a 16-bit image: a count of N > 0 and N
    entries (name, NUL, segment byte, two value bytes).
    [dump_exported_symbols] prints the title and one line for every
    entry -- name, segment name, value in four digits -- answers 1, and
    leaves the stream right after the last entry. *)
Theorem dump_exported_symbols_entries (b0 b1 : byte)
  (symbols : list exported_symbol) (rest : list byte) (at_eof : bool) :
  o65_read_uint16 (buf16 b0 b1) = Z.of_nat (List.length symbols) ->
  symbols <> [] ->
  Z.of_nat (List.length symbols) < 2 ^ 32 ->
  Forall (fun s => ~ In x00 (exp_name s)) symbols ->
  dump_exported_symbols
    (mkFILE (b0 :: b1 :: exported_bytes symbols ++ rest) at_eof) header
  = (1, mkFILE rest at_eof,
     LF ++ "Exported Symbols:" ++ LF
     ++ concat_text (map exported_line symbols)).
Proof.
  intros Hcount Hne Hmax Hnames.
  unfold dump_exported_symbols. rewrite mode16. cbn [Z.eqb].
  rewrite fread_two. cbn [Z.eqb Pos.eqb negb].
  change (b0 :: b1 :: skipn 2 indeterminate_buf) with (buf16 b0 b1).
  rewrite Hcount. unfold dump_exported_symbols_from.
  rewrite o65_size_small by (unfold size_ok; lia).
  destruct (Z.eqb_spec (Z.of_nat (List.length symbols)) 0) as [E|_];
    [destruct symbols; [contradiction | discriminate E]|].
  rewrite Nat2Z.id.
  now rewrite dump_exported_symbols_loop_entries by assumption.
Qed.

End SymbolTables.

Section SymbolTables32.

Context {lib : o65file}.

Variable header : o65_header_t.

Hypothesis mode32 : Z.land (mode header) O65_MODE_32BIT <> 0.

Lemma fread4_got2 (file : FILE) :
  fst (fst (fread indeterminate_buf 4 file)) = 2 ->
  List.length (content file) = 2%nat
  /\ snd (fread indeterminate_buf 4 file) = mkFILE [] true.
Proof.
  unfold fread. cbn [fst snd]. intro H.
  rewrite length_firstn in H. change (Z.to_nat 4) with 4%nat in *.
  assert (Hlen : List.length (content file) = 2%nat) by lia.
  split; [exact Hlen|].
  rewrite length_firstn, Hlen.
  rewrite (skipn_all2 (n := 4%nat) (content file)) by lia.
  now rewrite orb_true_r.
Qed.

(** X9.  With the 32-bit flag a symbol table never lists a symbol: the only
    way [dump_undefined_symbols] or [dump_exported_symbols] answers 1 is
    on a stream of exactly two bytes, and what it has printed then is
    the "none" line. *)
Theorem symbol_tables_32bit_only_none (file file' : FILE) (out : string) :
  (dump_undefined_symbols file header = (1, file', out) ->
   List.length (content file) = 2%nat
   /\ out = LF ++ "Undefined Symbols: none" ++ LF)
  /\ (dump_exported_symbols file header = (1, file', out) ->
      List.length (content file) = 2%nat
      /\ out = LF ++ "Exported Symbols: none" ++ LF).
Proof.
  pose proof (fread4_got2 file) as Hread.
  split.
  - unfold dump_undefined_symbols.
    destruct (Z.eqb_spec (Z.land (mode header) O65_MODE_32BIT) 0) as [|_];
      [contradiction|].
    destruct (fread indeterminate_buf 4 file) as [[got buf] file1].
    cbn [fst snd] in Hread.
    destruct (Z.eqb_spec got 2) as [Hgot|_]; cbn [negb];
      [|intro E; inversion E].
    destruct (Hread Hgot) as [Hlen ->].
    unfold dump_undefined_symbols_from.
    destruct (Z.eqb_spec (o65_size (o65_read_uint32 buf)) 0) as [|Hnz].
    + intro E. inversion E. now split.
    + pose proof (o65_size_ok (o65_read_uint32 buf)) as [Hge _].
      destruct (Z.to_nat (o65_size (o65_read_uint32 buf))) as [|n] eqn:En;
        [lia|].
      cbn. intro E. inversion E.
  - unfold dump_exported_symbols.
    destruct (Z.eqb_spec (Z.land (mode header) O65_MODE_32BIT) 0) as [|_];
      [contradiction|].
    destruct (fread indeterminate_buf 4 file) as [[got buf] file1].
    cbn [fst snd] in Hread.
    destruct (Z.eqb_spec got 2) as [Hgot|_]; cbn [negb];
      [|intro E; inversion E].
    destruct (Hread Hgot) as [Hlen ->].
    unfold dump_exported_symbols_from.
    destruct (Z.eqb_spec (o65_size (o65_read_uint32 buf)) 0) as [|Hnz].
    + intro E. inversion E. now split.
    + pose proof (o65_size_ok (o65_read_uint32 buf)) as [Hge _].
      destruct (Z.to_nat (o65_size (o65_read_uint32 buf))) as [|n] eqn:En;
        [lia|].
      cbn. intro E. inversion E.
Qed.

End SymbolTables32.

Lemma dump_undefined_symbols_names_witness :
  let names := [[x61; x62]; [x63]] in
  Z.land (mode Ref.null_header) 8192 = 0
  /\ Ref.read_uint16 (buf16 (lib := Ref.lib) x02 x00) = 2
  /\ Forall (fun name => ~ In x00 name) names
  /\ dump_undefined_symbols (lib := Ref.lib) Ref.two_names Ref.null_header
     = (1, mkFILE [x07] false,
        LF ++ "Undefined Symbols:" ++ LF
        ++ "    0: ab" ++ LF ++ "    1: c" ++ LF).
Proof.
  intro names.
  assert (Hn : Forall (fun name => ~ In x00 name) names).
  { repeat constructor.
    - intros [E | [E | []]]; discriminate E.
    - intros [E | []]; discriminate E. }
  assert (Hne : names <> []) by discriminate.
  assert (Hmax : Z.of_nat (List.length names) < 2 ^ 32) by reflexivity.
  split; [reflexivity|]. split; [reflexivity|]. split; [exact Hn|].
  exact (dump_undefined_symbols_names (lib := Ref.lib) Ref.null_header
           x02 x00 names [x07] false eq_refl eq_refl Hne Hmax Hn).
Defined.

Lemma dump_exported_symbols_entries_witness :
  let symbols := [mk_exported [x61; x62] x02 x34 x12] in
  Z.land (mode Ref.null_header) 8192 = 0
  /\ Ref.read_uint16 (buf16 (lib := Ref.lib) x01 x00) = 1
  /\ Forall (fun s => ~ In x00 (exp_name s)) symbols
  /\ dump_exported_symbols (lib := Ref.lib) Ref.one_export Ref.null_header
     = (1, mkFILE [x07] false,
        LF ++ "Exported Symbols:" ++ LF ++ "    ab, text, 0x1234" ++ LF).
Proof.
  intro symbols.
  assert (Hn : Forall (fun s => ~ In x00 (exp_name s)) symbols).
  { repeat constructor. intros [E | [E | []]]; discriminate E. }
  assert (Hne : symbols <> []) by discriminate.
  assert (Hmax : Z.of_nat (List.length symbols) < 2 ^ 32) by reflexivity.
  split; [reflexivity|]. split; [reflexivity|]. split; [exact Hn|].
  exact (dump_exported_symbols_entries (lib := Ref.lib) Ref.null_header
           eq_refl x01 x00 symbols [x07] false eq_refl Hne Hmax Hn).
Defined.

Lemma symbol_tables_32bit_only_none_witness :
  let file := mkFILE [x00; x00] false in
  Z.land (mode Ref.header32) 8192 <> 0
  /\ dump_undefined_symbols (lib := Ref.lib) file Ref.header32
     = (1, mkFILE [] true, LF ++ "Undefined Symbols: none" ++ LF)
  /\ List.length (content file) = 2%nat.
Proof.
  intro file.
  assert (Hflag : Z.land (mode Ref.header32) 8192 <> 0) by discriminate.
  assert (Hrun : dump_undefined_symbols (lib := Ref.lib) file Ref.header32
                 = (1, mkFILE [] true, LF ++ "Undefined Symbols: none" ++ LF))
    by reflexivity.
  split; [exact Hflag|]. split; [exact Hrun|].
  exact (proj1 (proj1 (symbol_tables_32bit_only_none (lib := Ref.lib)
                         Ref.header32 Hflag file (mkFILE [] true) _)
                  Hrun)).
Defined.

(** ** Failing reads *)

Section FailingReads.

Context {lib : o65file}.

Lemma dump_relocs_loop_failure (header : o65_header_t)
  (relocs : list o65_reloc_t) :
  forall (file file1 file2 : FILE) (result : Z) (reloc : o65_reloc_t)
         (addr : Z) (fuel : nat),
  reloc_reads header file relocs file1 ->
  Forall (fun reloc => reloc_offset reloc <> 0) relocs ->
  o65_read_reloc file1 header = (result, reloc, file2) ->
  result <= 0 ->
  (List.length relocs < fuel)%nat ->
  dump_relocs_loop fuel file header addr
  = Some (result, file2, reloc_lines header (reloc_walk addr relocs)).
Proof.
  induction relocs as [|r relocs IH];
    intros file file1 file2 result reloc addr fuel Hreads Hoff Hfail Hres
      Hfuel;
    (destruct fuel as [|fuel]; [simpl in Hfuel; lia|]);
    inversion Hreads as [|? res ? file' ? ? Hread Hpos Hrest]; subst;
    cbn [dump_relocs_loop].
  - rewrite Hfail.
    destruct (Z.leb_spec result 0) as [_|]; [reflexivity | lia].
  - rewrite Hread.
    destruct (Z.leb_spec res 0) as [|_]; [lia|].
    inversion Hoff as [|? ? Hnz Hoff']; subst.
    destruct (Z.eqb_spec (reloc_offset r) 0) as [|_]; [contradiction|].
    assert (Hfuel' : (List.length relocs < fuel)%nat)
      by (simpl in Hfuel; lia).
    cbn [reloc_walk]. unfold reloc_step.
    destruct (Z.eqb_spec (reloc_offset r) 255) as [E|_].
    + exact (IH _ _ _ _ _ _ _ Hrest Hoff' Hfail Hres Hfuel').
    + rewrite (IH _ _ _ _ _ _ _ Hrest Hoff' Hfail Hres Hfuel').
      reflexivity.
Qed.

(** X10.  When the relocation reader fails (a result of 0 or less) after some
    entries, [dump_relocs] answers that result at once, on the stream
    the reader left; the relocations decoded before stay printed. *)
Theorem dump_relocs_failure (header : o65_header_t) (name : string)
  (base : Z) (relocs : list o65_reloc_t) (file file1 file2 : FILE)
  (result : Z) (reloc : o65_reloc_t) (fuel : nat) :
  reloc_reads header file relocs file1 ->
  Forall (fun reloc => reloc_offset reloc <> 0) relocs ->
  o65_read_reloc file1 header = (result, reloc, file2) ->
  result <= 0 ->
  (List.length relocs < fuel)%nat ->
  dump_relocs fuel file name header base
  = Some (result, file2,
          LF ++ name ++ ".relocs:" ++ LF
          ++ reloc_lines header (reloc_walk (o65_size (base - 1)) relocs)).
Proof.
  intros Hreads Hoff Hfail Hres Hfuel. unfold dump_relocs.
  now rewrite (dump_relocs_loop_failure header relocs file file1 file2
                 result reloc _ fuel Hreads Hoff Hfail Hres Hfuel).
Qed.

Lemma dump_options_failure_from (options : list o65_option_t) :
  forall (file file1 file2 : FILE) (result : Z) (option : o65_option_t)
         (have_options : bool) (fuel : nat),
  option_reads file options file1 ->
  Forall (fun option => opt_len option <> 0) options ->
  o65_read_option file1 = (result, option, file2) ->
  result <= 0 ->
  (List.length options < fuel)%nat ->
  dump_options fuel file have_options
  = Some (result, file2,
          options_title have_options options
          ++ concat_text (map dump_option options)).
Proof.
  induction options as [|o options IH];
    intros file file1 file2 result option have_options fuel
      Hreads Hlen Hfail Hres Hfuel;
    (destruct fuel as [|fuel]; [simpl in Hfuel; lia|]);
    inversion Hreads as [|? res ? file' ? ? Hread Hpos Hrest]; subst;
    cbn [dump_options].
  - rewrite Hfail.
    destruct (Z.leb_spec result 0) as [_|]; [|lia].
    now destruct have_options.
  - rewrite Hread.
    destruct (Z.leb_spec res 0) as [|_]; [lia|].
    inversion Hlen as [|? ? Hnz Hlen']; subst.
    destruct (Z.eqb_spec (opt_len o) 0) as [|_]; [contradiction|].
    rewrite (IH file' file1 file2 result option true fuel Hrest Hlen'
               Hfail Hres) by (simpl in Hfuel; lia).
    destruct have_options; reflexivity.
Qed.

(** X11.  When the option reader fails after some options, the option loop
    answers the reader's result at once; the options read before stay
    printed under their title. *)
Theorem dump_options_failure (options : list o65_option_t)
  (file file1 file2 : FILE) (result : Z) (option : o65_option_t)
  (fuel : nat) :
  option_reads file options file1 ->
  Forall (fun option => opt_len option <> 0) options ->
  o65_read_option file1 = (result, option, file2) ->
  result <= 0 ->
  (List.length options < fuel)%nat ->
  dump_options fuel file false
  = Some (result, file2,
          match options with
          | [] => EmptyString
          | _ :: _ => LF ++ "Options:" ++ LF
          end ++ concat_text (map dump_option options)).
Proof.
  intros Hreads Hlen Hfail Hres Hfuel.
  exact (dump_options_failure_from options file file1 file2 result option
           false fuel Hreads Hlen Hfail Hres Hfuel).
Qed.

End FailingReads.

Lemma dump_relocs_failure_witness :
  let r := mk_reloc 5 130 0 0 in
  reloc_reads (lib := Ref.lib) Ref.null_header Ref.cut_relocs [r]
    (mkFILE [x07] false)
  /\ o65_read_reloc (o65file := Ref.lib) (mkFILE [x07] false)
       Ref.null_header
     = (-1, Ref.null_reloc, mkFILE [] true)
  /\ dump_relocs (lib := Ref.lib) 2 Ref.cut_relocs ".text"
       Ref.null_header 4096
     = Some (-1, mkFILE [] true,
             LF ++ ".text.relocs:" ++ LF ++ "    1004: text, WORD" ++ LF).
Proof.
  intro r.
  assert (H : reloc_reads (lib := Ref.lib) Ref.null_header Ref.cut_relocs
                [r] (mkFILE [x07] false)).
  { eapply reloc_reads_cons; [reflexivity | reflexivity |].
    apply reloc_reads_nil. }
  assert (Hoff : Forall (fun reloc => reloc_offset reloc <> 0) [r])
    by (repeat constructor; discriminate).
  assert (Hres : -1 <= 0) by lia.
  split; [exact H|]. split; [reflexivity|].
  exact (dump_relocs_failure (lib := Ref.lib) Ref.null_header ".text" 4096
           [r] Ref.cut_relocs (mkFILE [x07] false) (mkFILE [] true) (-1)
           Ref.null_reloc 2 H Hoff eq_refl Hres (le_n 2)).
Defined.

Lemma dump_options_failure_witness :
  let o := mk_option 0 4 [x61; x62] in
  option_reads (lib := Ref.lib) Ref.cut_options [o]
    (mkFILE [x05; x03; x41] false)
  /\ o65_read_option (o65file := Ref.lib) (mkFILE [x05; x03; x41] false)
     = (-1, Ref.null_option, mkFILE [] true)
  /\ dump_options (lib := Ref.lib) 2 Ref.cut_options false
     = Some (-1, mkFILE [] true,
             (LF ++ "Options:" ++ LF) ++ "    Filename: ab" ++ LF).
Proof.
  intro o.
  assert (H : option_reads (lib := Ref.lib) Ref.cut_options [o]
                (mkFILE [x05; x03; x41] false)).
  { eapply option_reads_cons; [reflexivity | reflexivity |].
    apply option_reads_nil. }
  assert (Hlen : Forall (fun option => opt_len option <> 0) [o])
    by (repeat constructor; discriminate).
  assert (Hres : -1 <= 0) by lia.
  split; [exact H|]. split; [reflexivity|].
  exact (dump_options_failure (lib := Ref.lib) [o] Ref.cut_options
           (mkFILE [x05; x03; x41] false) (mkFILE [] true) (-1)
           Ref.null_option 2 H Hlen eq_refl Hres (le_n 2)).
Defined.

(** ** Files and the command line *)

Section Files.

Context {lib : o65file}.

Lemma file_error_diagnostic (file : FILE) (filename : string) :
  In (file_error file filename) (diagnostics filename).
Proof.
  unfold file_error, diagnostics. destruct (eof file).
  - right. now left.
  - now left.
Qed.

Lemma fread_spec (buf : list byte) (n : Z) (file : FILE) (got : Z)
  (buf' : list byte) (file' : FILE) :
  fread buf n file = (got, buf', file') ->
  (List.length (content file') <= List.length (content file))%nat
  /\ (got = n -> 0 < n ->
      (List.length (content file') < List.length (content file))%nat).
Proof.
  unfold fread. intro E. inversion E; subst. cbn [content].
  rewrite length_skipn, length_firstn. split; lia.
Qed.

Lemma getc_spec (file : FILE) (ch : Z) (file' : FILE) :
  getc file = (ch, file') ->
  (List.length (content file') <= List.length (content file))%nat
  /\ (0 <= ch ->
      (List.length (content file') < List.length (content file))%nat).
Proof.
  unfold getc. destruct (content file) as [|b rest]; intro E;
    inversion E; subst; cbn [content List.length]; split; lia.
Qed.

Lemma dump_nul_string_content (file : FILE) (result : Z) (file' : FILE)
  (out : string) :
  dump_nul_string file = (result, file', out) ->
  (List.length (content file') <= List.length (content file))%nat.
Proof.
  unfold dump_nul_string. generalize (eof file) as at_eof.
  generalize (content file) as bytes. intros bytes. revert result file' out.
  induction bytes as [|b bytes IH]; intros result file' out at_eof;
    cbn [dump_nul_string_loop].
  - intro E. inversion E; subst. reflexivity.
  - destruct (byte_val b =? 0).
    + intro E. inversion E; subst. cbn [content List.length]. lia.
    + destruct (dump_nul_string_loop bytes at_eof) as [[r f] o] eqn:Hrest.
      intro E. inversion E; subst.
      specialize (IH _ _ _ _ Hrest). cbn [List.length]. lia.
Qed.

Lemma dump_segment_loop_content (header : o65_header_t) (n : nat) :
  forall (file : FILE) (buf : list byte) (base len : Z) (result : Z)
         (file' : FILE) (out : string),
  dump_segment_loop n file header buf base len = (result, file', out) ->
  (List.length (content file') <= List.length (content file))%nat.
Proof.
  assert (Htail : forall file buf base len result file' out,
    (if len >? 0
     then let '(got, buf, file) := fread buf len file in
          if negb (got =? len) then (-1, file, EmptyString)
          else (1, file, dump_hex_line header base buf len)
     else (1, file, EmptyString)) = (result, file', out) ->
    (List.length (content file') <= List.length (content file))%nat).
  { intros file buf base len result file' out.
    destruct (len >? 0); [|intro E; inversion E; subst; reflexivity].
    destruct (fread buf len file) as [[got buf1] file1] eqn:Hread.
    apply fread_spec in Hread. destruct Hread as [Hle _].
    destruct (negb (got =? len)); intro E; inversion E; subst; exact Hle. }
  induction n as [|n IH]; intros file buf base len result file' out;
    cbn [dump_segment_loop]; destruct (len >=? 16); try apply Htail.
  - intro E. inversion E; subst. reflexivity.
  - destruct (fread buf 16 file) as [[got buf1] file1] eqn:Hread.
    apply fread_spec in Hread. destruct Hread as [Hle _].
    destruct (negb (got =? 16)); [intro E; inversion E; subst; exact Hle|].
    destruct (dump_segment_loop n file1 header buf1 (o65_size (base + 16))
                (len - 16)) as [[r f] o] eqn:Hrest.
    intro E. inversion E; subst. specialize (IH _ _ _ _ _ _ _ Hrest). lia.
Qed.

Lemma dump_segment_content (file : FILE) (name : string)
  (header : o65_header_t) (base len : Z) (result : Z) (file' : FILE)
  (out : string) :
  dump_segment file name header base len = (result, file', out) ->
  (List.length (content file') <= List.length (content file))%nat.
Proof.
  unfold dump_segment.
  destruct (dump_segment_loop (Z.to_nat (len / 16)) file header [] base len)
    as [[r f] o] eqn:Hloop.
  intro E. inversion E; subst.
  exact (dump_segment_loop_content _ _ _ _ _ _ _ _ _ Hloop).
Qed.

Lemma dump_undefined_symbols_loop_content (n : nat) :
  forall (file : FILE) (index : Z) (result : Z) (file' : FILE)
         (out : string),
  dump_undefined_symbols_loop n file index = (result, file', out) ->
  (List.length (content file') <= List.length (content file))%nat.
Proof.
  induction n as [|n IH]; intros file index result file' out;
    cbn [dump_undefined_symbols_loop].
  - intro E. inversion E; subst. reflexivity.
  - destruct (dump_nul_string file) as [[r f] name] eqn:Hname.
    apply dump_nul_string_content in Hname.
    destruct (r <=? 0); [intro E; inversion E; subst; exact Hname|].
    destruct (dump_undefined_symbols_loop n f (o65_size (index + 1)))
      as [[r' f'] o] eqn:Hrest.
    intro E. inversion E; subst. specialize (IH _ _ _ _ _ Hrest). lia.
Qed.

Lemma dump_undefined_symbols_content (file : FILE) (header : o65_header_t)
  (result : Z) (file' : FILE) (out : string) :
  dump_undefined_symbols file header = (result, file', out) ->
  (List.length (content file') <= List.length (content file))%nat.
Proof.
  assert (Hfrom : forall f count,
    dump_undefined_symbols_from f count = (result, file', out) ->
    (List.length (content file') <= List.length (content f))%nat).
  { intros f count. unfold dump_undefined_symbols_from.
    destruct (count =? 0); [intro E; inversion E; subst; reflexivity|].
    destruct (dump_undefined_symbols_loop (Z.to_nat count) f 0)
      as [[r f'] o] eqn:Hloop.
    intro E. inversion E; subst.
    exact (dump_undefined_symbols_loop_content _ _ _ _ _ _ Hloop). }
  unfold dump_undefined_symbols.
  destruct (Z.land (mode header) O65_MODE_32BIT =? 0);
    [destruct (fread indeterminate_buf 2 file) as [[got buf] f] eqn:Hread
    |destruct (fread indeterminate_buf 4 file) as [[got buf] f] eqn:Hread];
    apply fread_spec in Hread; destruct Hread as [Hle _];
    (destruct (negb (got =? 2)); [intro E; inversion E; subst; exact Hle|]);
    intro E; apply Hfrom in E; lia.
Qed.

Lemma dump_exported_value_content (file : FILE) (header : o65_header_t)
  (buf : list byte) (result : Z) (buf' : list byte) (file' : FILE)
  (out : string) :
  dump_exported_value file header buf = (result, buf', file', out) ->
  (List.length (content file') <= List.length (content file))%nat.
Proof.
  unfold dump_exported_value.
  destruct (Z.land (mode header) O65_MODE_32BIT =? 0);
    [destruct (fread buf 2 file) as [[got buf1] f] eqn:Hread
    |destruct (fread buf 4 file) as [[got buf1] f] eqn:Hread];
    apply fread_spec in Hread; destruct Hread as [Hle _];
    destruct (negb (got =? 2)); intro E; inversion E; subst; exact Hle.
Qed.

Lemma dump_exported_symbols_loop_content (header : o65_header_t) (n : nat) :
  forall (file : FILE) (buf : list byte) (result : Z) (file' : FILE)
         (out : string),
  dump_exported_symbols_loop n file header buf = (result, file', out) ->
  (List.length (content file') <= List.length (content file))%nat.
Proof.
  induction n as [|n IH]; intros file buf result file' out;
    cbn [dump_exported_symbols_loop].
  - intro E. inversion E; subst. reflexivity.
  - destruct (dump_nul_string file) as [[r f] name] eqn:Hname.
    apply dump_nul_string_content in Hname.
    destruct (r <=? 0); [intro E; inversion E; subst; exact Hname|].
    destruct (getc f) as [ch f1] eqn:Hgetc.
    apply getc_spec in Hgetc. destruct Hgetc as [Hle _].
    destruct (ch =? -1); [intro E; inversion E; subst; lia|].
    destruct (dump_exported_value f1 header buf)
      as [[[r2 buf2] f2] value] eqn:Hvalue.
    apply dump_exported_value_content in Hvalue.
    destruct (r2 <=? 0); [intro E; inversion E; subst; lia|].
    destruct (dump_exported_symbols_loop n f2 header buf2)
      as [[r3 f3] o] eqn:Hrest.
    intro E. inversion E; subst. specialize (IH _ _ _ _ _ Hrest). lia.
Qed.

Lemma dump_exported_symbols_content (file : FILE) (header : o65_header_t)
  (result : Z) (file' : FILE) (out : string) :
  dump_exported_symbols file header = (result, file', out) ->
  (List.length (content file') <= List.length (content file))%nat.
Proof.
  assert (Hfrom : forall f buf count,
    dump_exported_symbols_from f header buf count = (result, file', out) ->
    (List.length (content file') <= List.length (content f))%nat).
  { intros f buf count. unfold dump_exported_symbols_from.
    destruct (count =? 0); [intro E; inversion E; subst; reflexivity|].
    destruct (dump_exported_symbols_loop (Z.to_nat count) f header buf)
      as [[r f'] o] eqn:Hloop.
    intro E. inversion E; subst.
    exact (dump_exported_symbols_loop_content _ _ _ _ _ _ _ Hloop). }
  unfold dump_exported_symbols.
  destruct (Z.land (mode header) O65_MODE_32BIT =? 0);
    [destruct (fread indeterminate_buf 2 file) as [[got buf] f] eqn:Hread
    |destruct (fread indeterminate_buf 4 file) as [[got buf] f] eqn:Hread];
    apply fread_spec in Hread; destruct Hread as [Hle _];
    (destruct (negb (got =? 2)); [intro E; inversion E; subst; exact Hle|]);
    intro E; apply Hfrom in E; lia.
Qed.

Lemma total_settles (n : nat) (f : FILE -> Z * FILE * string) :
  (forall file result file' out,
     f file = (result, file', out) ->
     (List.length (content file') <= List.length (content file))%nat) ->
  settles n (total f).
Proof.
  intros H file _. unfold total.
  destruct (f file) as [[result file'] out] eqn:E.
  exists result, file', out. split; [reflexivity|]. intros _.
  exact (H _ _ _ _ E).
Qed.

Lemma and_then_settles (n : nat) (s k : step) :
  settles n s -> settles n k -> settles n (and_then s k).
Proof.
  intros Hs Hk file Hlen. unfold and_then.
  destruct (Hs file Hlen) as [r [f [o [-> Hle]]]].
  destruct (Z.leb_spec r 0) as [Hfail|Hok].
  - exists r, f, o. split; [reflexivity | lia].
  - specialize (Hle Hok).
    destruct (Hk f) as [r' [f' [o' [-> Hle']]]]; [lia|].
    exists r', f', (o ++ o'). split; [reflexivity|]. intro H.
    specialize (Hle' H). lia.
Qed.

Section Consuming.

Hypothesis consume : readers_consume.

Lemma dump_options_settles (fuel : nat) :
  forall (file : FILE) (have_options : bool),
  (List.length (content file) < fuel)%nat ->
  exists result file' out,
    dump_options fuel file have_options = Some (result, file', out)
    /\ (0 < result ->
        (List.length (content file') <= List.length (content file))%nat).
Proof.
  destruct consume as [_ [Hoption _]].
  induction fuel as [|fuel IH]; intros file have_options Hlen; [lia|].
  cbn [dump_options].
  destruct (o65_read_option file) as [[result option] file1] eqn:Hread.
  destruct (Z.leb_spec result 0) as [Hfail|Hok].
  - do 3 eexists. split; [reflexivity | lia].
  - specialize (Hoption _ _ _ _ Hread Hok).
    destruct (opt_len option =? 0).
    + do 3 eexists. split; [reflexivity | lia].
    + destruct (IH file1 true) as [r [f [o [-> Hle]]]]; [lia|].
      do 3 eexists. split; [reflexivity|]. intro H. specialize (Hle H). lia.
Qed.

Lemma dump_relocs_settles (fuel : nat) (name : string)
  (header : o65_header_t) :
  forall (file : FILE) (addr : Z),
  (List.length (content file) < fuel)%nat ->
  exists result file' out,
    dump_relocs fuel file name header addr = Some (result, file', out)
    /\ (0 < result ->
        (List.length (content file') <= List.length (content file))%nat).
Proof.
  destruct consume as [_ [_ Hreloc]].
  assert (Hloop : forall fuel file addr,
    (List.length (content file) < fuel)%nat ->
    exists result file' out,
      dump_relocs_loop fuel file header addr = Some (result, file', out)
      /\ (0 < result ->
          (List.length (content file') <= List.length (content file))%nat)).
  { clear fuel. induction fuel as [|fuel IH]; intros file addr Hlen; [lia|].
    cbn [dump_relocs_loop].
    destruct (o65_read_reloc file header) as [[result reloc] file1] eqn:Hread.
    destruct (Z.leb_spec result 0) as [Hfail|Hok].
    - do 3 eexists. split; [reflexivity | lia].
    - specialize (Hreloc _ _ _ _ _ Hread Hok).
      destruct (reloc_offset reloc =? 0).
      + do 3 eexists. split; [reflexivity | lia].
      + destruct (reloc_offset reloc =? 255).
        * destruct (IH file1 (o65_size (addr + 254)))
            as [r [f [o [-> Hle]]]]; [lia|].
          do 3 eexists. split; [reflexivity|]. intro H.
          specialize (Hle H). lia.
        * destruct (IH file1 (o65_size (addr + reloc_offset reloc)))
            as [r [f [o [-> Hle]]]]; [lia|].
          do 3 eexists. split; [reflexivity|]. intro H.
          specialize (Hle H). lia. }
  intros file addr Hlen. unfold dump_relocs.
  destruct (Hloop fuel file (o65_size (addr - 1)) Hlen)
    as [r [f [o [-> Hle]]]].
  do 3 eexists. split; [reflexivity | exact Hle].
Qed.

Lemma dump_image_settles (fuel : nat) (file : FILE) (header : o65_header_t) :
  (List.length (content file) < fuel)%nat ->
  exists result file' out,
    dump_image fuel file header = Some (result, file', out)
    /\ (0 < result ->
        (List.length (content file') <= List.length (content file))%nat).
Proof.
  intro Hlen.
  assert (Hopts : settles (List.length (content file))
                    (fun file => dump_options fuel file false))
    by (intros f Hf; apply dump_options_settles; lia).
  assert (Hrel : forall name addr,
            settles (List.length (content file))
              (fun file => dump_relocs fuel file name header addr))
    by (intros name addr f Hf; apply dump_relocs_settles; lia).
  unfold dump_image.
  refine (and_then_settles _ _ _ _ (and_then_settles _ _ _ Hopts
            (and_then_settles _ _ _ _ (and_then_settles _ _ _ _
               (and_then_settles _ _ _ _ (and_then_settles _ _ _ (Hrel _ _)
                  (and_then_settles _ _ _ (Hrel _ _) _))))))
            file (le_n _)).
  - intros f _. unfold printf. do 3 eexists. split; [reflexivity|].
    intros _. apply le_n.
  - apply total_settles. intros f r f' o. apply dump_segment_content.
  - apply total_settles. intros f r f' o. apply dump_segment_content.
  - apply total_settles. intros f r f' o.
    apply dump_undefined_symbols_content.
  - apply total_settles. intros f r f' o.
    apply dump_exported_symbols_content.
Qed.

Lemma dump_file_loop_settles (filename : string) (fuel : nat) :
  forall file : FILE,
  (List.length (content file) < fuel)%nat ->
  exists ok out err,
    dump_file_loop fuel file filename = Some (ok, out, err)
    /\ ((ok = 1 /\ err = EmptyString)
        \/ (ok = 0 /\ In err (diagnostics filename))).
Proof.
  destruct consume as [Hheader _].
  induction fuel as [|fuel IH]; intros file Hlen; [lia|].
  cbn [dump_file_loop].
  destruct (o65_read_header file) as [[result header] file1] eqn:Hread.
  destruct (Z.ltb_spec result 0) as [Hneg|Hnonneg].
  { do 3 eexists. split; [reflexivity|]. right. split; [reflexivity|].
    apply file_error_diagnostic. }
  destruct (Z.eqb_spec result 0) as [Hzero|Hnz].
  { do 3 eexists. split; [reflexivity|]. right. split; [reflexivity|].
    unfold diagnostics. simpl. tauto. }
  assert (Hshort : (List.length (content file1)
                    < List.length (content file))%nat)
    by (apply (Hheader _ _ _ _ Hread); lia).
  destruct (dump_image_settles fuel file1 header)
    as [code [file2 [out [-> Hle]]]]; [lia|].
  destruct (Z.ltb_spec code 0) as [Hcneg|Hcnonneg].
  { do 3 eexists. split; [reflexivity|]. right. split; [reflexivity|].
    apply file_error_diagnostic. }
  destruct (Z.eqb_spec code 0) as [Hczero|Hcnz].
  { do 3 eexists. split; [reflexivity|]. right. split; [reflexivity|].
    unfold diagnostics. simpl. tauto. }
  destruct (negb (Z.land (mode header) O65_MODE_CHAIN =? 0)).
  - assert (Hle' : (List.length (content file2)
                    <= List.length (content file1))%nat)
      by (apply Hle; lia).
    destruct (IH file2) as [ok [out' [err [-> Hrep]]]]; [lia|].
    do 3 eexists. split; [reflexivity | exact Hrep].
  - do 3 eexists. split; [reflexivity|]. now left.
Qed.

End Consuming.

(** X12.  With readers that consume at least one byte whenever they
    succeed, [dump_file] ends for every file once the fuel exceeds the
    length of the file, with 1 or 0, and its diagnostics agree with the
    answer: with 1 nothing was written to the error stream; with 0 the
    error stream holds one of the four messages [dump_file] has for the
    file (the [perror] text, "unexpected EOF", "not in .o65 format" or
    "invalid format"). *)
Theorem dump_file_report (fuel : nat) (fs : filesystem) (filename : string) :
  readers_consume ->
  (forall bytes, fs filename = Some bytes ->
                 (List.length bytes < fuel)%nat) ->
  exists ok out err,
    dump_file fuel fs filename = Some (ok, out, err)
    /\ ((ok = 1 /\ err = EmptyString)
        \/ (ok = 0 /\ In err (diagnostics filename))).
Proof.
  intros Hconsume Hfuel. unfold dump_file.
  destruct (fs filename) as [bytes|].
  - apply (dump_file_loop_settles Hconsume). cbn [content].
    now apply Hfuel.
  - do 3 eexists. split; [reflexivity|]. right. split; [reflexivity|].
    now left.
Qed.

(** X13.  A file of two images, the first with the chain bit and the second
    without: [dump_file] dumps both with one empty line between them and
    answers 1; and an image without the chain bit ends the dump, the
    header reader is not called again. *)
Theorem dump_file_chain (fuel : nat) (file : FILE) (filename : string)
  (result1 : Z) (header1 : o65_header_t) (file1 file2 : FILE)
  (code1 : Z) (out1 : string) :
  o65_read_header file = (result1, header1, file1) ->
  0 < result1 ->
  dump_image (S fuel) file1 header1 = Some (code1, file2, out1) ->
  0 < code1 ->
  (Z.land (mode header1) O65_MODE_CHAIN = 0 ->
   dump_file_loop (S (S fuel)) file filename
   = Some (1, out1, EmptyString))
  /\ (forall result2 header2 file3 file4 code2 out2,
        Z.land (mode header1) O65_MODE_CHAIN <> 0 ->
        o65_read_header file2 = (result2, header2, file3) ->
        0 < result2 ->
        dump_image fuel file3 header2 = Some (code2, file4, out2) ->
        0 < code2 ->
        Z.land (mode header2) O65_MODE_CHAIN = 0 ->
        dump_file_loop (S (S fuel)) file filename
        = Some (1, out1 ++ LF ++ out2, EmptyString)).
Proof.
  intros Hread1 Hres1 Himage1 Hcode1.
  assert (Hfirst :
    dump_file_loop (S (S fuel)) file filename
    = if negb (Z.land (mode header1) O65_MODE_CHAIN =? 0) then
        match dump_file_loop (S fuel) file2 filename with
        | None => None
        | Some (ok, out', err) => Some (ok, out1 ++ LF ++ out', err)
        end
      else Some (1, out1, EmptyString)).
  { cbn [dump_file_loop].
    rewrite Hread1.
    destruct (Z.ltb_spec result1 0) as [|_]; [lia|].
    destruct (Z.eqb_spec result1 0) as [|_]; [lia|].
    rewrite Himage1.
    destruct (Z.ltb_spec code1 0) as [|_]; [lia|].
    destruct (Z.eqb_spec code1 0) as [|_]; [lia|].
    reflexivity. }
  split.
  - intro Hlast. rewrite Hfirst, Hlast. reflexivity.
  - intros result2 header2 file3 file4 code2 out2
      Hchain Hread2 Hres2 Himage2 Hcode2 Hlast.
    rewrite Hfirst.
    destruct (Z.eqb_spec (Z.land (mode header1) O65_MODE_CHAIN) 0) as [|_];
      [contradiction|].
    cbn [negb dump_file_loop]. rewrite Hread2.
    destruct (Z.ltb_spec result2 0) as [|_]; [lia|].
    destruct (Z.eqb_spec result2 0) as [|_]; [lia|].
    rewrite Himage2.
    destruct (Z.ltb_spec code2 0) as [|_]; [lia|].
    destruct (Z.eqb_spec code2 0) as [|_]; [lia|].
    rewrite Hlast. reflexivity.
Qed.



(** X15.  A text segment cut short by the end of the file: once the header and
    the options are read, [dump_file] keeps what it has printed, reports
    "unexpected EOF" for the file and answers 0. *)
Theorem dump_file_truncated_text (fuel : nat) (file : FILE)
  (filename : string) (result : Z) (header : o65_header_t)
  (file1 file2 : FILE) (code : Z) (options : string) :
  o65_read_header file = (result, header, file1) ->
  0 < result ->
  dump_options fuel file1 false = Some (code, file2, options) ->
  0 < code ->
  Z.of_nat (List.length (content file2)) < tlen header ->
  exists lines,
    dump_file_loop (S fuel) file filename
    = Some (0,
            ("Header:" ++ LF ++ dump_mode header ++ dump_header_fields header)
            ++ options
            ++ (LF ++ ".text: " ++ fmt_lu (tlen header) ++ " bytes" ++ LF
                ++ lines),
            filename ++ ": unexpected EOF" ++ LF).
Proof.
  intros Hread Hres Hopts Hcode Hshort.
  destruct (dump_segment_loop_short (Z.to_nat (tlen header / 16)) file2
              header [] (tbase header) (tlen header) (le_n _) Hshort)
    as [lines [Hseg _]].
  exists lines. cbn [dump_file_loop]. rewrite Hread.
  destruct (Z.ltb_spec result 0) as [|_]; [lia|].
  destruct (Z.eqb_spec result 0) as [|_]; [lia|].
  unfold dump_image, and_then, printf, total.
  cbn [Z.leb Z.compare]. rewrite Hopts.
  destruct (Z.leb_spec code 0) as [|_]; [lia|].
  unfold dump_segment. rewrite Hseg.
  cbn [Z.leb Z.compare Z.ltb Z.eqb file_error eof].
  reflexivity.
Qed.

End Files.

(** The reference readers consume what they decode. *)
Lemma ref_readers_consume : readers_consume (lib := Ref.lib).
Proof.
  split; [|split].
  - intros file result header file'. cbn [o65_read_header Ref.lib].
    unfold Ref.read_header.
    destruct (fread [] 8 file) as [[got buf] f1] eqn:H1.
    apply fread_spec in H1. destruct H1 as [_ H1].
    destruct (Z.eqb_spec got 8) as [Hgot|_]; cbn [negb];
      [|intro E; inversion E; lia].
    assert (Hshort := H1 Hgot eq_refl). clear H1.
    destruct (list_eq_dec Z.eq_dec (map byte_val (firstn 6 buf)) Ref.magic);
      [|intro E; inversion E; lia].
    destruct (fread [] (9 * (if Z.land (Ref.read_uint16 (skipn 6 buf)) 8192
                                 =? 0 then 2 else 4)) f1)
      as [[got2 buf2] f2] eqn:H2.
    apply fread_spec in H2. destruct H2 as [H2 _].
    destruct (negb (got2 =? _)); intro E; inversion E; subst; lia.
  - intros file result option file'. cbn [o65_read_option Ref.lib].
    unfold Ref.read_option.
    destruct (getc file) as [n f1] eqn:H1.
    apply getc_spec in H1. destruct H1 as [_ H1].
    destruct (Z.ltb_spec n 0) as [|Hn]; [intro E; inversion E; lia|].
    specialize (H1 Hn).
    destruct (n =? 0); [intro E; inversion E; subst; intros _; exact H1|].
    destruct (getc f1) as [ty f2] eqn:H2.
    apply getc_spec in H2. destruct H2 as [H2 _].
    destruct (ty <? 0); [intro E; inversion E; lia|].
    destruct (fread [] (n - 2) f2) as [[got buf] f3] eqn:H3.
    apply fread_spec in H3. destruct H3 as [H3 _].
    destruct (negb (got =? Z.max 0 (n - 2))); intro E; inversion E; subst;
      lia.
  - intros file header result reloc file'. cbn [o65_read_reloc Ref.lib].
    unfold Ref.read_reloc.
    destruct (getc file) as [off f1] eqn:H1.
    apply getc_spec in H1. destruct H1 as [_ H1].
    destruct (Z.ltb_spec off 0) as [|Hoff]; [intro E; inversion E; lia|].
    specialize (H1 Hoff).
    destruct ((off =? 0) || (off =? 255));
      [intro E; inversion E; subst; intros _; exact H1|].
    destruct (getc f1) as [ty f2] eqn:H2.
    apply getc_spec in H2. destruct H2 as [H2 _].
    destruct (ty <? 0); [intro E; inversion E; lia|].
    match goal with
    | |- context [fread [] ?w f2] =>
        destruct (fread [] w f2) as [[got buf] f3] eqn:H3
    end.
    apply fread_spec in H3. destruct H3 as [H3 _].
    destruct (negb (got =? _)); [intro E; inversion E; lia|].
    match goal with
    | |- context [fread [] ?e f3] =>
        destruct (fread [] e f3) as [[got2 buf2] f4] eqn:H4
    end.
    apply fread_spec in H4. destruct H4 as [H4 _].
    destruct (negb (got2 =? _)); intro E; inversion E; subst; lia.
Qed.

Lemma dump_file_report_witness :
  let fs := Ref.disk "chain.o65" Ref.broken_chain in
  readers_consume (lib := Ref.lib)
  /\ (forall bytes, fs "chain.o65" = Some bytes ->
                    (List.length bytes < 60)%nat)
  /\ exists ok out err,
       dump_file (lib := Ref.lib) 60 fs "chain.o65" = Some (ok, out, err)
       /\ ((ok = 1 /\ err = EmptyString)
           \/ (ok = 0 /\ In err (diagnostics (lib := Ref.lib) "chain.o65"))).
Proof.
  intro fs.
  assert (Hfuel : forall bytes, fs "chain.o65" = Some bytes ->
                                (List.length bytes < 60)%nat).
  { intros bytes E. inversion E; subst. vm_compute. lia. }
  split; [exact ref_readers_consume|]. split; [exact Hfuel|].
  exact (dump_file_report (lib := Ref.lib) 60 fs "chain.o65"
           ref_readers_consume Hfuel).
Defined.

Lemma dump_file_chain_witness :
  let file := mkFILE Ref.two_images false in
  let header1 := mk_header 1024 4096 0 8192 0 12288 0 0 0 0 in
  let header2 := mk_header 0 4096 0 8192 0 12288 0 0 0 0 in
  let file1 := mkFILE (skipn 26 Ref.two_images) false in
  let file2 := mkFILE (Ref.empty_image 0 0) false in
  let file3 := mkFILE (skipn 26 (Ref.empty_image 0 0)) false in
  o65_read_header (o65file := Ref.lib) file = (1, header1, file1)
  /\ o65_read_header (o65file := Ref.lib) file2 = (1, header2, file3)
  /\ exists out1 out2,
       dump_image (lib := Ref.lib) 4 file1 header1 = Some (1, file2, out1)
       /\ dump_image (lib := Ref.lib) 3 file3 header2
          = Some (1, mkFILE [] false, out2)
       /\ dump_file_loop (lib := Ref.lib) 5 file "two.o65"
          = Some (1, out1 ++ LF ++ out2, EmptyString).
Proof.
  intros file header1 header2 file1 file2 file3.
  split; [reflexivity|]. split; [reflexivity|].
  do 2 eexists.
  assert (H1 : dump_image (lib := Ref.lib) 4 file1 header1
               = Some (1, file2, _)) by (vm_compute; reflexivity).
  assert (H2 : dump_image (lib := Ref.lib) 3 file3 header2
               = Some (1, mkFILE [] false, _)) by (vm_compute; reflexivity).
  split; [exact H1|]. split; [exact H2|].
  assert (Hchain : Z.land 1024 1024 <> 0) by discriminate.
  assert (Hpos : 0 < 1) by lia.
  exact (proj2 (dump_file_chain (lib := Ref.lib) 3 file "two.o65"
                  1 header1 file1 file2 1 _ eq_refl Hpos H1 Hpos)
           1 header2 file3 (mkFILE [] false) 1 _
           Hchain eq_refl Hpos H2 Hpos eq_refl).
Defined.


Lemma dump_file_truncated_text_witness :
  let file := mkFILE Ref.cut_image false in
  let header := mk_header 0 4096 32 0 0 0 0 0 0 0 in
  let file1 := mkFILE (skipn 26 Ref.cut_image) false in
  let file2 := mkFILE (Ref.bytes [7; 7; 7]) false in
  o65_read_header (o65file := Ref.lib) file = (1, header, file1)
  /\ dump_options (lib := Ref.lib) 2 file1 false
     = Some (1, file2, EmptyString)
  /\ Z.of_nat (List.length (content file2)) < tlen header
  /\ exists out,
       dump_file_loop (lib := Ref.lib) 3 file "cut.o65"
       = Some (0, out, "cut.o65: unexpected EOF" ++ LF).
Proof.
  intros file header file1 file2.
  assert (Hshort : Z.of_nat (List.length (content file2)) < tlen header)
    by reflexivity.
  assert (Hpos : 0 < 1) by lia.
  split; [reflexivity|]. split; [reflexivity|]. split; [exact Hshort|].
  destruct (dump_file_truncated_text (lib := Ref.lib) 2 file "cut.o65"
              1 header file1 file2 1 EmptyString eq_refl Hpos eq_refl Hpos
              Hshort) as [lines Hrun].
  eexists. exact Hrun.
Defined.
